(** * Teal / C9 distributed runtime: the AWS controller and the Lambda entry points

    A shallow embedding of
      - [src/c9c/runtime/aws.py]                  (module [C9cAws]),
      - [src/c9c/runtime/executors/awslambda.py]  (module [C9cLambdaRunner]),
      - [src/teal_lang/executors/awslambda.py]    (module [TealLambda]),
    with the properties of the specification stated and proved over it.

    Python code that mutates the session, takes the session lock, calls the
    Lambda service or raises is written in a state-and-exception monad over an
    explicit world. Calls to the logger have no counterpart. *)

From stdpp Require Import base strings list gmap pretty.
From Stdlib Require Import ZArith Lia.

Local Set Warnings "-register-all".
Local Open Scope string_scope.
Local Open Scope Z_scope.

(** ** Python preliminaries *)

Module Py.

(** Run-time values that cross the entry points (JSON-shaped). Numbers are
    integers; a dict keeps its insertion order, as Python's does. *)
Inductive pyval : Type :=
| PNone
| PBool (b : bool)
| PInt (z : Z)
| PStr (s : string)
| PList (l : list pyval)
| PDict (d : list (string * pyval)).

(** Python truthiness ([if x], [not x]). *)
Definition truthy (v : pyval) : bool :=
  match v with
  | PNone => false
  | PBool b => b
  | PInt z => negb (z =? 0)
  | PStr s => negb (String.eqb s "")
  | PList l => match l with [] => false | _ => true end
  | PDict d => match d with [] => false | _ => true end
  end.

(** [d.get(key, default)] on a dict held in insertion order. *)
Fixpoint dict_get (d : list (string * pyval)) (key : string) (default : pyval) : pyval :=
  match d with
  | [] => default
  | (k, v) :: rest => if String.eqb k key then v else dict_get rest key default
  end.

Definition dict_keys (d : list (string * pyval)) : list string := d.*1.

(** A raised exception: its class and its [str()]. Every exception of the
    model derives from [Exception]. *)
Record exn : Type := Exn { exn_class : string; exn_str : string }.

Definition NameError (name : string) : exn :=
  Exn "NameError" ("name '" ++ name ++ "' is not defined").
Definition IndexError : exn := Exn "IndexError" "list index out of range".
Definition KeyError (key : string) : exn := Exn "KeyError" ("'" ++ key ++ "'").
Definition TypeError (msg : string) : exn := Exn "TypeError" msg.
Definition AssertionError : exn := Exn "AssertionError" "".
Definition Exception (msg : string) : exn := Exn "Exception" msg.

(** How a call ends: it returns, it raises, or it is still running when the
    observed schedule of the environment ends (only a polling loop can be). *)
Inductive res (A : Type) : Type :=
| Ok (a : A)
| Raise (e : exn)
| Unfinished.
Global Arguments Ok {A} a.
Global Arguments Raise {A} e.
Global Arguments Unfinished {A}.

(** Statements that read and write a world [W] and may raise. *)
Definition M (W A : Type) : Type := W -> res A * W.

Definition ret {W A} (a : A) : M W A := fun w => (Ok a, w).
Definition raise {W A} (e : exn) : M W A := fun w => (Raise e, w).
Definition bind {W A B} (m : M W A) (k : A -> M W B) : M W B :=
  fun w => match m w with
           | (Ok a, w') => k a w'
           | (Raise e, w') => (Raise e, w')
           | (Unfinished, w') => (Unfinished, w')
           end.
Definition lift {W A} (r : res A) : M W A := fun w => (r, w).
Definition gets {W A} (f : W -> A) : M W A := fun w => (Ok (f w), w).
Definition modify {W} (f : W -> W) : M W unit := fun w => (Ok tt, f w).

(** [assert cond] *)
Definition py_assert {W} (cond : bool) : M W unit :=
  if cond then ret tt else raise AssertionError.

(** Name resolution at module scope: a name that is neither bound in the
    module's globals nor a builtin raises [NameError] when it is evaluated. *)
Definition builtins : list string :=
  ["Exception"; "KeyError"; "TypeError"; "assert"; "all"; "dict"; "int";
   "isinstance"; "len"; "list"; "print"; "property"; "str"; "super"].

Definition name_bound (globals : list string) (name : string) : bool :=
  bool_decide (name ∈ globals) || bool_decide (name ∈ builtins).

Definition load_global {W} (globals : list string) (name : string) : M W unit :=
  if name_bound globals name then ret tt else raise (NameError name).

(** The class expression of an [except] clause. Python evaluates it only
    when an exception reaches the clause. *)
Inductive except_clause : Type :=
| ExceptBare                              (* except: *)
| ExceptAttr (path : list string).        (* except a.b.c [as exc]: *)

Definition clause_matches (path : list string) (e : exn) : bool :=
  match last path with
  | Some cls => String.eqb cls "Exception" || String.eqb cls (exn_class e)
  | None => false
  end.

(** [try: body  except <clause> as exc: handler exc] *)
Definition try_except {W A} (globals : list string) (body : M W A)
    (clause : except_clause) (handler : exn -> M W A) : M W A :=
  fun w =>
    match body w with
    | (Ok a, w') => (Ok a, w')
    | (Unfinished, w') => (Unfinished, w')
    | (Raise e, w') =>
        match clause with
        | ExceptBare => handler e w'
        | ExceptAttr path =>
            match path with
            | [] => (Raise e, w')
            | head :: _ =>
                if name_bound globals head then
                  if clause_matches path e then handler e w' else (Raise e, w')
                else (Raise (NameError head), w')
            end
        end
    end.

(** [l[i]] on a Python list: negative indices count from the end, anything
    outside [-len, len) raises [IndexError]. *)
Definition py_index {A} (l : list A) (i : Z) : option nat :=
  let n := Z.of_nat (length l) in
  if (0 <=? i) && (i <? n) then Some (Z.to_nat i)
  else if (- n <=? i) && (i <? 0) then Some (Z.to_nat (n + i))
  else None.

Definition py_getitem {A} (l : list A) (i : Z) : res A :=
  match py_index l i with
  | Some k => match l !! k with Some x => Ok x | None => Raise IndexError end
  | None => Raise IndexError
  end.

(** [l[i] = f(l[i])], in place. *)
Definition py_alter {A} (f : A -> A) (l : list A) (i : Z) : res (list A) :=
  match py_index l i with
  | Some k => match l !! k with
              | Some x => Ok (<[k := f x]> l)
              | None => Raise IndexError
              end
  | None => Raise IndexError
  end.

(** [d[key] = v]: an existing key keeps its place. *)
Fixpoint dict_setitem (d : list (string * pyval)) (key : string) (v : pyval)
    : list (string * pyval) :=
  match d with
  | [] => [(key, v)]
  | (k, v') :: rest =>
      if String.eqb k key then (k, v) :: rest else (k, v') :: dict_setitem rest key v
  end.

(** [{**d1, **d2}] *)
Definition dict_merge (d1 d2 : list (string * pyval)) : list (string * pyval) :=
  fold_left (fun d kv => dict_setitem d kv.1 kv.2) d2 d1.

(** [d[key]] *)
Fixpoint dict_getitem (d : list (string * pyval)) (key : string) : res pyval :=
  match d with
  | [] => Raise (KeyError key)
  | (k, v) :: rest => if String.eqb k key then Ok v else dict_getitem rest key
  end.

(** [json.dumps(obj)]: the text is kept as the value it encodes. *)
Inductive json_text : Type := Dumps (obj : pyval).

End Py.

Notation "'let*' x := m 'in' k" := (Py.bind m (fun x => k))
  (at level 10, x pattern, m at level 100, k at level 200,
   format "'[v' 'let*'  x  :=  m  'in' '/' k ']'").
Notation "m ;; k" := (Py.bind m (fun _ => k))
  (at level 100, k at level 200, right associativity,
   format "'[v' m ;; '/' k ']'").


(** ** What every controller context has: the session lock and the Lambda client *)

Module Aws.
Import Py.

(** What the Lambda service answers to [client.invoke]. *)
Record LambdaResponse : Type := mkResponse {
  StatusCode : Z;
  FunctionError : option string;
  Payload : string }.

(** Observable calls, in program order. [Unlocked] records an access to the
    shared session made while the session lock is not held. *)
Inductive Event : Type :=
| LockEnter
| LockExit
| Unlocked
| ProbeLog (msg : string)
| Invoke (FunctionName InvocationType : string) (payload : json_text).

(** The world of one worker: the session data [S] it works on, the nesting
    depth of the session lock it holds, the calls made so far, and the Lambda
    service, which answers the n-th invocation with a response or with an
    exception raised by the transport. *)
Record World (S : Type) : Type := mkWorld {
  data : S;
  lock_depth : nat;
  trace : list Event;
  lambda_service : nat -> json_text -> res LambdaResponse }.
Global Arguments mkWorld {S} _ _ _ _.
Global Arguments data {S} _.
Global Arguments lock_depth {S} _.
Global Arguments trace {S} _.
Global Arguments lambda_service {S} _.

Section World.
Context {S : Type}.

Definition with_data (f : S -> S) (w : World S) : World S :=
  mkWorld (f (data w)) (lock_depth w) (trace w) (lambda_service w).

Definition emit (e : Event) (w : World S) : World S :=
  mkWorld (data w) (lock_depth w) (trace w ++ [e]) (lambda_service w).

(** [with lock: body] -- the lock is released on the way out, whether the
    body returns or raises. *)
Definition lock_enter (w : World S) : World S :=
  emit LockEnter (mkWorld (data w) (Datatypes.S (lock_depth w)) (trace w) (lambda_service w)).

Definition lock_exit (w : World S) : World S :=
  emit LockExit (mkWorld (data w) (Nat.pred (lock_depth w)) (trace w) (lambda_service w)).

Definition with_lock {A} (body : M (World S) A) : M (World S) A :=
  fun w =>
    match body (lock_enter w) with
    | (Unfinished, w') => (Unfinished, w')
    | (r, w') => (r, lock_exit w')
    end.

(** An access to the shared session: a write to the session object, or a
    read of a future through [AwsFuture._data] ("ALL access to this future
    must be wrapped in a db lock/update", [aws.py] lines 95-96). The lock is
    what keeps other workers from acting between two accesses, so an access
    made while the lock is not held is recorded in the trace. *)
Definition access (w : World S) : World S :=
  match lock_depth w with
  | O => emit Unlocked w
  | Datatypes.S _ => w
  end.

(** A write to the session object. *)
Definition store (f : S -> S) : M (World S) unit :=
  fun w => (Ok tt, with_data f (access w)).

Definition is_unlocked (e : Event) : bool :=
  match e with Unlocked => true | _ => false end.

(** Number of accesses to the session made without the lock so far. *)
Definition unlocked_accesses (w : World S) : nat :=
  length (List.filter is_unlocked (trace w)).

Definition is_invoke (e : Event) : bool :=
  match e with Invoke _ _ _ => true | _ => false end.

(** Number of Lambda invocations made so far. *)
Definition invocations (w : World S) : nat := length (List.filter is_invoke (trace w)).

(** [client.invoke(FunctionName=..., InvocationType=..., Payload=...)] *)
Definition client_invoke (FunctionName InvocationType : string) (payload : json_text)
    : M (World S) LambdaResponse :=
  fun w => (lambda_service w (invocations w) payload,
            emit (Invoke FunctionName InvocationType payload) w).

(** [res["StatusCode"] != 202 or "FunctionError" in res] *)
Definition invoke_failed (res : LambdaResponse) : bool :=
  negb (StatusCode res =? 202) || bool_decide (is_Some (FunctionError res)).

End World.

End Aws.

(** ** [c9c/runtime/aws.py]: the session controller *)

Module C9cAws.
Import Py Aws.

(** Names bound at module scope of [aws.py]: its imports (lines 53-68) and
    its top-level [class] and [def] statements. *)
Definition module_globals : list string :=
  ["json"; "time"; "uuid"; "traceback"; "warnings"; "wraps"; "List"; "Tuple";
   "boto3"; "compiler"; "C9Machine"; "ChainedFuture"; "Controller"; "Probe";
   "State"; "db"; "ContinuationMap"; "FutureMap"; "MachineMap";
   "get_lambda_client"; "AwsProbe"; "AwsFuture"; "with_self_lock";
   "AwsController"; "run"; "run_existing"; "get_entrypoint"].

(** Thread state ([c9c/state.py] is not among the sources; the fields are the
    ones [aws.py] reads and writes). *)
Record State : Type := mkState {
  ip : Z;
  _ds : list pyval;
  stopped : bool }.

(** Modelled from the spec: [State.ds_set(offset, val)], defined in
    [c9c/state.py], which is missing. Section 4.2: the data stack supports
    "peek and set at an absolute offset"; an offset outside the stack is an
    error. *)
Definition ds_set (offset : Z) (val : pyval) (st : State) : res State :=
  if (0 <=? offset) && (offset <? Z.of_nat (length (_ds st)))
  then Ok (mkState (ip st) (<[Z.to_nat offset := val]> (_ds st)) (stopped st))
  else Raise IndexError.

Definition set_stopped (b : bool) (st : State) : State :=
  mkState (ip st) (_ds st) b.

Definition set_ip (new_ip : Z) (st : State) : State :=
  mkState new_ip (_ds st) (stopped st).

(** The records of [aws_db] that [aws.py] uses. *)
Record ContinuationMap : Type := mkContinuation {
  cont_machine_id : Z;
  cont_offset : Z }.

Record FutureMap : Type := mkFuture {
  resolved : bool;
  value : pyval;
  chain : option Z;
  continuations : list ContinuationMap }.

Record MachineMap : Type := mkMachine {
  machine_id : Z;
  state : State;
  probe_logs : list string;
  future_fk : Z;
  is_top_level : bool }.

Record Session : Type := mkSession {
  session_id : string;
  machines : list MachineMap;
  futures : list FutureMap;
  finished : bool;
  result : pyval }.

Definition set_machines (ms : list MachineMap) (s : Session) : Session :=
  mkSession (session_id s) ms (futures s) (finished s) (result s).

Definition set_futures (fs : list FutureMap) (s : Session) : Session :=
  mkSession (session_id s) (machines s) fs (finished s) (result s).

Definition set_state (f : State -> State) (m : MachineMap) : MachineMap :=
  mkMachine (machine_id m) (f (state m)) (probe_logs m) (future_fk m) (is_top_level m).

(** [with_self_lock] (lines 144-152): the decorated method runs inside
    [with self.lock]. *)
Definition with_self_lock {A} (inst_method : M (World Session) A) : M (World Session) A :=
  with_lock inst_method.

(** The fields of [AwsController] fixed by [__init__] and [run_machine]. The
    running [C9Machine] object is named by a token, compared by [is]. *)
Record AwsController : Type := mkController {
  executable_name : string;
  do_probe : bool;
  this_machine : nat;
  this_machine_id : Z;
  this_machine_future : Z;
  this_machine_is_top_level : bool }.

(** Modelled from the spec: [aws_db.get_future(session, future_id)], which is
    missing. Section 3: future ids are dense integers per session, so the
    future with id [k] is the k-th of the session's ordered list. *)
Definition get_future (s : Session) (future_id : Z) : res FutureMap :=
  if 0 <=? future_id then
    match futures s !! Z.to_nat future_id with
    | Some f => Ok f
    | None => Raise IndexError
    end
  else Raise IndexError.

(** [AwsFuture._data] and the properties built on it (lines 104-141). *)
Definition future_data (future_id : Z) : M (World Session) FutureMap :=
  fun w => (get_future (data w) future_id, access w).

Definition future_resolved (future_id : Z) : M (World Session) bool :=
  let* d := future_data future_id in ret (resolved d).

Definition future_value (future_id : Z) : M (World Session) pyval :=
  let* d := future_data future_id in ret (value d).

Definition append_continuation (c : ContinuationMap) (f : FutureMap) : FutureMap :=
  mkFuture (resolved f) (value f) (chain f) (continuations f ++ [c]).

Definition add_continuation (future_id : Z) (machine_id offset : Z)
    : M (World Session) unit :=
  let c := mkContinuation machine_id offset in
  let* d := future_data future_id in
  store (fun s =>
    set_futures (<[Z.to_nat future_id := append_continuation c d]> (futures s)) s).

(** [AwsController.get_or_wait] (lines 217-227). *)
Definition get_or_wait (self : AwsController) (m : nat) (future : Z) (offset : Z)
    : M (World Session) (bool * pyval) :=
  with_self_lock (
    py_assert (Nat.eqb m (this_machine self)) ;;
    let* resolved := future_resolved future in
    if resolved then
      let* value := future_value future in
      ret (resolved, value)
    else
      add_continuation future (this_machine_id self) offset ;;
      ret (resolved, PNone)).

(** The same operation as section 4.4 of the specification words it: "if
    resolved (walking the chain), return (true, value)". The walk follows the
    forward pointers until it meets a resolved future. *)
Fixpoint walk_chain (fuel : nat) (s : Session) (future_id : Z) : option pyval :=
  match fuel with
  | O => None
  | Datatypes.S k =>
      match get_future s future_id with
      | Ok f =>
          if resolved f then Some (value f)
          else match chain f with
               | Some next => walk_chain k s next
               | None => None
               end
      | _ => None
      end
  end.

Definition get_or_wait_spec (self : AwsController) (m : nat) (future : Z) (offset : Z)
    : M (World Session) (bool * pyval) :=
  with_self_lock (
    py_assert (Nat.eqb m (this_machine self)) ;;
    let* s := gets data in
    match walk_chain (length (futures s)) s future with
    | Some v => ret (true, v)
    | None =>
        add_continuation future (this_machine_id self) offset ;;
        ret (false, PNone)
    end).

(** [AwsController._run_machine_async] (lines 258-275). Its first statement,
    [assert isinstance(m, int)], holds of every [m : Z]; [ProbeLog] records
    the call of the probe's [log]. *)
Definition _run_machine_async (self : AwsController) (m : Z) : M (World Session) unit :=
  modify (emit (ProbeLog ("Starting new machine asynchronously - " ++ pretty m))) ;;
  let* sid := gets (fun w => session_id (data w)) in
  let payload := PDict [("executable_name", PStr (executable_name self));
                        ("session_id", PStr sid);
                        ("machine_id", PInt m)] in
  let* res := client_invoke "c9run" "Event" (Dumps payload) in
  if invoke_failed res then
    let err := Payload res in
    raise (Exception ("Invoke lambda failed " ++ err))
  else ret tt.

(** [AwsController.run_forked_machine] (lines 244-248). *)
Definition run_forked_machine (self : AwsController) (m : MachineMap) (new_ip : Z)
    : M (World Session) unit :=
  with_lock (
    let* ms := gets (fun w => machines (data w)) in
    let* ms' := lift (py_alter (set_state (set_ip new_ip)) ms (machine_id m)) in
    store (set_machines ms')) ;;
  _run_machine_async self (machine_id m).

(** [AwsController.run_waiting_machine] (lines 250-256). Each of the two
    statements under the lock indexes [self._session.machines] afresh. *)
Definition machine_ds_set (machine_id offset : Z) (value : pyval)
    : M (World Session) unit :=
  let* ms := gets (fun w => machines (data w)) in
  let* m := lift (py_getitem ms machine_id) in
  let* st := lift (ds_set offset value (state m)) in
  let* ms' := lift (py_alter (set_state (fun _ => st)) ms machine_id) in
  store (set_machines ms').

Definition machine_set_stopped (machine_id : Z) (b : bool) : M (World Session) unit :=
  let* ms := gets (fun w => machines (data w)) in
  let* ms' := lift (py_alter (set_state (set_stopped b)) ms machine_id) in
  store (set_machines ms').

Definition run_waiting_machine (self : AwsController) (machine_id offset : Z)
    (value : pyval) : M (World Session) unit :=
  with_lock (
    machine_ds_set machine_id offset value ;;
    machine_set_stopped machine_id false) ;;
  _run_machine_async self machine_id.

(** [AwsController.set_machine_result] (lines 230-234). The callee is the
    global name [chain_resolve], looked up when the call is evaluated; the
    module binds no such name, so the call does not take place. *)
Definition set_machine_result (self : AwsController) (m : nat) (value : pyval)
    : M (World Session) unit :=
  py_assert (Nat.eqb m (this_machine self)) ;;
  load_global module_globals "chain_resolve".

Section RunExisting.

(** What [run_existing] would go on to call: the session loader and the
    virtual machine, neither of which is among the sources. *)
Variable Session_get : string -> M (World Session) Session.
Variable C9Machine_run : AwsController -> M (World Session) unit.

Definition get_machine (s : Session) (machine_id : Z) : M (World Session) MachineMap :=
  lift (py_getitem (machines s) machine_id).

(** [AwsController.run_machine] (lines 277-285). *)
Definition run_machine (executable_name : string) (do_probe : bool) (m : MachineMap)
    : M (World Session) unit :=
  C9Machine_run
    (mkController executable_name do_probe 0%nat (machine_id m) (future_fk m)
                  (is_top_level m)).

(** [run_existing] (lines 326-331). *)
Definition run_existing (name : string) (session_id : string) (machine_id : Z)
    (do_probe : bool) : M (World Session) unit :=
  load_global module_globals "Session" ;;
  let* session := Session_get session_id in
  modify (with_data (fun _ => session)) ;;
  let* m := get_machine session machine_id in
  run_machine name do_probe m.

End RunExisting.

End C9cAws.

(** ** [c9c/runtime/executors/awslambda.py]: the Lambda runner *)

Module C9cLambdaRunner.
Import Py Aws.

(** A runner object: a token for its identity ([is]) and its one field. *)
Record LambdaRunner : Type := mkRunner { runner_token : nat; fn_name : string }.

(** [LambdaRunner.run] (lines 13-35). The runner has no session of its own. *)
Definition run (self runner : LambdaRunner) (executable_name : string)
    (searchpath : pyval) (session_id : string) (machine_id : Z) (do_probe : bool)
    : M (World unit) unit :=
  py_assert (Nat.eqb (runner_token runner) (runner_token self)) ;;
  let payload := PDict [("lambda_name", PStr (fn_name self));
                        ("executable_name", PStr executable_name);
                        ("searchpath", searchpath);
                        ("session_id", PStr session_id);
                        ("machine_id", PInt machine_id);
                        ("do_probe", PBool do_probe)] in
  let* res := client_invoke (fn_name self) "Event" (Dumps payload) in
  if invoke_failed res then
    let err := Payload res in
    raise (Exception ("Invoke lambda failed " ++ err))
  else ret tt.

End C9cLambdaRunner.

(** ** [teal_lang/executors/awslambda.py]: the Lambda entry points *)

Module TealLambda.
Import Py Aws.

(** Names bound at module scope: the imports (lines 1-12) and the top-level
    assignments, [class] and [def] statements. *)
Definition module_globals : list string :=
  ["json"; "logging"; "os"; "time"; "boto3"; "botocore"; "tealparser";
   "ddb_controller"; "db"; "TlMachine"; "RESUME_FN_NAME"; "LOG";
   "get_lambda_client"; "Invoker"; "success"; "fail"; "resume"; "new_apigw";
   "new"; "set_exe"; "set_session_exe"; "getoutput_apigw"; "getoutput"].

(** The rows of [ddb_model] as far as this module reads and writes them
    ([ddb_model] is not among the sources; section 6, "Persistent session
    layout", lists the columns). *)
Record MachineMap : Type := mkMachine {
  stdout : string;
  exception : option string }.

Record Session : Type := mkSession {
  session_id : string;
  executable : option string;
  machines : list MachineMap;
  finished : bool;
  result : pyval }.

Definition set_executable (exe : string) (s : Session) : Session :=
  mkSession (session_id s) (Some exe) (machines s) (finished s) (result s).

Definition set_machines (ms : list MachineMap) (s : Session) : Session :=
  mkSession (session_id s) (executable s) ms (finished s) (result s).

Definition set_exception (msg : string) (m : MachineMap) : MachineMap :=
  mkMachine (stdout m) (Some msg).

(** The sessions table and the wall clock. *)
Record Tables : Type := mkTables {
  sessions : gmap string Session;
  clock : Z }.

Definition set_sessions (f : gmap string Session -> gmap string Session) (t : Tables)
    : Tables :=
  mkTables (f (sessions t)) (clock t).

Abbreviation W := (World Tables).

(** What happens while the handler sleeps once: the sleep overruns by some
    time, and other workers act on the sessions table. *)
Record Tick : Type := mkTick {
  overrun : nat;
  interference : gmap string Session -> gmap string Session }.

(** The sessions table after the first [n] sleeps of a schedule, under the
    other workers' actions alone, and the time those sleeps take when each is
    asked to last [p]. *)
Fixpoint store_after (n : nat) (sched : list Tick) (st : gmap string Session)
    : gmap string Session :=
  match n, sched with
  | Datatypes.S n', tick :: sched' => store_after n' sched' (interference tick st)
  | _, _ => st
  end.

Fixpoint slept (n : nat) (p : Z) (sched : list Tick) : Z :=
  match n, sched with
  | Datatypes.S n', tick :: sched' => p + Z.of_nat (overrun tick) + slept n' p sched'
  | _, _ => 0
  end.

(** The collaborators that are not among the sources: the parser and compiler
    ([tealparser]), the data model ([ddb_model]), the data controller
    ([ddb_controller]), the virtual machine ([TlMachine]) and the process
    environment. *)
Record Collaborators : Type := mkCollaborators {
  Toplevel : Type;
  Executable : Type;
  evaluate_toplevel : pyval -> res Toplevel;          (* tealparser.evaluate_toplevel *)
  make_exe : Toplevel -> res Executable;              (* tealparser.make_exe *)
  serialise : Executable -> res string;               (* exe.serialise() *)
  read_exp : pyval -> res pyval;                      (* tealparser.read_exp *)
  new_session : M W Session;                          (* db.new_session() *)
  save_error : Session -> W -> option exn;            (* does session.save() raise? *)
  new_machine : string -> list pyval -> pyval -> M W pyval;
                                                      (* controller.new_machine *)
  TlMachine_new : string -> pyval -> M W unit;        (* TlMachine(vmid, invoker) *)
  TlMachine_run : (pyval -> M W unit) -> string -> pyval -> M W unit;
                                                      (* machine.run() *)
  RESUME_FN_NAME : string;       (* os.environ.get("RESUME_FN_NAME", "resume") *)
  FIXED_TEAL_TIMEOUT : res Z     (* int(os.getenv("FIXED_TEAL_TIMEOUT", 5)) *)
}.

(** [tealparser.evaluate_toplevel] followed by [tealparser.make_exe], the two
    calls both handlers make in one [try] block. *)
Definition compile (C : Collaborators) (code : pyval) : res (Executable C) :=
  match evaluate_toplevel C code with
  | Ok toplevel => make_exe C toplevel
  | Raise e => Raise e
  | Unfinished => Unfinished
  end.

(** The handlers' response objects (lines 60-86). *)
Record Response : Type := mkHttp {
  statusCode : Z;
  isBase64Encoded : bool;
  headers : list (string * pyval);
  body : json_text }.

Definition cors_headers : list (string * pyval) :=
  [("Access-Control-Allow-Origin", PStr "*");
   ("Access-Control-Allow-Credentials", PBool true)].

Definition success (code : Z) (body_data : list (string * pyval)) : Response :=
  mkHttp code false cors_headers (Dumps (PDict body_data)).

Definition fail (msg : string) (code : Z) (body_data : list (string * pyval)) : Response :=
  mkHttp code false cors_headers
         (Dumps (PDict (dict_merge [("message", PStr msg)] body_data))).

(** The keys and the ["message"] of a response body. *)
Definition body_keys (r : Response) : list string :=
  match body r with
  | Dumps (PDict d) => dict_keys d
  | _ => []
  end.

Definition body_get (r : Response) (key : string) : pyval :=
  match body r with
  | Dumps (PDict d) => dict_get d key PNone
  | _ => PNone
  end.

(** Modelled from the spec: [db.Session.get(session_id)] of [ddb_model],
    which is missing: the session with that id, or [DoesNotExist] (section 6:
    the sessions table is keyed by session id). *)
Definition Session_get (session_id : pyval) : M W Session :=
  fun w =>
    match session_id with
    | PStr sid =>
        match sessions (data w) !! sid with
        | Some s => (Ok s, w)
        | None => (Raise (Exn "DoesNotExist" "None"), w)
        end
    | _ => (Raise (TypeError "session_id must be a string"), w)
    end.

(** Modelled from the spec: the [finished] and [result] properties of
    [ddb_controller.DataController], which is missing: the session is read
    afresh and its finished flag or result returned (section 4.4; the same
    property of [c9c/runtime/aws.py], lines 174-177, refreshes and reads). *)
Definition controller_finished (sid : string) : M W bool :=
  let* s := Session_get (PStr sid) in ret (finished s).

Definition controller_result (sid : string) : M W pyval :=
  let* s := Session_get (PStr sid) in ret (result s).

Section Handlers.
Variable C : Collaborators.

(** [Invoker] (lines 32-54). *)
Record Invoker : Type := mkInvoker {
  data_controller : string;      (* the session of its data controller *)
  resume_fn_name : string }.

Definition Invoker_new (sid : string) : Invoker := mkInvoker sid (RESUME_FN_NAME C).

Definition invoke (self : Invoker) (vmid : pyval) : M W unit :=
  let event := PDict [("session_id", PStr (data_controller self)); ("vmid", vmid)] in
  let* res := client_invoke (resume_fn_name self) "Event" (Dumps event) in
  if invoke_failed res then
    let err := Payload res in
    raise (Exception ("Invoke lambda " ++ resume_fn_name self ++ " failed " ++ err))
  else ret tt.

(** [session.save()]: the row is written, unless the write raises. *)
Definition session_save (s : Session) : M W unit :=
  fun w =>
    match save_error C s w with
    | Some e => (Raise e, w)
    | None => (Ok tt, with_data (set_sessions <[session_id s := s]>) w)
    end.

(** A value used as a list index: an [int], or a [bool], which Python
    indexes with as 0 or 1. *)
Definition list_index (v : pyval) : res Z :=
  match v with
  | PInt i => Ok i
  | PBool b => Ok (if b then 1 else 0)
  | _ => Raise (TypeError "list indices must be integers or slices")
  end.

(** [session.machines[vmid].exception = msg], on the row of session [sid]. *)
Definition set_machine_exception (sid : string) (vmid : pyval) (msg : string)
    : M W unit :=
  let* s := Session_get (PStr sid) in
  let* i := lift (list_index vmid) in
  let* ms := lift (py_alter (set_exception msg) (machines s) i) in
  store (set_sessions <[sid := set_machines ms s]>).

(** [resume] (lines 89-112). *)
Definition resume (event : list (string * pyval)) : M W Response :=
  let* session_id := lift (dict_getitem event "session_id") in
  let* vmid := lift (dict_getitem event "vmid") in
  let* session := Session_get session_id in
  let sid := TealLambda.session_id session in
  let invoker := Invoker_new sid in
  TlMachine_new C sid vmid ;;
  try_except module_globals
    (TlMachine_run C (invoke invoker) sid vmid)
    (ExceptAttr ["Exception"])
    (fun exc =>
       with_lock (set_machine_exception sid vmid (exn_str exc)) ;;
       raise exc) ;;
  let* finished := controller_finished sid in
  let* result := controller_result sid in
  ret (success 200 [("session_id", session_id);
                    ("vmid", vmid);
                    ("finished", PBool finished);
                    ("result", result)]).

(** Iterating a value in a comprehension. *)
Definition py_iter (v : pyval) : res (list pyval) :=
  match v with
  | PList l => Ok l
  | PDict d => Ok (PStr <$> dict_keys d)
  | PStr s => Ok ((fun c => PStr (String c EmptyString)) <$> String.list_ascii_of_string s)
  | _ => Raise (TypeError "object is not iterable")
  end.

Fixpoint read_args (args : list pyval) : res (list pyval) :=
  match args with
  | [] => Ok []
  | arg :: rest =>
      match read_exp C arg with
      | Ok v => match read_args rest with
                | Ok vs => Ok (v :: vs)
                | Raise e => Raise e
                | Unfinished => Unfinished
                end
      | Raise e => Raise e
      | Unfinished => Unfinished
      end
  end.

Definition newline : string := String (Ascii.ascii_of_nat 10) EmptyString.

(** [time.time()] and [time.sleep(secs)]. *)
Definition time_time : M W Z := gets (fun w => clock (data w)).

Definition time_sleep (secs : pyval) (tick : Tick) : M W unit :=
  let sleep (n : Z) : M W unit :=
    if n <? 0 then raise (Exn "ValueError" "sleep length must be non-negative")
    else modify (with_data (fun t =>
           mkTables (interference tick (sessions t))
                    (clock t + n + Z.of_nat (overrun tick)))) in
  match secs with
  | PInt n => sleep n
  | PBool b => sleep (if b then 1 else 0)
  | _ => raise (TypeError "a number is required")
  end.

(** [elapsed > timeout] *)
Definition py_gt (elapsed : Z) (timeout : pyval) : res bool :=
  match timeout with
  | PInt t => Ok (elapsed >? t)
  | PBool b => Ok (elapsed >? (if b then 1 else 0))
  | _ => Raise (TypeError "'>' not supported between these instances")
  end.

(** What [new] has in hand once the first cycle of the machine has run. *)
Record Started : Type := mkStarted {
  started_session : string;
  started_vmid : pyval;
  check_period : pyval;
  wait_for_finish : pyval;
  timeout : pyval }.

(** [new], lines 127-166: everything up to the first cycle of the machine.
    The result is the response of an early [return], or what the rest of
    [new] needs. *)
Definition new_setup (event : list (string * pyval)) : M W (Response + Started) :=
  let function := dict_get event "function" (PStr "main") in
  let args := dict_get event "args" (PList []) in
  let check_period := dict_get event "check_period" (PInt 1) in
  let wait_for_finish := dict_get event "wait_for_finish" (PBool true) in
  let code := dict_get event "code" PNone in
  let timeout := dict_get event "timeout" PNone in
  let* timeout :=
    (if truthy timeout then ret timeout
     else let* t := lift (FIXED_TEAL_TIMEOUT C) in ret (PInt t)) in
  let* session := new_session C in
  let sid := session_id session in
  let* returned :=
    (if truthy code then
       let* compiled :=
         try_except module_globals
           (let* toplevel := lift (evaluate_toplevel C code) in
            let* exe := lift (make_exe C toplevel) in
            ret (inr exe))
           (ExceptAttr ["Exception"])
           (fun exc => ret (inl (fail ("Error compiling code:" ++ newline ++ exn_str exc)
                                      400 []))) in
       match compiled with
       | inl r => ret (Some r)
       | inr exe =>
           try_except module_globals
             (let* blob := lift (serialise C exe) in
              session_save (set_executable blob session) ;;
              ret None)
             (ExceptAttr ["Session"; "UpdateError"])
             (fun _ => ret (Some (fail "Error saving code" 400 [])))
       end
     else ret None) in
  match returned with
  | Some r => ret (inl r)
  | None =>
      let* parsed :=
        try_except module_globals
          (let* items := lift (py_iter args) in
           let* vs := lift (read_args items) in
           ret (inr vs))
          ExceptBare
          (fun _ => ret (inl (fail "Could not parse args" 400 []))) in
      match parsed with
      | inl r => ret (inl r)
      | inr args =>
          let invoker := Invoker_new sid in
          let* vmid := new_machine C sid args function in
          let* returned :=
            try_except module_globals
              (TlMachine_new C sid vmid ;;
               TlMachine_run C (invoke invoker) sid vmid ;;
               ret None)
              (ExceptAttr ["Exception"])
              (fun exc =>
                 with_lock (set_machine_exception sid vmid (exn_str exc)) ;;
                 ret (Some (fail "Runtime error" 400 [("session_id", PStr sid)]))) in
          match returned with
          | Some r => ret (inl r)
          | None => ret (inr (mkStarted sid vmid check_period wait_for_finish timeout))
          end
      end
  end.

(** [new], lines 170-173: the polling loop. Each sleep consumes one tick of
    the schedule; [Some r] is the [return] inside the loop, [None] is leaving
    the loop because the session has finished. *)
Fixpoint wait_loop (sched : list Tick) (sid : string) (check_period timeout : pyval)
    (start_time : Z) : M W (option Response) :=
  let* finished := controller_finished sid in
  if finished then ret None
  else
    match sched with
    | [] => fun w => (Unfinished, w)
    | tick :: sched' =>
        time_sleep check_period tick ;;
        let* now := time_time in
        let* late := lift (py_gt (now - start_time) timeout) in
        if late then
          ret (Some (fail "Timeout waiting for finish" 400 [("session_id", PStr sid)]))
        else wait_loop sched' sid check_period timeout start_time
    end.

(** [new] (lines 125-180). *)
Definition new (event : list (string * pyval)) (sched : list Tick) : M W Response :=
  let* started := new_setup event in
  match started with
  | inl r => ret r
  | inr st =>
      let sid := started_session st in
      let* returned :=
        (if truthy (wait_for_finish st) then
           let* start_time := time_time in
           wait_loop sched sid (check_period st) (timeout st) start_time
         else ret None) in
      match returned with
      | Some r => ret r
      | None =>
          let* finished := controller_finished sid in
          let* result := controller_result sid in
          ret (success 200 [("session_id", PStr sid);
                            ("vmid", started_vmid st);
                            ("finished", PBool finished);
                            ("result", result)])
      end
  end.

(** [set_session_exe] (lines 196-224). *)
Definition set_session_exe (event : list (string * pyval)) : M W Response :=
  let session_id := dict_get event "session_id" PNone in
  let content := dict_get event "content" PNone in
  if negb (truthy content) then ret (fail "No Teal code" 400 [])
  else if negb (truthy session_id) then ret (fail "No session ID" 400 [])
  else
    let* found :=
      try_except module_globals
        (let* session := Session_get session_id in ret (inr session))
        (ExceptAttr ["Session"; "DoesNotExist"])
        (fun _ => ret (inl (fail "Couldn't find that session" 400 []))) in
    match found with
    | inl r => ret r
    | inr session =>
        let* compiled :=
          try_except module_globals
            (let* toplevel := lift (evaluate_toplevel C content) in
             let* exe := lift (make_exe C toplevel) in
             ret (inr exe))
            ExceptBare
            (fun _ => ret (inl (fail "Error compiling code" 400 []))) in
        match compiled with
        | inl r => ret r
        | inr exe =>
            let* returned :=
              try_except module_globals
                (let* blob := lift (serialise C exe) in
                 session_save (set_executable blob session) ;;
                 ret None)
                (ExceptAttr ["Session"; "UpdateError"])
                (fun _ => ret (Some (fail "Error saving code" 400 []))) in
            match returned with
            | Some r => ret r
            | None => ret (success 200 [("message", PStr "Executable set successfully")])
            end
        end
    end.

(** [getoutput] (lines 237-254). *)
Definition exception_value (m : MachineMap) : pyval :=
  match exception m with
  | Some msg => PStr msg
  | None => PNone
  end.

Definition getoutput (event : list (string * pyval)) : M W Response :=
  let session_id := dict_get event "session_id" PNone in
  if negb (truthy session_id) then ret (fail "No session ID" 400 [])
  else
    let* found :=
      try_except module_globals
        (let* session := Session_get session_id in ret (inr session))
        (ExceptAttr ["Session"; "DoesNotExist"])
        (fun _ => ret (inl (fail "Couldn't find that session" 400 []))) in
    match found with
    | inl r => ret r
    | inr session =>
        let output := (fun m => PStr (stdout m)) <$> machines session in
        let exceptions := exception_value <$> machines session in
        ret (success 200 [("output", PList output);
                          ("exceptions", PList exceptions);
                          ("events", PList [])])
    end.

End Handlers.

(** The responses [new] can return early, before it waits. *)
Inductive early_failure : Response -> Prop :=
| compile_failure (msg : string) :
    early_failure (fail ("Error compiling code:" ++ newline ++ msg) 400 [])
| args_failure : early_failure (fail "Could not parse args" 400 [])
| runtime_failure (sid : string) :
    early_failure (fail "Runtime error" 400 [("session_id", PStr sid)]).

(** The shape of the object [new] returns at its last statement. *)
Definition new_success (sid : string) (vmid : pyval) (finished : bool) (result : pyval)
    : Response :=
  success 200 [("session_id", PStr sid);
               ("vmid", vmid);
               ("finished", PBool finished);
               ("result", result)].

Definition timeout_failure (sid : string) : Response :=
  fail "Timeout waiting for finish" 400 [("session_id", PStr sid)].

End TealLambda.

(** ** [c9c/runtime/aws.py]: the probe, the future properties and the rest
       of the controller *)

Module C9cAwsExt.
Import Py Aws C9cAws.

(** [AwsProbe] (lines 71-90): the machine it belongs to, the lines logged and
    the step counter. *)
Record AwsProbe : Type := mkProbe {
  probe_machine_id : Z;
  _logs : list string;
  _step : Z }.

Definition AwsProbe_new (m : MachineMap) : AwsProbe := mkProbe (machine_id m) [] 0.

Definition log (self : AwsProbe) (msg : string) : AwsProbe :=
  mkProbe (probe_machine_id self)
          (_logs self ++ ["*** <" ++ pretty (probe_machine_id self) ++ "> " ++ msg])
          (_step self).

(** [on_step(m)]: [ip] is [m.state.ip] and [instruction] the [str()] of
    [m.instruction]. *)
Definition on_step (self : AwsProbe) (ip : Z) (instruction : string) : AwsProbe :=
  let self := mkProbe (probe_machine_id self) (_logs self) (_step self + 1) in
  log self ("[step=" ++ pretty (_step self) ++ ", ip=" ++ pretty ip ++ "] " ++ instruction).

Definition on_stopped (self : AwsProbe) : AwsProbe :=
  let self := mkProbe (probe_machine_id self) (_logs self) (_step self + 1) in
  log self ("[step=" ++ pretty (_step self) ++ "] :: stopped").

Definition logs (self : AwsProbe) : list string := _logs self.

(** The calls a machine makes on its probe. *)
Inductive probe_call : Type :=
| CallLog (msg : string)
| CallOnStep (ip : Z) (instruction : string)
| CallOnStopped.

Definition probe_do (self : AwsProbe) (c : probe_call) : AwsProbe :=
  match c with
  | CallLog msg => log self msg
  | CallOnStep ip instruction => on_step self ip instruction
  | CallOnStopped => on_stopped self
  end.

Definition counts_step (c : probe_call) : bool :=
  match c with CallLog _ => false | _ => true end.

(** The setters of [AwsFuture] (lines 114-133): each assigns one attribute of
    [self._data]. *)
Definition update_future (future_id : Z) (f : FutureMap -> FutureMap)
    : M (World Session) unit :=
  let* d := future_data future_id in
  store (fun s =>
    set_futures (<[Z.to_nat future_id := f d]> (futures s)) s).

Definition set_resolved (future_id : Z) (v : bool) : M (World Session) unit :=
  update_future future_id (fun d => mkFuture v (value d) (chain d) (continuations d)).

Definition set_value (future_id : Z) (v : pyval) : M (World Session) unit :=
  update_future future_id (fun d => mkFuture (resolved d) v (chain d) (continuations d)).

(** [self.chain = other]: [other_id] is [other._future_id]. *)
Definition set_chain (future_id : Z) (other_id : option Z) : M (World Session) unit :=
  update_future future_id
    (fun d => mkFuture (resolved d) (value d) other_id (continuations d)).

(** [self.chain] (lines 126-129): always a new [AwsFuture], whose
    [_future_id] is the stored chain field, [None] included. *)
Definition future_chain (future_id : Z) : M (World Session) (option Z) :=
  let* d := future_data future_id in ret (chain d).

(** [self.continuations] (lines 135-137). *)
Definition future_continuations (future_id : Z) : M (World Session) (list (Z * Z)) :=
  let* d := future_data future_id in
  ret ((fun c => (cont_machine_id c, cont_offset c)) <$> continuations d).

(** [AwsController.finish] (lines 168-172). The value returned is the one
    assigned to [self.result]. *)
Definition set_finished (result : pyval) (s : Session) : Session :=
  mkSession (session_id s) (machines s) (futures s) true result.

Definition finish (result : pyval) : M (World Session) pyval :=
  with_lock (store (set_finished result)) ;;
  ret result.

(** [AwsController.stop] (lines 179-184): [this_machine_state] and
    [probe_logs] are [self.this_machine_state] and
    [self.this_machine_probe.logs]. *)
Definition upload_state (st : State) (m : MachineMap) : MachineMap :=
  mkMachine (machine_id m) st (probe_logs m) (future_fk m) (is_top_level m).

Definition upload_logs (lines : list string) (m : MachineMap) : MachineMap :=
  mkMachine (machine_id m) (state m) lines (future_fk m) (is_top_level m).

Definition stop (self : AwsController) (m : nat) (this_machine_state : State)
    (probe_logs : list string) : M (World Session) unit :=
  py_assert (Nat.eqb m (this_machine self)) ;;
  with_lock (
    let m_id := this_machine_id self in
    let* ms := gets (fun w => machines (data w)) in
    let* ms' := lift (py_alter (upload_state this_machine_state) ms m_id) in
    store (set_machines ms') ;;
    let* ms := gets (fun w => machines (data w)) in
    let* ms' := lift (py_alter (upload_logs probe_logs) ms m_id) in
    store (set_machines ms')).

Section Entrypoint.

(** What [get_entrypoint] and the function it returns call:
    [compiler.link(compiler.compile_all(handler), entrypoint_fn=handler.label)]
    when the entrypoint is made, and a local state, the machine and the
    state's [ds_pop] when it is called. None of them is among the sources. *)
Variable Handler Linked LocalState : Type.
Variable link_handler : Handler -> res Linked.
Variable LocalState_new : list pyval -> M (World Session) LocalState.
Variable machine_run : Linked -> LocalState -> M (World Session) unit.
Variable ds_pop : LocalState -> M (World Session) pyval.

(** The inner function [_f] of [get_entrypoint] (lines 340-344). *)
Definition entrypoint_f (linked : Linked) (event context : pyval)
    : M (World Session) pyval :=
  load_global module_globals "LocalState" ;;
  let* state := LocalState_new [event; context] in
  load_global module_globals "machine" ;;
  machine_run linked state ;;
  ds_pop state.

(** [get_entrypoint] (lines 335-346). *)
Definition get_entrypoint (handler : Handler)
    : res (pyval -> pyval -> M (World Session) pyval) :=
  match link_handler handler with
  | Ok linked => Ok (entrypoint_f linked)
  | Raise e => Raise e
  | Unfinished => Unfinished
  end.

End Entrypoint.

End C9cAwsExt.

(** ** [c9c/runtime/executors/awslambda.py]: the Lambda handler *)

Module C9cHandler.
Import Py Aws.

(** What [handler] reads of the controller [run_controller] returns. *)
Record Controller : Type := mkController {
  finished : bool;
  result : pyval }.

Section Handler.

(** [run_controller(executor, executable_name, searchpath, session_id,
    machine_id, do_probe)], passed in by the caller. Its first argument
    stands for the executor [LambdaRunner(event["lambda_name"])], which is
    determined by that one value. *)
Variable run_controller :
  pyval -> pyval -> pyval -> pyval -> pyval -> pyval -> M (World unit) Controller.

(** [handler] (lines 39-67). *)
Definition handler (event : list (string * pyval)) : M (World unit) json_text :=
  let* lambda_name := lift (dict_getitem event "lambda_name") in
  let* executable_name := lift (dict_getitem event "executable_name") in
  let* searchpath := lift (dict_getitem event "searchpath") in
  let* session_id := lift (dict_getitem event "session_id") in
  let* machine_id := lift (dict_getitem event "machine_id") in
  let* do_probe := lift (dict_getitem event "do_probe") in
  let* controller :=
    run_controller lambda_name executable_name searchpath session_id machine_id
                   do_probe in
  if finished controller then
    let* session_id := lift (dict_getitem event "session_id") in
    let* machine_id := lift (dict_getitem event "machine_id") in
    ret (Dumps (PDict [("session_id", session_id);
                       ("machine_id", machine_id);
                       ("finished", PBool true);
                       ("result", result controller)]))
  else
    let* session_id := lift (dict_getitem event "session_id") in
    let* machine_id := lift (dict_getitem event "machine_id") in
    ret (Dumps (PDict [("session_id", session_id);
                       ("machine_id", machine_id);
                       ("finished", PBool false)])).

End Handler.

(** The keys [handler] reads before it calls [run_controller], in order. *)
Definition handler_keys : list string :=
  ["lambda_name"; "executable_name"; "searchpath"; "session_id"; "machine_id";
   "do_probe"].

Definition response_keys (t : json_text) : list string :=
  match t with
  | Dumps (PDict d) => dict_keys d
  | _ => []
  end.

End C9cHandler.

(** ** [teal_lang/executors/awslambda.py]: the API Gateway wrappers and
       [set_exe] *)

Module TealLambdaExt.
Import Py Aws TealLambda.

(** [try: body  except (A, B, ...): handler]. The tuple is evaluated first,
    name by name; then the exception is matched against each class. *)
Definition try_except_tuple {W A} (globals : list string) (body : M W A)
    (classes : list (list string)) (handler : exn -> M W A) : M W A :=
  fun w =>
    match body w with
    | (Ok a, w') => (Ok a, w')
    | (Unfinished, w') => (Unfinished, w')
    | (Raise e, w') =>
        match List.find (fun path => match path with
                                     | [] => false
                                     | head :: _ => negb (name_bound globals head)
                                     end) classes with
        | Some (head :: _) => (Raise (NameError head), w')
        | Some [] => (Raise e, w')
        | None =>
            if existsb (fun path => clause_matches path e) classes
            then handler e w'
            else (Raise e, w')
        end
    end.

(** The [(KeyError, TypeError, json.decoder.JSONDecodeError)] of both
    wrappers. *)
Definition body_errors : list (list string) :=
  [["KeyError"]; ["TypeError"]; ["json"; "decoder"; "JSONDecodeError"]].

Section ApiGateway.
Variable C : Collaborators.

(** The JSON grammar: the value a text denotes, if it is JSON. *)
Variable decode : string -> option pyval.

(** [json.loads(s)] *)
Definition json_loads (s : pyval) : res pyval :=
  match s with
  | PStr text =>
      match decode text with
      | Some v => Ok v
      | None => Raise (Exn "JSONDecodeError" "Expecting value")
      end
  | _ => Raise (TypeError "the JSON object must be str, bytes or bytearray")
  end.

(** [type(v).__name__] *)
Definition type_name (v : pyval) : string :=
  match v with
  | PNone => "NoneType"
  | PBool _ => "bool"
  | PInt _ => "int"
  | PStr _ => "str"
  | PList _ => "list"
  | PDict _ => "dict"
  end.

(** The handlers call [event.get], which only a dict has. *)
Definition as_event (body : pyval) : res (list (string * pyval)) :=
  match body with
  | PDict d => Ok d
  | _ => Raise (Exn "AttributeError"
                    ("'" ++ type_name body ++ "' object has no attribute 'get'"))
  end.

Definition load_body (event : list (string * pyval)) : M W (Response + pyval) :=
  try_except_tuple module_globals
    (let* raw := lift (dict_getitem event "body") in
     let* body := lift (json_loads raw) in
     ret (inr body))
    body_errors
    (fun _ => ret (inl (fail "No event body" 400 []))).

(** [new_apigw] (lines 115-122). *)
Definition new_apigw (event : list (string * pyval)) (sched : list Tick) : M W Response :=
  let* loaded := load_body event in
  match loaded with
  | inl r => ret r
  | inr body =>
      let* payload := lift (as_event body) in
      new C payload sched
  end.

(** [getoutput_apigw] (lines 227-234). *)
Definition getoutput_apigw (event : list (string * pyval)) : M W Response :=
  let* loaded := load_body event in
  match loaded with
  | inl r => ret r
  | inr body =>
      let* payload := lift (as_event body) in
      getoutput payload
  end.

(** [db.init_base_session()] and [db.set_base_exe(exe)] of [ddb_model]. *)
Variable init_base_session : M W unit.
Variable set_base_exe : Executable C -> M W unit.

(** [set_exe] (lines 183-193). *)
Definition set_exe (event : list (string * pyval)) : M W Response :=
  init_base_session ;;
  let* content := lift (dict_getitem event "content") in
  let* toplevel := lift (evaluate_toplevel C content) in
  let* exe := lift (make_exe C toplevel) in
  set_base_exe exe ;;
  ret (success 200 [("message", PStr "Base Executable set successfully")]).

End ApiGateway.

End TealLambdaExt.

(** ** [c9/packer.py]: synthesising the infrastructure of a service *)

Module Packer.
Import Py.

(** Names bound at module scope of [packer.py]: its imports (lines 3-27) and
    its top-level definitions. *)
Definition module_globals : list string :=
  ["importlib"; "logging"; "os"; "tempfile"; "basename"; "dirname"; "join";
   "normpath"; "splitext"; "sys"; "copy"; "copytree"; "glob"; "compiler"; "Func";
   "c9e"; "Service"; "SynthState"; "LAMBDA_DIRNAME"; "HANDLER_MODULE";
   "FN_HANDLE_NEW"; "FN_HANDLE_EXISTING"; "HANDLE_NEW"; "HANDLE_EXISTING";
   "SRC_PATH"; "LIB_PATH"; "EXE_PATH"; "PackerError"; "_import_module";
   "pack_handler"; "pack_deployment"; "pack_iac"; "pack_lambda_deployment";
   "copy_all"; "LAMBDA_MAIN"].

Section PackIac.

(** Resources, infrastructure items and handlers, with the [str()] of the
    first two. *)
Variable Resource IacItem Handler : Type.
Variable show_resource : Resource -> string.
Variable show_iac : IacItem -> string.

(** [SynthState(service.name, resources, [], [])]: the four constructor
    arguments, of which [pack_iac] reads [resources] and [iac]. *)
Record SynthState : Type := mkSynthState {
  service_name : string;
  resources : list Resource;
  iac : list IacItem;
  deploy_commands : list string }.

Record Service : Type := mkService {
  name : string;
  handlers : list (string * Handler);
  dev_pipeline : list (SynthState -> res SynthState);
  prod_pipeline : list (SynthState -> res SynthState) }.

(** What [pack_iac] does to the outside: the lines printed and the calls of
    [state.gen_iac(build_d)]. *)
Record Output : Type := mkOutput {
  printed : list string;
  generated : list (string * SynthState) }.

(** [compiler.get_resources_set(handlers)], the failure of [gen_iac], if
    any, and [warnings.warn], none of which is among the sources. *)
Variable get_resources_set : list Handler -> res (list Resource).
Variable gen_iac_error : string -> SynthState -> option exn.
Variable warnings_warn : string -> M Output unit.

Definition print (line : string) : M Output unit :=
  modify (fun o => mkOutput (printed o ++ [line]) (generated o)).

Definition gen_iac (build_d : string) (state : SynthState) : M Output unit :=
  fun o =>
    match gen_iac_error build_d state with
    | Some e => (Raise e, o)
    | None => (Ok tt, mkOutput (printed o) (generated o ++ [(build_d, state)]))
    end.

(** [sep.join(items)] *)
Fixpoint join (sep : string) (items : list string) : string :=
  match items with
  | [] => ""
  | [item] => item
  | item :: rest => item ++ sep ++ join sep rest
  end.

Definition newline : string := String (Ascii.ascii_of_nat 10) EmptyString.

(** [for synth in pipeline: state = synth(state)] *)
Fixpoint run_pipeline (pipeline : list (SynthState -> res SynthState))
    (state : SynthState) : res SynthState :=
  match pipeline with
  | [] => Ok state
  | synth :: rest =>
      match synth state with
      | Ok state' => run_pipeline rest state'
      | Raise e => Raise e
      | Unfinished => Unfinished
      end
  end.

(** [pack_iac] (lines 90-111). *)
Definition pack_iac (build_d : string) (service : Service) (dev : bool)
    (verbose : bool) : M Output unit :=
  let handlers := (fun h => h.2) <$> handlers service in
  let* resources' := lift (get_resources_set handlers) in
  let state := mkSynthState (name service) resources' [] [] in
  let pipeline := if dev then dev_pipeline service else prod_pipeline service in
  (if verbose
   then print ("Resources:" ++ newline ++ " - "
               ++ join (newline ++ " - ") (show_resource <$> resources'))
   else ret tt) ;;
  let* state := lift (run_pipeline pipeline state) in
  (match resources state with
   | [] => ret tt
   | _ :: _ =>
       load_global module_globals "warnings" ;;
       warnings_warn ("Some resources were not synthesised! "
                      ++ join ", " (show_resource <$> resources state))
   end) ;;
  (if verbose
   then print ("IAC:" ++ newline ++ " - "
               ++ join (newline ++ " - ") (show_iac <$> iac state))
   else ret tt) ;;
  gen_iac build_d state.

End PackIac.

End Packer.
(** ** Concrete sessions and collaborators on which the definitions are run *)

Module Demo.
Import Py Aws.

Module C9c.
Import C9cAws.

(** A small session used to run the definitions: machine 0 waits with a
    three-slot stack; future 0 is unresolved and chained to future 1, which
    is resolved with value 7. *)
Definition demo_machine : MachineMap :=
  mkMachine 0 (mkState 4 [PInt 1; PNone; PInt 3] true) [] 0 true.

Definition demo_session : Session :=
  mkSession "s-1" [demo_machine]
            [mkFuture false PNone (Some 1) []; mkFuture true (PInt 7) None []]
            false PNone.

Definition accepting_service (n : nat) (p : json_text) : res LambdaResponse :=
  Ok (mkResponse 202 None "").

Definition demo_world : World Session := mkWorld demo_session 0 [] accepting_service.

Definition demo_controller : AwsController := mkController "exe" false 0 0 0 true.

(** A session in which thread 1 is stopped and waits, at offset 1 of its
    data stack, for the future of thread 0, the running thread. *)
Definition waiting_machine : MachineMap :=
  mkMachine 1 (mkState 7 [PInt 1; PNone] true) [] 1 false.

Definition waiting_session : Session :=
  mkSession "s-2" [demo_machine; waiting_machine]
            [mkFuture false PNone None [mkContinuation 1 1]; mkFuture false PNone None []]
            false PNone.

Definition waiting_world : World Session :=
  mkWorld waiting_session 0 [] accepting_service.

End C9c.

Module Teal.
Import TealLambda.

(** A stored session with two threads: one has printed, one has failed. *)
Definition stored_session : Session :=
  mkSession "s-1" None [mkMachine "hello" None; mkMachine "" (Some "boom")] false PNone.

Definition fresh_session : Session := mkSession "s-new" None [] false PNone.

Definition accepting_service (n : nat) (p : json_text) : res LambdaResponse :=
  Ok (mkResponse 202 None "").

(** A Lambda service whose first answer is an error and whose later answers
    are acceptances. *)
Definition flaky_service (n : nat) (p : json_text) : res LambdaResponse :=
  match n with
  | O => Ok (mkResponse 500 None "b'busy'")
  | _ => Ok (mkResponse 202 None "")
  end.

Definition demo_world : W :=
  mkWorld (mkTables {[ "s-1" := stored_session ]} 100) 0 [] accepting_service.

Definition flaky_world : W :=
  mkWorld (mkTables {[ "s-1" := stored_session ]} 100) 0 [] flaky_service.

(** Machines for the collaborators: one suspends at once, one finishes with
    result 3, one raises. *)
Definition run_suspending (invoke : pyval -> M W unit) (sid : string) (vmid : pyval)
    : M W unit := ret tt.

Definition finish_with (v : pyval) (s : Session) : Session :=
  mkSession (session_id s) (executable s) (machines s) true v.

Definition run_finishing (invoke : pyval -> M W unit) (sid : string) (vmid : pyval)
    : M W unit :=
  modify (with_data (set_sessions (fun m => finish_with (PInt 3) <$> m))).

Definition run_raising (invoke : pyval -> M W unit) (sid : string) (vmid : pyval)
    : M W unit := raise (Exception "boom").

Definition demo_new_machine (sid : string) (args : list pyval) (function : pyval)
    : M W pyval :=
  fun w =>
    match sessions (data w) !! sid with
    | Some s =>
        (Ok (PInt (Z.of_nat (length (machines s)))),
         with_data (set_sessions
                      <[sid := set_machines (machines s ++ [mkMachine "" None]) s]>) w)
    | None => (Raise (Exn "DoesNotExist" "None"), w)
    end.

Definition demo_collaborators
    (run : (pyval -> M W unit) -> string -> pyval -> M W unit)
    (save_error : Session -> W -> option exn) : Collaborators :=
  mkCollaborators string string
    (fun code => match code with
                 | PStr s => Ok s
                 | _ => Raise (TypeError "expected a string")
                 end)
    (fun toplevel => Ok toplevel)
    (fun exe => Ok exe)
    (fun arg => Ok arg)
    (fun w => (Ok fresh_session,
               with_data (set_sessions <["s-new" := fresh_session]>) w))
    save_error
    demo_new_machine
    (fun sid vmid => ret tt)
    run
    "resume"
    (Ok 5).

Definition save_ok (s : Session) (w : W) : option exn := None.

Definition save_refused (s : Session) (w : W) : option exn :=
  Some (Exn "UpdateError" "Failed to update item").

(** A schedule of three sleeps, each overrunning by nothing, during which no
    other worker touches the table. *)
Definition idle : Tick := mkTick 0 (fun st => st).

End Teal.

End Demo.

(** ** More concrete inputs *)

Module DemoExt.
Import Py Aws.

(** An event for the Lambda handler, and a controller run that reports the
    session finished with result 42. *)
Definition handler_event : list (string * pyval) :=
  [("lambda_name", PStr "c9run"); ("executable_name", PStr "exe");
   ("searchpath", PStr "."); ("session_id", PStr "s-1"); ("machine_id", PInt 0);
   ("do_probe", PBool false)].

Definition finished_run (lambda_name executable_name searchpath session_id machine_id
    do_probe : pyval) : M (World unit) C9cHandler.Controller :=
  ret (C9cHandler.mkController true (PInt 42)).

Definition empty_world : World unit :=
  mkWorld tt 0 [] (fun _ _ => Ok (mkResponse 202 None "")).

(** A service with one handler and one resource, a bucket. Its production
    pipeline turns every resource into an infrastructure item; its
    development pipeline does nothing. *)
Definition one_bucket (handlers : list unit) : res (list string) := Ok ["bucket"].

Definition synth_all (s : Packer.SynthState string string)
    : res (Packer.SynthState string string) :=
  Ok (Packer.mkSynthState _ _ (Packer.service_name _ _ s) []
        (Packer.iac _ _ s ++ Packer.resources _ _ s)%list
        (Packer.deploy_commands _ _ s)).

Definition synth_nothing (s : Packer.SynthState string string)
    : res (Packer.SynthState string string) := Ok s.

Definition demo_service : Packer.Service string string unit :=
  Packer.mkService _ _ _ "svc" [("h", tt)] [synth_nothing] [synth_all].

(** A JSON decoder that knows three texts. *)
Definition demo_decode (text : string) : option pyval :=
  if String.eqb text "{}" then Some (PDict [])
  else if String.eqb text "[]" then Some (PList [])
  else if String.eqb text "null" then Some PNone
  else None.

(** A parser that rejects the argument [None]. *)
Definition strict_read_exp (arg : pyval) : res pyval :=
  match arg with
  | PNone => Raise (TypeError "expected string or bytes-like object")
  | _ => Ok arg
  end.

Definition strict_collaborators : TealLambda.Collaborators :=
  TealLambda.mkCollaborators string string
    (fun code => match code with
                 | PStr s => Ok s
                 | _ => Raise (TypeError "expected a string")
                 end)
    (fun toplevel => Ok toplevel)
    (fun exe => Ok exe)
    strict_read_exp
    (fun w => (Ok Demo.Teal.fresh_session,
               with_data (TealLambda.set_sessions
                            <["s-new" := Demo.Teal.fresh_session]>) w))
    Demo.Teal.save_ok
    Demo.Teal.demo_new_machine
    (fun sid vmid => ret tt)
    Demo.Teal.run_suspending
    "resume"
    (Ok 5).

(** A tick during which another worker finishes every session with result 3. *)
Definition finishing_tick : TealLambda.Tick :=
  TealLambda.mkTick 0 (fun st => Demo.Teal.finish_with (PInt 3) <$> st).

End DemoExt.
(** * Properties *)

(** ** The controller of [c9c/runtime/aws.py] *)

Module C9cAwsFacts.
Import Py Aws C9cAws Demo.C9c.

Lemma get_future_lookup (s : Session) (fid : Z) (f : FutureMap) :
  get_future s fid = Ok f -> 0 <= fid /\ futures s !! Z.to_nat fid = Some f.
Proof.
  unfold get_future. destruct (0 <=? fid) eqn:Hpos; [|discriminate].
  destruct (futures s !! Z.to_nat fid) eqn:Hl; [|discriminate].
  intros [= ->]. split; [lia | reflexivity].
Qed.

Lemma unlocked_accesses_app (S : Type) (w : World S) (es : list Event) :
  forallb (fun e => negb (is_unlocked e)) es = true ->
  length (List.filter is_unlocked (trace w ++ es)) = unlocked_accesses w.
Proof.
  intros Hes. unfold unlocked_accesses. rewrite List.filter_app, length_app.
  replace (List.filter is_unlocked es) with (@nil Event); [cbn; lia|].
  induction es as [|e es IH]; [reflexivity|].
  cbn in Hes. apply andb_prop in Hes as [He Hes].
  cbn. destruct (is_unlocked e); [discriminate|]. auto.
Qed.

(** What one call of [get_or_wait] by the running machine does to the
    world. *)
Lemma get_or_wait_run (self : AwsController) (future offset : Z) (w : World Session)
    (f : FutureMap) :
  get_future (data w) future = Ok f ->
  get_or_wait self (this_machine self) future offset w =
    (if resolved f then
      (Ok (true, value f),
       mkWorld (data w) (lock_depth w) (trace w ++ [LockEnter; LockExit])
               (lambda_service w))
    else
      (Ok (false, PNone),
       mkWorld (set_futures
                  (<[Z.to_nat future :=
                       mkFuture (resolved f) (value f) (chain f)
                                (continuations f ++
                                   [mkContinuation (this_machine_id self) offset])]>
                     (futures (data w)))
                  (data w))
               (lock_depth w) (trace w ++ [LockEnter; LockExit])
               (lambda_service w))).
Proof.
  intros Hf.
  unfold get_or_wait, with_self_lock, with_lock, bind, py_assert.
  rewrite Nat.eqb_refl. cbn.
  unfold future_resolved, future_value, add_continuation, future_data, bind, ret,
    store, access. cbn.
  rewrite Hf.
  destruct (resolved f) eqn:Hres; cbn.
  - rewrite Hf. cbn. unfold lock_exit, emit. cbn.
    rewrite <- app_assoc. reflexivity.
  - rewrite Hf. cbn. unfold lock_exit, emit, with_data, append_continuation. cbn.
    rewrite Hres, <- app_assoc. reflexivity.
Qed.

(** C1 (as the code has it): [get_or_wait] is one critical section of the
    session lock, and it makes no access to the session outside it: the
    trace gains the taking and the release of the lock and no unlocked
    access, so no other worker can act between the check and the append.
    Inside the section the future's own resolved flag is read, with no walk
    along chain pointers. If the flag is set the call returns
    [(True, future.value)] and leaves the session as it was. Otherwise it
    returns [(False, None)] and the session differs in one place: the
    future's continuations are the ones it had followed by
    [(this_machine_id, offset)]; so a resolve serialised after the call finds
    the waiter recorded, and one serialised before it makes the call return
    the value. *)
Theorem get_or_wait_atomic (self : AwsController) (m : nat) (future offset : Z)
    (w : World Session) (f : FutureMap) :
  m = this_machine self ->
  get_future (data w) future = Ok f ->
  let r := get_or_wait self m future offset w in
  let waiting :=
    mkFuture false (value f) (chain f)
             (continuations f ++ [mkContinuation (this_machine_id self) offset]) in
  trace r.2 = (trace w ++ [LockEnter; LockExit])%list /\
  unlocked_accesses r.2 = unlocked_accesses w /\
  lock_depth r.2 = lock_depth w /\
  lambda_service r.2 = lambda_service w /\
  (resolved f = true -> r.1 = Ok (true, value f) /\ data r.2 = data w) /\
  (resolved f = false ->
     r.1 = Ok (false, PNone) /\
     data r.2 =
       mkSession (session_id (data w)) (machines (data w))
                 (<[Z.to_nat future := waiting]> (futures (data w)))
                 (finished (data w)) (result (data w)) /\
     get_future (data r.2) future = Ok waiting /\
     forall other : Z, other <> future ->
       get_future (data r.2) other = get_future (data w) other).
Proof.
  intros -> Hf r waiting. subst r waiting.
  rewrite (get_or_wait_run self future offset w f Hf).
  destruct (get_future_lookup _ _ _ Hf) as [Hpos Hlookup].
  destruct (resolved f) eqn:Hres; cbn [fst snd trace lock_depth lambda_service data].
  - split; [reflexivity|]. split.
    { unfold unlocked_accesses at 1. cbn [trace].
      apply (unlocked_accesses_app _ w [LockEnter; LockExit]). reflexivity. }
    split; [reflexivity|]. split; [reflexivity|]. split.
    + intros _. split; reflexivity.
    + discriminate.
  - split; [reflexivity|]. split.
    { unfold unlocked_accesses at 1. cbn [trace].
      apply (unlocked_accesses_app _ w [LockEnter; LockExit]). reflexivity. }
    split; [reflexivity|]. split; [reflexivity|]. split; [discriminate|].
    intros _. split; [reflexivity|]. split; [reflexivity|]. split.
    + unfold get_future. cbn. destruct (0 <=? future) eqn:Hle; [|lia].
      rewrite list_lookup_insert_eq by (eapply lookup_lt_Some; eassumption).
      reflexivity.
    + intros other Hother. unfold get_future. cbn.
      destruct (0 <=? other) eqn:Hle; [|reflexivity].
      rewrite list_lookup_insert_ne by lia. reflexivity.
Qed.

Lemma get_or_wait_atomic_witness :
  (get_or_wait demo_controller 0 0 2 demo_world).1 = Ok (false, PNone) /\
  get_future (data (get_or_wait demo_controller 0 0 2 demo_world).2) 0 =
    Ok (mkFuture false PNone (Some 1) [mkContinuation 0 2]) /\
  trace (get_or_wait demo_controller 0 0 2 demo_world).2 = [LockEnter; LockExit] /\
  (get_or_wait demo_controller 0 1 2 demo_world).1 = Ok (true, PInt 7).
Proof.
  destruct (get_or_wait_atomic demo_controller 0 0 2 demo_world
              (mkFuture false PNone (Some 1) []) eq_refl eq_refl)
    as (Htrace & _ & _ & _ & _ & Hwaiting).
  destruct (Hwaiting eq_refl) as (Hreturn & _ & Hfuture & _).
  destruct (get_or_wait_atomic demo_controller 0 1 2 demo_world
              (mkFuture true (PInt 7) None []) eq_refl eq_refl)
    as (_ & _ & _ & _ & Hresolved & _).
  destruct (Hresolved eq_refl) as (Hvalue & _).
  split; [exact Hreturn|]. split; [exact Hfuture|]. split; [exact Htrace|].
  exact Hvalue.
Defined.

(** C1 (as the specification words it) fails: in [demo_session] future 0 is
    chained to future 1, which is resolved with 7. A check that walks the
    chain finds the value and answers [(True, 7)]; the code answers
    [(False, None)] and records a continuation on future 0. *)
Lemma get_or_wait_ignores_chain :
  walk_chain 2 demo_session 0 = Some (PInt 7) /\
  (get_or_wait_spec demo_controller 0 0 2 demo_world).1 = Ok (true, PInt 7) /\
  (get_or_wait demo_controller 0 0 2 demo_world).1 = Ok (false, PNone) /\
  futures (data (get_or_wait demo_controller 0 0 2 demo_world).2) =
    [mkFuture false PNone (Some 1) [mkContinuation 0 2];
     mkFuture true (PInt 7) None []].
Proof. repeat split; reflexivity. Qed.

Lemma invocations_app (S : Type) (w : World S) (es : list Event) :
  forallb (fun e => negb (is_invoke e)) es = true ->
  length (List.filter is_invoke (trace w ++ es)) = invocations w.
Proof.
  intros Hes. unfold invocations. rewrite List.filter_app, length_app.
  replace (List.filter is_invoke es) with (@nil Event); [cbn; lia|].
  induction es as [|e es IH]; [reflexivity|].
  cbn in Hes. apply andb_prop in Hes as [He Hes].
  cbn. destruct (is_invoke e); [discriminate|]. auto.
Qed.

Lemma py_index_length (A : Type) (l l' : list A) (i : Z) :
  length l = length l' -> py_index l' i = py_index l i.
Proof. intros Hlen. unfold py_index. rewrite Hlen. reflexivity. Qed.

Lemma py_index_lt (A : Type) (l : list A) (i : Z) (k : nat) :
  py_index l i = Some k -> (k < length l)%nat.
Proof.
  unfold py_index.
  destruct ((0 <=? i) && (i <? Z.of_nat (length l))) eqn:H1.
  - intros [= <-]. apply andb_prop in H1 as [? ?]. lia.
  - destruct ((- Z.of_nat (length l) <=? i) && (i <? 0)) eqn:H2; [|discriminate].
    intros [= <-]. apply andb_prop in H2 as [? ?]. lia.
Qed.

Lemma ds_set_lookup (offset : Z) (v : pyval) (st st' : State) :
  ds_set offset v st = Ok st' ->
  _ds st' !! Z.to_nat offset = Some v /\ ip st' = ip st /\ stopped st' = stopped st /\
  length (_ds st') = length (_ds st).
Proof.
  unfold ds_set.
  destruct ((0 <=? offset) && (offset <? Z.of_nat (length (_ds st)))) eqn:Hin;
    [|discriminate].
  intros [= <-]. cbn. apply andb_prop in Hin as [? ?].
  rewrite length_insert. repeat split.
  apply list_lookup_insert_eq. lia.
Qed.

(** X30: [run_waiting_machine(machine_id, offset, value)], called directly,
    replaces the state of thread [machine_id] by what
    [state.ds_set(offset, value)] makes of it, with the stopped flag cleared,
    inside one critical section of the session lock and with no access to
    the session outside it, touching no other thread; only then does it send
    the asynchronous ("Event") Lambda invocation for that thread. (With
    [State.ds_set] as modelled, the value then sits at that offset of the
    thread's data stack.) *)
Theorem run_waiting_machine_writes_then_dispatches (self : AwsController)
    (mid offset : Z) (v : pyval) (w : World Session) (k : nat) (m : MachineMap)
    (st : State) :
  py_index (machines (data w)) mid = Some k ->
  machines (data w) !! k = Some m ->
  ds_set offset v (state m) = Ok st ->
  let payload :=
    Dumps (PDict [("executable_name", PStr (executable_name self));
                  ("session_id", PStr (session_id (data w)));
                  ("machine_id", PInt mid)]) in
  let m' :=
    mkMachine (machine_id m) (mkState (ip st) (_ds st) false) (probe_logs m)
              (future_fk m) (is_top_level m) in
  run_waiting_machine self mid offset v w =
    (match lambda_service w (invocations w) payload with
     | Ok res =>
         if invoke_failed res
         then Raise (Exception ("Invoke lambda failed " ++ Payload res))
         else Ok tt
     | Raise e => Raise e
     | Unfinished => Unfinished
     end,
     mkWorld (set_machines (<[k := m']> (machines (data w))) (data w))
             (lock_depth w)
             (trace w ++ [LockEnter; LockExit;
                          ProbeLog ("Starting new machine asynchronously - " ++ pretty mid);
                          Invoke "c9run" "Event" payload])
             (lambda_service w))
  /\ _ds st !! Z.to_nat offset = Some v.
Proof.
  intros Hk Hm Hst payload m'.
  destruct (ds_set_lookup _ _ _ _ Hst) as (Hv & Hip & _ & _).
  split; [|exact Hv].
  unfold run_waiting_machine, with_lock, machine_ds_set, machine_set_stopped.
  unfold bind, gets, lift, store, access, py_getitem, py_alter. cbn.
  rewrite Hk, Hm, Hst. cbn.
  rewrite (py_index_length _ (machines (data w))) by (rewrite length_insert; reflexivity).
  rewrite Hk.
  rewrite list_lookup_insert_eq by (eapply py_index_lt; eauto).
  rewrite list_insert_insert_eq. cbn.
  unfold _run_machine_async, bind, modify, gets, client_invoke. cbn.
  rewrite <- !app_assoc. cbn.
  rewrite (invocations_app _ w [LockEnter; LockExit; ProbeLog _]) by reflexivity.
  fold payload. subst m'.
  destruct (lambda_service w (invocations w) payload) as [res|e|];
    [destruct (invoke_failed res)|..];
    unfold raise, ret, emit, lock_exit, lock_enter, with_data, set_machines,
      set_state, set_stopped; cbn;
    rewrite <- ?app_assoc; reflexivity.
Qed.

Lemma run_waiting_machine_writes_then_dispatches_witness :
  (run_waiting_machine demo_controller 0 1 (PInt 9) demo_world).1 = Ok tt /\
  machines (data (run_waiting_machine demo_controller 0 1 (PInt 9) demo_world).2) =
    [mkMachine 0 (mkState 4 [PInt 1; PInt 9; PInt 3] false) [] 0 true].
Proof.
  destruct (run_waiting_machine_writes_then_dispatches demo_controller 0 1 (PInt 9)
              demo_world 0%nat demo_machine (mkState 4 [PInt 1; PInt 9; PInt 3] true)
              eq_refl eq_refl eq_refl) as [Hrun _].
  rewrite Hrun. split; reflexivity.
Defined.

Lemma set_machine_result_unbound (self : AwsController) (v : pyval) (w : World Session) :
  set_machine_result self (this_machine self) v w = (Raise (NameError "chain_resolve"), w).
Proof.
  unfold set_machine_result, bind, py_assert. rewrite Nat.eqb_refl. reflexivity.
Qed.

(** C2 (what the code does): resolving the running machine's future through
    the controller schedules nothing. [set_machine_result] calls the global
    name [chain_resolve], which [aws.py] neither defines nor imports, so for
    every controller, value and session, whatever continuations wait on the
    future, the call raises [NameError] and leaves the world as it was: no
    data stack is written, no stopped flag is cleared and no thread is
    dispatched. *)
Theorem set_machine_result_schedules_nothing (self : AwsController) (v : pyval)
    (w : World Session) :
  name_bound module_globals "chain_resolve" = false /\
  (set_machine_result self (this_machine self) v w).1 = Raise (NameError "chain_resolve") /\
  data (set_machine_result self (this_machine self) v w).2 = data w /\
  trace (set_machine_result self (this_machine self) v w).2 = trace w /\
  invocations (set_machine_result self (this_machine self) v w).2 = invocations w.
Proof.
  rewrite set_machine_result_unbound. repeat split.
Qed.

(** C2 at a failing input: in [waiting_session] thread 1 waits at offset 1
    for the future of the running thread 0. Resolving that future with 9
    raises [NameError]; thread 1 keeps its stack and stays stopped, and
    nothing is invoked. The callback the continuation was meant for, called
    by hand, writes 9 at offset 1, clears the flag and dispatches thread 1. *)
Lemma set_machine_result_leaves_waiter :
  set_machine_result demo_controller 0 (PInt 9) waiting_world =
    (Raise (NameError "chain_resolve"), waiting_world) /\
  get_future (data waiting_world) 0 =
    Ok (mkFuture false PNone None [mkContinuation 1 1]) /\
  machines (data waiting_world) !! 1%nat =
    Some (mkMachine 1 (mkState 7 [PInt 1; PNone] true) [] 1 false) /\
  invocations waiting_world = 0%nat /\
  (run_waiting_machine demo_controller 1 1 (PInt 9) waiting_world).1 = Ok tt /\
  machines (data (run_waiting_machine demo_controller 1 1 (PInt 9) waiting_world).2)
    !! 1%nat = Some (mkMachine 1 (mkState 7 [PInt 1; PInt 9] false) [] 1 false) /\
  invocations (run_waiting_machine demo_controller 1 1 (PInt 9) waiting_world).2 = 1%nat.
Proof. repeat split; reflexivity. Qed.

(** C9: [aws.py] binds no name [Session], so [run_existing] raises
    [NameError] at its first statement, whatever its arguments and whatever
    the session loader and the machine would do: no session is loaded, no
    machine is run and the world is left as it was. *)
Theorem run_existing_raises_NameError
    (Session_get : string -> M (World Session) Session)
    (C9Machine_run : AwsController -> M (World Session) unit)
    (name session_id : string) (machine_id : Z) (do_probe : bool)
    (w : World Session) :
  name_bound module_globals "Session" = false /\
  run_existing Session_get C9Machine_run name session_id machine_id do_probe w =
    (Raise (NameError "Session"), w).
Proof. split; reflexivity. Qed.

End C9cAwsFacts.

(** ** The Lambda runner of [c9c/runtime/executors/awslambda.py] and the
       entry points of [teal_lang/executors/awslambda.py] *)

Module TealLambdaFacts.
Import Py Aws TealLambda Demo.Teal.

Lemma truthy_PStr (s : string) : s <> "" -> truthy (PStr s) = true.
Proof.
  intros Hs. cbn. apply negb_true_iff. apply String.eqb_neq. exact Hs.
Qed.

Lemma invocations_emit_invoke (S : Type) (w : World S) (fn ty : string) (p : json_text) :
  invocations (emit (Invoke fn ty p) w) = Datatypes.S (invocations w).
Proof.
  unfold invocations, emit. cbn. rewrite List.filter_app, length_app. cbn. lia.
Qed.

(** C7 (what the code does): [Invoker.invoke] calls the Lambda service once.
    When that one call answers with a status other than 202 or with a
    [FunctionError], [invoke] raises at once: the trace grows by exactly one
    invocation and nothing is tried again, whatever the service would answer
    to a second attempt. *)
Theorem invoke_raises_on_first_failure (self : Invoker) (vmid : pyval) (w : W)
    (res : LambdaResponse) :
  let payload :=
    Dumps (PDict [("session_id", PStr (data_controller self)); ("vmid", vmid)]) in
  lambda_service w (invocations w) payload = Ok res ->
  invoke_failed res = true ->
  invoke self vmid w =
    (Raise (Exception ("Invoke lambda " ++ resume_fn_name self ++ " failed " ++ Payload res)),
     emit (Invoke (resume_fn_name self) "Event" payload) w)
  /\ invocations (invoke self vmid w).2 = Datatypes.S (invocations w).
Proof.
  intros payload Hres Hfailed.
  assert (Hrun : invoke self vmid w =
    (Raise (Exception ("Invoke lambda " ++ resume_fn_name self ++ " failed " ++ Payload res)),
     emit (Invoke (resume_fn_name self) "Event" payload) w)).
  { unfold invoke, bind, client_invoke. fold payload. rewrite Hres, Hfailed. reflexivity. }
  split; [exact Hrun|].
  rewrite Hrun. apply invocations_emit_invoke.
Qed.

Lemma invoke_raises_on_first_failure_witness :
  (invoke (mkInvoker "s-1" "resume") (PInt 1) flaky_world).1 =
    Raise (Exception "Invoke lambda resume failed b'busy'") /\
  invocations (invoke (mkInvoker "s-1" "resume") (PInt 1) flaky_world).2 = 1%nat /\
  flaky_service 1 (Dumps (PDict [("session_id", PStr "s-1"); ("vmid", PInt 1)])) =
    Ok (mkResponse 202 None "").
Proof.
  destruct (invoke_raises_on_first_failure (mkInvoker "s-1" "resume") (PInt 1) flaky_world
              (mkResponse 500 None "b'busy'") eq_refl eq_refl) as [Hrun Hcount].
  rewrite Hcount, Hrun. repeat split.
Defined.

(** [LambdaRunner.run] has the same shape: one call, and an exception on its
    failure. *)
Lemma LambdaRunner_run_raises_on_first_failure (self : C9cLambdaRunner.LambdaRunner)
    (executable_name : string) (searchpath : pyval) (session_id : string)
    (machine_id : Z) (do_probe : bool) (w : World unit) (res : LambdaResponse) :
  let payload :=
    Dumps (PDict [("lambda_name", PStr (C9cLambdaRunner.fn_name self));
                  ("executable_name", PStr executable_name);
                  ("searchpath", searchpath);
                  ("session_id", PStr session_id);
                  ("machine_id", PInt machine_id);
                  ("do_probe", PBool do_probe)]) in
  lambda_service w (invocations w) payload = Ok res ->
  invoke_failed res = true ->
  C9cLambdaRunner.run self self executable_name searchpath session_id machine_id
                      do_probe w =
    (Raise (Exception ("Invoke lambda failed " ++ Payload res)),
     emit (Invoke (C9cLambdaRunner.fn_name self) "Event" payload) w).
Proof.
  intros payload Hres Hfailed.
  unfold C9cLambdaRunner.run, bind, py_assert, client_invoke.
  rewrite Nat.eqb_refl. cbn. fold payload. rewrite Hres, Hfailed. reflexivity.
Qed.

(** C6: for a session that exists, with N threads, [getoutput] returns a
    success object: its status is 200 and its body has exactly the fields
    [output], [exceptions] and [events]. The [output] field is a list of N
    strings, the i-th being the stdout buffer of thread i; the [exceptions]
    field is a list of N entries, the i-th being the exception slot of
    thread i (a string or [None]); the [events] field is the empty list. The
    world is left as it was. *)
Theorem getoutput_one_entry_per_thread (event : list (string * pyval))
    (sid : string) (s : Session) (w : W) :
  dict_get event "session_id" PNone = PStr sid ->
  sid <> "" ->
  sessions (data w) !! sid = Some s ->
  exists (r : Response) (output exceptions : list pyval),
    getoutput event w = (Ok r, w) /\
    statusCode r = 200 /\
    body r = Dumps (PDict [("output", PList output);
                           ("exceptions", PList exceptions);
                           ("events", PList [])]) /\
    body_keys r = ["output"; "exceptions"; "events"] /\
    length output = length (machines s) /\
    length exceptions = length (machines s) /\
    (forall (i : nat) (m : MachineMap),
        machines s !! i = Some m ->
        output !! i = Some (PStr (stdout m)) /\
        exceptions !! i = Some (match exception m with
                                | Some msg => PStr msg
                                | None => PNone
                                end)).
Proof.
  intros Hsid Hne Hs.
  exists (success 200 [("output", PList ((fun m => PStr (stdout m)) <$> machines s));
                       ("exceptions", PList (exception_value <$> machines s));
                       ("events", PList [])]),
         ((fun m => PStr (stdout m)) <$> machines s),
         (exception_value <$> machines s).
  split; [|split; [|split; [|split; [|split; [|split; [|intros i m Hm; split]]]]]].
  - unfold getoutput. rewrite Hsid, (truthy_PStr _ Hne). cbn.
    unfold bind, try_except, Session_get. rewrite Hs. reflexivity.
  - reflexivity.
  - reflexivity.
  - reflexivity.
  - apply length_fmap.
  - apply length_fmap.
  - rewrite list_lookup_fmap, Hm. reflexivity.
  - rewrite list_lookup_fmap, Hm. reflexivity.
Qed.

Lemma getoutput_one_entry_per_thread_witness :
  exists r : Response,
    getoutput [("session_id", PStr "s-1")] demo_world = (Ok r, demo_world) /\
    body r = Dumps (PDict [("output", PList [PStr "hello"; PStr ""]);
                           ("exceptions", PList [PNone; PStr "boom"]);
                           ("events", PList [])]).
Proof.
  destruct (getoutput_one_entry_per_thread [("session_id", PStr "s-1")] "s-1"
              stored_session demo_world eq_refl ltac:(discriminate) eq_refl)
    as (r & output & exceptions & Hrun & _ & Hbody & _ & _ & _ & Hentries).
  exists r. split; [exact Hrun|]. rewrite Hbody.
  destruct (Hentries 0%nat (mkMachine "hello" None) eq_refl) as [Ho0 He0].
  destruct (Hentries 1%nat (mkMachine "" (Some "boom")) eq_refl) as [Ho1 He1].
  injection Hrun as Hr. subst r. injection Hbody as <- <-. reflexivity.
Defined.


(** C5 (what the code does): the outcomes of [set_session_exe], in order.
    A missing or empty [content] gives the failure "No Teal code"; else a
    missing or empty [session_id] gives "No session ID"; else, when the
    session lookup raises, the handler raises [NameError] for the name
    [Session] (the response "Couldn't find that session" is not produced);
    else a compilation that raises gives "Error compiling code"; else, when
    serialising or saving raises, the handler raises the same [NameError]
    (the response "Error saving code" is not produced); otherwise the session
    is saved with the new executable and the handler succeeds. *)
Theorem set_session_exe_outcomes (C : Collaborators) (event : list (string * pyval))
    (w : W) :
  let session_id := dict_get event "session_id" PNone in
  let content := dict_get event "content" PNone in
  set_session_exe C event w =
    if negb (truthy content) then (Ok (fail "No Teal code" 400 []), w)
    else if negb (truthy session_id) then (Ok (fail "No session ID" 400 []), w)
    else
      match Session_get session_id w with
      | (Raise _, w1) => (Raise (NameError "Session"), w1)
      | (Unfinished, w1) => (Unfinished, w1)
      | (Ok session, w1) =>
          match compile C content with
          | Raise _ => (Ok (fail "Error compiling code" 400 []), w1)
          | Unfinished => (Unfinished, w1)
          | Ok exe =>
              match serialise C exe with
              | Raise _ => (Raise (NameError "Session"), w1)
              | Unfinished => (Unfinished, w1)
              | Ok blob =>
                  match save_error C (set_executable blob session) w1 with
                  | Some _ => (Raise (NameError "Session"), w1)
                  | None =>
                      (Ok (success 200 [("message", PStr "Executable set successfully")]),
                       with_data
                         (set_sessions
                            <[TealLambda.session_id session :=
                                set_executable blob session]>) w1)
                  end
              end
          end
      end.
Proof.
  intros session_id content. unfold set_session_exe. fold session_id content.
  destruct (truthy content); cbn; [|reflexivity].
  destruct (truthy session_id); cbn; [|reflexivity].
  unfold bind, try_except, compile, lift, ret, session_save.
  destruct (Session_get session_id w) as [[session|e|] w1]; [|reflexivity..].
  cbn.
  destruct (evaluate_toplevel C content) as [toplevel|e|]; cbn; [|reflexivity..].
  destruct (make_exe C toplevel) as [exe|e|]; cbn; [|reflexivity..].
  destruct (serialise C exe) as [blob|e|]; cbn; [|reflexivity..].
  destruct (save_error C (set_executable blob session) w1); reflexivity.
Qed.

(** C5 at a failing input: a request to set the code of a session that does
    not exist is answered by a [NameError], not by a failure response. *)
Lemma set_session_exe_missing_session :
  set_session_exe (demo_collaborators run_suspending save_ok)
                  [("session_id", PStr "no-such-session"); ("content", PStr "main() = 1")]
                  demo_world =
    (Raise (NameError "Session"), demo_world).
Proof. reflexivity. Qed.


(** C3: in [resume], once the session is loaded and the machine built, (a)
    when running the machine raises, the [str()] of the exception is written
    to the exception slot of thread [vmid] of the session, inside one
    critical section of the session lock and with no access outside it,
    nothing else in the table changes, and the same exception is raised
    again to the caller; (b) when the machine returns, [resume] returns a
    success object: its status is 200 and its body has exactly the fields
    [session_id], [vmid], [finished] and [result], the first two being those
    of the event and the last two read from the session as the machine left
    it. *)
Theorem resume_records_exception_or_succeeds (C : Collaborators)
    (event : list (string * pyval)) (sid : string) (vmid : pyval) (s : Session)
    (w w1 : W) :
  dict_getitem event "session_id" = Ok (PStr sid) ->
  dict_getitem event "vmid" = Ok vmid ->
  sessions (data w) !! sid = Some s ->
  session_id s = sid ->
  TlMachine_new C sid vmid w = (Ok tt, w1) ->
  (forall (exc : exn) (w2 : W) (s2 : Session) (i : Z) (k : nat) (m : MachineMap),
      TlMachine_run C (invoke (Invoker_new C sid)) sid vmid w1 = (Raise exc, w2) ->
      sessions (data w2) !! sid = Some s2 ->
      list_index vmid = Ok i ->
      py_index (machines s2) i = Some k ->
      machines s2 !! k = Some m ->
      resume C event w =
        (Raise exc,
         mkWorld
           (mkTables
              (<[sid := mkSession (session_id s2) (executable s2)
                                  (<[k := mkMachine (stdout m) (Some (exn_str exc))]>
                                     (machines s2))
                                  (finished s2) (result s2)]> (sessions (data w2)))
              (clock (data w2)))
           (lock_depth w2) (trace w2 ++ [LockEnter; LockExit]) (lambda_service w2)) /\
      unlocked_accesses (resume C event w).2 = unlocked_accesses w2)
  /\
  (forall (w2 : W) (s2 : Session),
      TlMachine_run C (invoke (Invoker_new C sid)) sid vmid w1 = (Ok tt, w2) ->
      sessions (data w2) !! sid = Some s2 ->
      exists r : Response,
        resume C event w = (Ok r, w2) /\
        statusCode r = 200 /\
        body r = Dumps (PDict [("session_id", PStr sid);
                               ("vmid", vmid);
                               ("finished", PBool (finished s2));
                               ("result", result s2)]) /\
        body_keys r = ["session_id"; "vmid"; "finished"; "result"]).
Proof.
  intros Hsid Hvmid Hs Hid Hnew. split.
  - intros exc w2 s2 i k m Hrun Hs2 Hi Hk Hm.
    match goal with |- ?eqn /\ _ => assert (Hresume : eqn) end.
    { unfold resume, bind, lift. rewrite Hsid, Hvmid. cbn.
      rewrite Hs, Hid, Hnew. unfold try_except. rewrite Hrun. cbn.
      unfold with_lock, set_machine_exception, bind, Session_get, lift, py_alter,
        store, access. cbn.
      rewrite Hs2, Hi, Hk, Hm. cbn.
      unfold lock_exit, emit, with_data, set_sessions, set_machines, set_exception. cbn.
      rewrite <- app_assoc. reflexivity. }
    split; [exact Hresume|]. rewrite Hresume.
    unfold unlocked_accesses at 1. cbn [snd trace].
    apply (C9cAwsFacts.unlocked_accesses_app _ w2 [LockEnter; LockExit]). reflexivity.
  - intros w2 s2 Hrun Hs2.
    exists (success 200 [("session_id", PStr sid); ("vmid", vmid);
                         ("finished", PBool (finished s2)); ("result", result s2)]).
    split; [|repeat split].
    unfold resume, bind, lift. rewrite Hsid, Hvmid. cbn.
    rewrite Hs, Hid, Hnew. unfold try_except. rewrite Hrun.
    unfold controller_finished, controller_result, bind, Session_get, ret. cbn.
    rewrite Hs2. cbn. rewrite Hs2. reflexivity.
Qed.

Lemma resume_records_exception_or_succeeds_witness :
  (resume (demo_collaborators run_raising save_ok)
          [("session_id", PStr "s-1"); ("vmid", PInt 0)] demo_world).1 =
    Raise (Exception "boom") /\
  (machines <$>
     sessions (data (resume (demo_collaborators run_raising save_ok)
                            [("session_id", PStr "s-1"); ("vmid", PInt 0)]
                            demo_world).2) !! "s-1") =
    Some [mkMachine "hello" (Some "boom"); mkMachine "" (Some "boom")] /\
  trace (resume (demo_collaborators run_raising save_ok)
                [("session_id", PStr "s-1"); ("vmid", PInt 0)] demo_world).2 =
    [LockEnter; LockExit] /\
  exists r : Response,
    (resume (demo_collaborators run_finishing save_ok)
            [("session_id", PStr "s-1"); ("vmid", PInt 0)] demo_world).1 = Ok r /\
    body r = Dumps (PDict [("session_id", PStr "s-1"); ("vmid", PInt 0);
                           ("finished", PBool true); ("result", PInt 3)]).
Proof.
  destruct (resume_records_exception_or_succeeds
              (demo_collaborators run_raising save_ok)
              [("session_id", PStr "s-1"); ("vmid", PInt 0)] "s-1" (PInt 0)
              stored_session demo_world demo_world
              eq_refl eq_refl eq_refl eq_refl eq_refl) as [Hraise _].
  destruct (Hraise (Exception "boom") demo_world stored_session 0 0%nat
                   (mkMachine "hello" None) eq_refl eq_refl eq_refl eq_refl eq_refl)
    as [Hrun _].
  destruct (resume_records_exception_or_succeeds
              (demo_collaborators run_finishing save_ok)
              [("session_id", PStr "s-1"); ("vmid", PInt 0)] "s-1" (PInt 0)
              stored_session demo_world demo_world
              eq_refl eq_refl eq_refl eq_refl eq_refl) as [_ Hreturn].
  destruct (Hreturn _ (finish_with (PInt 3) stored_session) eq_refl eq_refl)
    as (r & Hok & _ & Hbody & _).
  rewrite Hrun. split; [reflexivity|]. split; [reflexivity|]. split; [reflexivity|].
  exists r. split; [exact (f_equal fst Hok) | exact Hbody].
Defined.


(** The polling loop, when the session stays unfinished in every state of
    the table it can observe and the time slept passes the timeout within
    the schedule: it returns the timeout failure after the first sleep that
    ends late, and the table is then what the other workers alone made of
    it. *)
Lemma wait_loop_times_out (sched : list Tick) (sid : string) (p t start : Z) :
  0 <= p ->
  forall w : W,
  (forall n : nat, (n <= length sched)%nat ->
     exists s, store_after n sched (sessions (data w)) !! sid = Some s /\
               finished s = false) ->
  (exists n : nat, (1 <= n <= length sched)%nat /\
     clock (data w) - start + slept n p sched > t) ->
  exists n : nat,
    (1 <= n <= length sched)%nat /\
    clock (data w) - start + slept n p sched > t /\
    (forall j : nat, (1 <= j < n)%nat -> clock (data w) - start + slept j p sched <= t) /\
    wait_loop sched sid (PInt p) (PInt t) start w =
      (Ok (Some (fail "Timeout waiting for finish" 400 [("session_id", PStr sid)])),
       mkWorld (mkTables (store_after n sched (sessions (data w)))
                         (clock (data w) + slept n p sched))
               (lock_depth w) (trace w) (lambda_service w)).
Proof.
  intros Hp. induction sched as [|tick sched IH]; intros w Hunfinished Hlate.
  - destruct Hlate as (n & Hn & _). cbn in Hn. lia.
  - destruct (Hunfinished 0%nat ltac:(lia)) as (s & Hs & Hfin). cbn in Hs.
    set (w' := with_data (fun tb => mkTables (interference tick (sessions tb))
                                             (clock tb + p + Z.of_nat (overrun tick))) w).
    assert (Hstep : wait_loop (tick :: sched) sid (PInt p) (PInt t) start w =
              if clock (data w') - start >? t
              then (Ok (Some (fail "Timeout waiting for finish" 400
                                   [("session_id", PStr sid)])), w')
              else wait_loop sched sid (PInt p) (PInt t) start w').
    { cbn [wait_loop]. unfold controller_finished, bind, Session_get, ret.
      rewrite Hs, Hfin. unfold time_sleep, time_time, modify, gets, lift, py_gt.
      destruct (p <? 0) eqn:Hneg; [apply Z.ltb_lt in Hneg; lia|].
      fold w'. destruct (clock (data w') - start >? t); reflexivity. }
    rewrite Hstep. clear Hstep.
    assert (Hclock : clock (data w') = clock (data w) + p + Z.of_nat (overrun tick))
      by reflexivity.
    assert (Hsessions : sessions (data w') = interference tick (sessions (data w)))
      by reflexivity.
    destruct (Z.gtb_spec (clock (data w') - start) t) as [Hgt|Hle].
    + exists 1%nat. cbn [slept store_after length]. rewrite Hclock in Hgt.
      split; [lia|]. split; [lia|]. split; [intros j Hj; lia|].
      subst w'. destruct w as [[st c] d tr sv]. unfold with_data. cbn.
      do 3 f_equal. lia.
    + destruct (IH w') as (n & Hn & Hgt & Hmin & Hrun).
      * intros n Hn. rewrite Hsessions.
        apply (Hunfinished (Datatypes.S n)). cbn. lia.
      * destruct Hlate as (n & Hn & Hgt). destruct n as [|n]; [lia|].
        destruct n as [|n].
        { cbn in Hgt. rewrite Hclock in Hle. lia. }
        exists (Datatypes.S n). cbn [length] in Hn. split; [lia|].
        rewrite Hclock. cbn [slept] in Hgt |- *. lia.
      * exists (Datatypes.S n). cbn [length]. rewrite Hclock in Hgt, Hle, Hmin.
        split; [lia|]. split; [cbn [slept]; lia|]. split.
        { intros j Hj. destruct j as [|j]; [lia|]. cbn [slept].
          destruct j as [|j].
          - cbn [slept]. lia.
          - specialize (Hmin (Datatypes.S j) ltac:(lia)). lia. }
        rewrite Hrun. cbn [slept store_after]. rewrite Hsessions, Hclock.
        subst w'. destruct w as [[st c] d tr sv]. unfold with_data. cbn.
        do 3 f_equal. lia.
Qed.


(** C4: when [new] has started the session and is asked to wait, and the
    session stays unfinished while the time slept passes the timeout, [new]
    returns a failure object after the first sleep that ends late: its
    status is 400 and its body has exactly the fields [message], which is
    "Timeout waiting for finish", and [session_id], which is the id of the
    session. On that path the handler writes nothing: the sessions table is
    then exactly what the other workers made of the table left by the first
    machine cycle, the session is still in it, and lock and trace are as that
    cycle left them. *)
Theorem new_timeout_leaves_session (C : Collaborators) (event : list (string * pyval))
    (sched : list Tick) (w w1 : W) (st : Started) (p t : Z) :
  new_setup C event w = (Ok (inr st), w1) ->
  truthy (wait_for_finish st) = true ->
  check_period st = PInt p ->
  0 <= p ->
  timeout st = PInt t ->
  (forall n : nat, (n <= length sched)%nat ->
     exists s, store_after n sched (sessions (data w1)) !! started_session st = Some s /\
               finished s = false) ->
  (exists n : nat, (1 <= n <= length sched)%nat /\ slept n p sched > t) ->
  exists (n : nat) (r : Response),
    (1 <= n <= length sched)%nat /\
    slept n p sched > t /\
    (forall j : nat, (1 <= j < n)%nat -> slept j p sched <= t) /\
    new C event sched w =
      (Ok r,
       mkWorld (mkTables (store_after n sched (sessions (data w1)))
                         (clock (data w1) + slept n p sched))
               (lock_depth w1) (trace w1) (lambda_service w1)) /\
    statusCode r = 400 /\
    body r = Dumps (PDict [("message", PStr "Timeout waiting for finish");
                           ("session_id", PStr (started_session st))]) /\
    is_Some (store_after n sched (sessions (data w1)) !! started_session st).
Proof.
  intros Hsetup Hwait Hp Hp0 Ht Hunfinished Hlate.
  destruct (wait_loop_times_out sched (started_session st) p t (clock (data w1)) Hp0 w1
              Hunfinished) as (n & Hn & Hgt & Hmin & Hrun).
  { destruct Hlate as (n & Hn & Hgt). exists n. split; [exact Hn | lia]. }
  exists n, (fail "Timeout waiting for finish" 400
                  [("session_id", PStr (started_session st))]).
  split; [exact Hn|]. split; [lia|]. split.
  { intros j Hj. specialize (Hmin j Hj). lia. }
  split; [|split; [reflexivity|split; [reflexivity|]]].
  - unfold new. unfold bind at 1. rewrite Hsetup. unfold bind at 1.
    rewrite Hwait. unfold bind at 1. unfold time_time at 1, gets at 1.
    rewrite Hp, Ht, Hrun. reflexivity.
  - destruct (Hunfinished n ltac:(lia)) as (s & Hs & _). rewrite Hs. eauto.
Qed.

Lemma new_timeout_leaves_session_witness :
  exists r : Response,
    new (demo_collaborators run_suspending save_ok) [("timeout", PInt 2)]
        [idle; idle; idle] demo_world =
      (Ok r,
       mkWorld
         (mkTables
            (<["s-new" := mkSession "s-new" None [mkMachine "" None] false PNone]>
               (<["s-new" := fresh_session]> {[ "s-1" := stored_session ]}))
            103)
         0 [] accepting_service) /\
    body r = Dumps (PDict [("message", PStr "Timeout waiting for finish");
                           ("session_id", PStr "s-new")]).
Proof.
  destruct (new_timeout_leaves_session
              (demo_collaborators run_suspending save_ok) [("timeout", PInt 2)]
              [idle; idle; idle] demo_world
              (mkWorld
                 (mkTables
                    (<["s-new" := mkSession "s-new" None [mkMachine "" None] false PNone]>
                       (<["s-new" := fresh_session]> {[ "s-1" := stored_session ]}))
                    100)
                 0 [] accepting_service)
              (mkStarted "s-new" (PInt 0) (PInt 1) (PBool true) (PInt 2)) 1 2
              eq_refl eq_refl eq_refl ltac:(lia) eq_refl)
    as (n & r & Hn & Hgt & Hmin & Hrun & _ & Hbody & _).
  - intros n Hn. exists (mkSession "s-new" None [mkMachine "" None] false PNone).
    destruct n as [|[|[|[|n]]]]; cbn in Hn; try lia; split; reflexivity.
  - exists 3%nat. cbn. lia.
  - exists r. split; [|exact Hbody].
    destruct n as [|[|[|[|n]]]]; cbn in Hn, Hgt; try lia. exact Hrun.
Defined.


Lemma new_setup_early_return (C : Collaborators) (event : list (string * pyval))
    (w w1 : W) (r : Response) :
  new_setup C event w = (Ok (inl r), w1) -> early_failure r.
Proof.
  unfold new_setup, bind, try_except, ret, lift, session_save, with_lock. cbn.
  intros H.
  repeat (case_match; simplify_eq/=); auto using early_failure.
Qed.


Lemma wait_loop_return (sched : list Tick) (sid : string) (check_period timeout : pyval)
    (start : Z) (w w' : W) (r : Response) :
  wait_loop sched sid check_period timeout start w = (Ok (Some r), w') ->
  r = timeout_failure sid.
Proof.
  revert w. induction sched as [|tick sched IH]; intros w.
  - cbn. unfold controller_finished, bind, ret, Session_get.
    intros H. repeat (case_match; simplify_eq/=).
  - cbn [wait_loop].
    unfold controller_finished, bind, ret, Session_get, time_sleep, time_time,
      modify, gets, lift, raise.
    intros H.
    repeat (case_match; simplify_eq/=); try reflexivity; eapply IH; eassumption.
Qed.

(** Every response [new] returns is one of its early failures, the timeout
    failure, or the object built by its last statement. *)
Lemma new_returns (C : Collaborators) (event : list (string * pyval))
    (sched : list Tick) (w w' : W) (r : Response) :
  new C event sched w = (Ok r, w') ->
  early_failure r \/
  (exists sid, r = timeout_failure sid) \/
  (exists sid vmid finished result, r = new_success sid vmid finished result).
Proof.
  unfold new. unfold bind at 1.
  destruct (new_setup C event w) as [[[r0|st]|e|] w1] eqn:Hsetup;
    [|idtac|discriminate..].
  - intros [= <- <-]. left. eapply new_setup_early_return; eassumption.
  - unfold bind at 1.
    destruct (truthy (wait_for_finish st)).
    + unfold bind at 1, time_time at 1, gets at 1.
      destruct (wait_loop sched (started_session st) (check_period st) (timeout st)
                          (clock (data w1)) w1) as [[[r1|]|e|] w2] eqn:Hloop;
        [|idtac|discriminate..].
      * intros [= <- <-]. right. left. eexists. eapply wait_loop_return; eassumption.
      * unfold controller_finished, controller_result, bind, ret, Session_get.
        intros H. repeat (case_match; simplify_eq/=).
        right. right. unfold new_success. eauto.
    + unfold controller_finished, controller_result, bind, ret, Session_get.
      intros H. repeat (case_match; simplify_eq/=).
      right. right. unfold new_success. eauto.
Qed.


Lemma dict_get_app_other (d : list (string * pyval)) (k key : string) (v dflt : pyval) :
  k <> key -> dict_get (d ++ [(k, v)]) key dflt = dict_get d key dflt.
Proof.
  intros Hne. induction d as [|[k' v'] d IH]; cbn.
  - apply String.eqb_neq in Hne. rewrite Hne. reflexivity.
  - destruct (String.eqb k' key); [reflexivity | exact IH].
Qed.

Lemma dict_get_absent (d : list (string * pyval)) (key : string) (dflt : pyval) :
  key ∉ dict_keys d -> dict_get d key dflt = dflt.
Proof.
  induction d as [|[k' v'] d IH]; cbn; [reflexivity|].
  intros Hnotin. apply not_elem_of_cons in Hnotin as [Hne Hrest].
  destruct (String.eqb_spec k' key) as [->|_]; [contradiction | auto].
Qed.

Lemma dict_get_app_default (d : list (string * pyval)) (key : string) (dflt : pyval) :
  key ∉ dict_keys d -> dict_get (d ++ [(key, dflt)]) key dflt = dict_get d key dflt.
Proof.
  intros Hnotin. rewrite (dict_get_absent d key dflt Hnotin).
  induction d as [|[k' v'] d IH]; cbn.
  - rewrite String.eqb_refl. reflexivity.
  - cbn in Hnotin. apply not_elem_of_cons in Hnotin as [Hne Hrest].
    destruct (String.eqb_spec k' key) as [->|_]; [contradiction | auto].
Qed.

(** Adding to the event a field it lacks, with the value [new] takes for it
    by default, changes nothing. *)
Lemma new_default_field (C : Collaborators) (event : list (string * pyval))
    (key : string) (dflt : pyval) (sched : list Tick) (w : W) :
  (key, dflt) ∈ [("function", PStr "main"); ("args", PList []);
                 ("check_period", PInt 1); ("wait_for_finish", PBool true);
                 ("code", PNone); ("timeout", PNone)] ->
  key ∉ dict_keys event ->
  new C (event ++ [(key, dflt)]) sched w = new C event sched w.
Proof.
  intros Hfield Hnotin. unfold new, new_setup.
  repeat (apply elem_of_cons in Hfield as [[= -> ->]|Hfield]);
    [..|apply elem_of_nil in Hfield; contradiction];
    rewrite (dict_get_app_default event _ _ Hnotin);
    rewrite !(dict_get_app_other event) by discriminate;
    reflexivity.
Qed.

Lemma early_failure_status (r : Response) : early_failure r -> statusCode r = 400.
Proof. intros []; reflexivity. Qed.

(** C8 (as the code has it): every success object (status 200) returned by
    [new] has a body with exactly the keys [session_id], [vmid], [finished]
    and [result], in that order: the thread's id is under the key [vmid], and
    [result] is there whether or not the session has finished. An event
    without [function] is treated as one whose [function] is "main", and an
    event without [args] as one whose [args] is the empty list. *)
Theorem new_success_body (C : Collaborators) (event : list (string * pyval))
    (sched : list Tick) (w w' : W) (r : Response) :
  new C event sched w = (Ok r, w') ->
  statusCode r = 200 ->
  (exists sid vmid finished result,
      body r = Dumps (PDict [("session_id", PStr sid);
                             ("vmid", vmid);
                             ("finished", PBool finished);
                             ("result", result)])) /\
  body_keys r = ["session_id"; "vmid"; "finished"; "result"] /\
  ("function" ∉ dict_keys event ->
     new C (event ++ [("function", PStr "main")]) sched w = (Ok r, w')) /\
  ("args" ∉ dict_keys event ->
     new C (event ++ [("args", PList [])]) sched w = (Ok r, w')).
Proof.
  intros Hnew Hstatus.
  assert (Hshape : exists sid vmid finished result,
             r = new_success sid vmid finished result).
  { destruct (new_returns C event sched w w' r Hnew) as [Hearly|[[sid ->]|Hok]].
    - apply early_failure_status in Hearly. lia.
    - cbn in Hstatus. lia.
    - exact Hok. }
  destruct Hshape as (sid & vmid & fin & res & ->).
  split; [eauto 6|]. split; [reflexivity|]. split.
  - intros Hnotin. rewrite new_default_field; [exact Hnew| |exact Hnotin].
    apply list_elem_of_here.
  - intros Hnotin. rewrite new_default_field; [exact Hnew| |exact Hnotin].
    apply list_elem_of_further, list_elem_of_here.
Qed.

Lemma new_success_body_witness :
  body_keys (new_success "s-new" (PInt 0) true (PInt 3)) =
    ["session_id"; "vmid"; "finished"; "result"] /\
  (new (demo_collaborators run_finishing save_ok) [("args", PList [])] [] demo_world).1 =
    Ok (new_success "s-new" (PInt 0) true (PInt 3)).
Proof.
  destruct (new_success_body (demo_collaborators run_finishing save_ok) [] []
              demo_world
              (new (demo_collaborators run_finishing save_ok) [] [] demo_world).2
              (new_success "s-new" (PInt 0) true (PInt 3))
              eq_refl eq_refl) as (_ & Hkeys & _ & Hargs).
  split; [exact Hkeys|].
  exact (f_equal fst (Hargs (not_elem_of_nil _))).
Defined.

(** C8 (as the specification words it) fails: a call of [new] that succeeds
    returns a body with the key [vmid] and without the key [thread_id]. *)
Lemma new_success_has_no_thread_id :
  (new (demo_collaborators run_finishing save_ok) [] [] demo_world).1 =
    Ok (new_success "s-new" (PInt 0) true (PInt 3)) /\
  statusCode (new_success "s-new" (PInt 0) true (PInt 3)) = 200 /\
  body_keys (new_success "s-new" (PInt 0) true (PInt 3)) =
    ["session_id"; "vmid"; "finished"; "result"] /\
  "thread_id" ∉ body_keys (new_success "s-new" (PInt 0) true (PInt 3)).
Proof.
  split; [reflexivity|]. split; [reflexivity|]. split; [reflexivity|].
  cbn. intros Hin. repeat (apply elem_of_cons in Hin as [Hin|Hin]; [discriminate|]).
  apply elem_of_nil in Hin. exact Hin.
Qed.


(** An [except Session.<X>] clause of this module, reached by any exception:
    the clause raises [NameError] and its handler does not run. *)
Lemma except_Session_raises (A : Type) (body : M W A) (attr : string)
    (handler : exn -> M W A) (w w1 : W) (e : exn) :
  body w = (Raise e, w1) ->
  try_except module_globals body (ExceptAttr ["Session"; attr]) handler w =
    (Raise (NameError "Session"), w1).
Proof. intros Hbody. unfold try_except. rewrite Hbody. reflexivity. Qed.

Lemma new_message_not_saving (C : Collaborators) (event : list (string * pyval))
    (sched : list Tick) (w w' : W) (r : Response) :
  new C event sched w = (Ok r, w') ->
  body_get r "message" <> PStr "Error saving code".
Proof.
  intros Hnew.
  destruct (new_returns C event sched w w' r Hnew)
    as [Hearly|[[sid ->]|(sid & vmid & fin & res & ->)]].
  - destruct Hearly; cbn; discriminate.
  - cbn. discriminate.
  - cbn. discriminate.
Qed.

(** C10: the module binds no name [Session]. So (1) in [set_session_exe] and
    (2) in [getoutput], whenever the session lookup raises, and (3) in [new],
    whenever saving the compiled code raises, the [except] clause raises
    [NameError] and that is how the handler ends; and (4-6) no response these
    handlers return carries the message "Couldn't find that session" or
    "Error saving code". *)
Theorem Session_is_unbound (C : Collaborators) :
  name_bound module_globals "Session" = false /\
  (forall (event : list (string * pyval)) (w w1 : W) (e : exn),
      truthy (dict_get event "content" PNone) = true ->
      truthy (dict_get event "session_id" PNone) = true ->
      Session_get (dict_get event "session_id" PNone) w = (Raise e, w1) ->
      set_session_exe C event w = (Raise (NameError "Session"), w1)) /\
  (forall (event : list (string * pyval)) (w w1 : W) (e : exn),
      truthy (dict_get event "session_id" PNone) = true ->
      Session_get (dict_get event "session_id" PNone) w = (Raise e, w1) ->
      getoutput event w = (Raise (NameError "Session"), w1)) /\
  (forall (event : list (string * pyval)) (sched : list Tick) (w w1 : W)
          (s : Session) (exe : Executable C) (blob : string) (e : exn),
      truthy (dict_get event "code" PNone) = true ->
      truthy (dict_get event "timeout" PNone) = true \/
        (exists t, FIXED_TEAL_TIMEOUT C = Ok t) ->
      new_session C w = (Ok s, w1) ->
      compile C (dict_get event "code" PNone) = Ok exe ->
      serialise C exe = Ok blob ->
      save_error C (set_executable blob s) w1 = Some e ->
      new C event sched w = (Raise (NameError "Session"), w1)) /\
  (forall (event : list (string * pyval)) (w w' : W) (r : Response),
      set_session_exe C event w = (Ok r, w') ->
      body_get r "message" <> PStr "Couldn't find that session" /\
      body_get r "message" <> PStr "Error saving code") /\
  (forall (event : list (string * pyval)) (w w' : W) (r : Response),
      getoutput event w = (Ok r, w') ->
      body_get r "message" <> PStr "Couldn't find that session") /\
  (forall (event : list (string * pyval)) (sched : list Tick) (w w' : W)
          (r : Response),
      new C event sched w = (Ok r, w') ->
      body_get r "message" <> PStr "Error saving code").
Proof.
  split; [reflexivity|]. split; [|split; [|split; [|split; [|split]]]].
  - intros event w w1 e Hcontent Hsid Hget.
    unfold set_session_exe. rewrite Hcontent, Hsid. cbn.
    unfold bind at 1. erewrite except_Session_raises; [reflexivity|].
    unfold bind. rewrite Hget. reflexivity.
  - intros event w w1 e Hsid Hget.
    unfold getoutput. rewrite Hsid. cbn.
    unfold bind at 1. erewrite except_Session_raises; [reflexivity|].
    unfold bind. rewrite Hget. reflexivity.
  - intros event sched w w1 s exe blob e Hcode Htimeout Hsession Hcompile Hblob Hsave.
    unfold compile in Hcompile.
    destruct (evaluate_toplevel C (dict_get event "code" PNone)) as [top| |] eqn:Htop;
      try discriminate.
    assert (Hsetup : new_setup C event w = (Raise (NameError "Session"), w1)).
    { unfold new_setup. rewrite Hcode.
      unfold bind, try_except, lift, ret, session_save.
      destruct (truthy (dict_get event "timeout" PNone)) eqn:Htruthy;
        [|destruct Htimeout as [?|[t Ht]]; [discriminate|rewrite Ht]];
        cbn; rewrite Hsession; cbn;
        rewrite Htop, Hcompile; cbn; rewrite Hblob, Hsave; reflexivity. }
    unfold new. unfold bind at 1. rewrite Hsetup. reflexivity.
  - intros event w w' r.
    unfold set_session_exe, bind, try_except, ret, lift, session_save, Session_get.
    intros H. repeat (case_match; simplify_eq/=); split; discriminate.
  - intros event w w' r.
    unfold getoutput, bind, try_except, ret, lift, Session_get.
    intros H. repeat (case_match; simplify_eq/=); discriminate.
  - intros event sched w w' r. apply new_message_not_saving.
Qed.

Lemma Session_is_unbound_witness :
  new (demo_collaborators run_suspending save_refused) [("code", PStr "main() = 1")] []
      demo_world =
    (Raise (NameError "Session"),
     mkWorld (mkTables (<["s-new" := fresh_session]> {[ "s-1" := stored_session ]}) 100)
             0 [] accepting_service).
Proof.
  destruct (Session_is_unbound (demo_collaborators run_suspending save_refused))
    as (_ & _ & _ & Hnew & _).
  exact (Hnew [("code", PStr "main() = 1")] [] demo_world _ fresh_session
              "main() = 1" "main() = 1" (Exn "UpdateError" "Failed to update item")
              eq_refl (or_intror (ex_intro _ 5 eq_refl)) eq_refl eq_refl eq_refl eq_refl).
Defined.

End TealLambdaFacts.

(** ** More of [c9c/runtime/aws.py] *)

Module C9cAwsExtFacts.
Import Py Aws C9cAws C9cAwsExt.

Lemma foldl_probe_do_step (calls : list probe_call) (p : AwsProbe) (c : probe_call) :
  foldl probe_do p (calls ++ [c]) = probe_do (foldl probe_do p calls) c.
Proof. rewrite foldl_app. reflexivity. Qed.

Lemma probe_do_effect (p : AwsProbe) (c : probe_call) :
  probe_machine_id (probe_do p c) = probe_machine_id p /\
  _step (probe_do p c) = _step p + (if counts_step c then 1 else 0) /\
  exists msg, _logs (probe_do p c) =
                (_logs p ++ [("*** <" ++ pretty (probe_machine_id p) ++ "> " ++ msg)%string])%list.
Proof.
  destruct c as [msg|ip instruction|]; cbn; (split; [reflexivity|]);
    (split; [lia|]); eauto.
Qed.

(** X1: whatever calls a machine makes on its [AwsProbe] ([log], [on_step],
    [on_stopped], in any order), the probe gains exactly one line per call,
    the lines already logged stay as they were in front of the new ones, each
    new line starts with the tag of the probe's machine, and the step counter
    counts the [on_step] and [on_stopped] calls only. *)
Theorem probe_one_line_per_call (p : AwsProbe) (calls : list probe_call) :
  let p' := foldl probe_do p calls in
  probe_machine_id p' = probe_machine_id p /\
  length (logs p') = (length (logs p) + length calls)%nat /\
  take (length (logs p)) (logs p') = logs p /\
  Forall (fun line => exists msg,
            line = "*** <" ++ pretty (probe_machine_id p) ++ "> " ++ msg)
         (drop (length (logs p)) (logs p')) /\
  _step p' = _step p + Z.of_nat (length (List.filter counts_step calls)).
Proof.
  unfold logs. induction calls as [|c calls IH] using rev_ind; cbn.
  - rewrite take_ge, drop_ge by lia.
    split; [reflexivity|]. split; [lia|]. split; [reflexivity|].
    split; [constructor | lia].
  - rewrite foldl_probe_do_step.
    destruct IH as (Hid & Hlen & Htake & Hall & Hstep).
    destruct (probe_do_effect (foldl probe_do p calls) c) as (Hid' & Hstep' & msg & Hlogs).
    rewrite Hid', Hstep', Hlogs, Hid, Hstep.
    rewrite List.filter_app, !length_app, Hlen. cbn.
    split; [reflexivity|]. split; [lia|]. split; [|split].
    + rewrite take_app_le by lia. exact Htake.
    + rewrite drop_app_le by lia. apply Forall_app. split; [exact Hall|].
      constructor; [eauto | constructor].
    + destruct (counts_step c); cbn; lia.
Qed.


Lemma get_future_Some (s : Session) (fid : Z) (f : FutureMap) :
  get_future s fid = Ok f -> 0 <= fid /\ futures s !! Z.to_nat fid = Some f.
Proof.
  unfold get_future. destruct (0 <=? fid) eqn:Hpos; [|discriminate].
  destruct (futures s !! Z.to_nat fid) eqn:Hl; [|discriminate].
  intros [= ->]. split; [lia | reflexivity].
Qed.

Lemma get_future_insert_eq (s : Session) (fid : Z) (f f' : FutureMap) :
  get_future s fid = Ok f ->
  get_future (set_futures (<[Z.to_nat fid := f']> (futures s)) s) fid = Ok f'.
Proof.
  intros Hf. destruct (get_future_Some _ _ _ Hf) as [Hpos Hlookup].
  unfold get_future. cbn. destruct (0 <=? fid) eqn:Hle; [|lia].
  rewrite list_lookup_insert_eq by (eapply lookup_lt_Some; eassumption).
  reflexivity.
Qed.

Lemma get_future_insert_ne (s : Session) (fid other : Z) (f' : FutureMap) :
  0 <= fid -> other <> fid ->
  get_future (set_futures (<[Z.to_nat fid := f']> (futures s)) s) other =
    get_future s other.
Proof.
  intros Hpos Hne. unfold get_future. cbn.
  destruct (0 <=? other) eqn:Hle; [|reflexivity].
  rewrite list_lookup_insert_ne by lia. reflexivity.
Qed.

Lemma data_access (S : Type) (w : World S) : data (access w) = data w.
Proof. unfold access. destruct (lock_depth w); reflexivity. Qed.

Lemma update_future_run (fid : Z) (g : FutureMap -> FutureMap) (f : FutureMap)
    (w : World Session) :
  get_future (data w) fid = Ok f ->
  update_future fid g w =
    (Ok tt,
     with_data (set_futures (<[Z.to_nat fid := g f]> (futures (data w))))
               (access (access w))).
Proof.
  intros Hf. unfold update_future, bind, future_data, store. rewrite Hf.
  unfold with_data. rewrite !data_access. reflexivity.
Qed.

(** X2: the setters of [AwsFuture] assign one attribute of one future. After
    [future.resolved = b], [future.value = v] or [future.chain = other] the
    matching getter returns what was assigned; the future's other attributes,
    every other future and the machines are as before. No setter looks at the
    resolved flag: the value of a resolved future is overwritten like any
    other. (A getter changes nothing of the world but the record of its own
    access.) *)
Theorem future_setters_round_trip (fid : Z) (f : FutureMap) (w : World Session)
    (b : bool) (v : pyval) (c : option Z) :
  get_future (data w) fid = Ok f ->
  let wr := (set_resolved fid b w).2 in
  let wv := (set_value fid v w).2 in
  let wc := (set_chain fid c w).2 in
  (future_resolved fid wr = (Ok b, access wr) /\
   get_future (data wr) fid = Ok (mkFuture b (value f) (chain f) (continuations f))) /\
  (future_value fid wv = (Ok v, access wv) /\
   get_future (data wv) fid = Ok (mkFuture (resolved f) v (chain f) (continuations f))) /\
  (future_chain fid wc = (Ok c, access wc) /\
   get_future (data wc) fid = Ok (mkFuture (resolved f) (value f) c (continuations f))) /\
  (forall w', w' = wr \/ w' = wv \/ w' = wc ->
     machines (data w') = machines (data w) /\
     forall other, other <> fid ->
       get_future (data w') other = get_future (data w) other).
Proof.
  intros Hf wr wv wc.
  destruct (get_future_Some _ _ _ Hf) as [Hpos _].
  subst wr wv wc. unfold set_resolved, set_value, set_chain.
  rewrite !(update_future_run _ _ f w Hf). cbn [snd].
  assert (Hdata : forall g : FutureMap,
            data (with_data (set_futures (<[Z.to_nat fid := g]> (futures (data w))))
                            (access (access w))) =
              set_futures (<[Z.to_nat fid := g]> (futures (data w))) (data w)).
  { intros g. unfold with_data. cbn [data]. rewrite !data_access. reflexivity. }
  assert (Hget : forall g : FutureMap,
            get_future
              (data (with_data (set_futures (<[Z.to_nat fid := g]> (futures (data w))))
                               (access (access w)))) fid = Ok g).
  { intros g. rewrite Hdata. apply (get_future_insert_eq _ _ f). exact Hf. }
  unfold future_resolved, future_value, future_chain, future_data, bind, ret.
  rewrite !Hget.
  split; [split; reflexivity|]. split; [split; reflexivity|].
  split; [split; reflexivity|].
  intros w' [->|[->| ->]]; rewrite Hdata; (split; [reflexivity|]);
    intros other Hother; apply get_future_insert_ne; assumption.
Qed.

Lemma future_setters_round_trip_witness :
  future_value 1 (set_value 1 (PInt 9) Demo.C9c.demo_world).2 =
    (Ok (PInt 9), access (set_value 1 (PInt 9) Demo.C9c.demo_world).2).
Proof.
  destruct (future_setters_round_trip 1 (mkFuture true (PInt 7) None [])
              Demo.C9c.demo_world true (PInt 9) None eq_refl)
    as (_ & [Hvalue _] & _).
  exact Hvalue.
Defined.

(** X3: [add_continuation] followed by the [continuations] property gives
    the pairs the property gave before, with [(machine_id, offset)] added at
    the end; nothing is dropped, reordered or merged, even if the same pair
    was already there. (The three accesses to the future are recorded when
    the caller does not hold the lock.) *)
Theorem add_continuation_round_trip (fid machine_id offset : Z) (f : FutureMap)
    (w : World Session) (before : list (Z * Z)) :
  get_future (data w) fid = Ok f ->
  (future_continuations fid w).1 = Ok before ->
  (add_continuation fid machine_id offset ;; future_continuations fid) w =
    (Ok (before ++ [(machine_id, offset)])%list,
     with_data
       (set_futures
          (<[Z.to_nat fid := append_continuation (mkContinuation machine_id offset) f]>
             (futures (data w)))) (access (access (access w)))).
Proof.
  intros Hf Hbefore.
  unfold future_continuations, bind, future_data, ret in Hbefore.
  rewrite Hf in Hbefore. cbn [fst] in Hbefore. injection Hbefore as <-.
  unfold add_continuation, future_continuations, bind, future_data, store, ret.
  rewrite Hf.
  unfold with_data at 1. cbn [data]. rewrite !data_access.
  rewrite (get_future_insert_eq _ _ f _ Hf).
  cbn [append_continuation continuations].
  rewrite fmap_app. f_equal.
  destruct w as [s [|d] tr sv]; reflexivity.
Qed.

Lemma add_continuation_round_trip_witness :
  ((add_continuation 0 3 5 ;; future_continuations 0)
     (add_continuation 0 3 5 Demo.C9c.demo_world).2).1 = Ok [(3, 5); (3, 5)].
Proof.
  exact (f_equal fst
           (add_continuation_round_trip 0 3 5
              (mkFuture false PNone (Some 1) [mkContinuation 3 5])
              (add_continuation 0 3 5 Demo.C9c.demo_world).2 [(3, 5)]
              eq_refl eq_refl)).
Defined.


Lemma get_or_wait_unresolved (self : AwsController) (fid offset : Z) (w : World Session)
    (f : FutureMap) :
  get_future (data w) fid = Ok f ->
  resolved f = false ->
  get_or_wait self (this_machine self) fid offset w =
    (Ok (false, PNone),
     mkWorld (set_futures
                (<[Z.to_nat fid :=
                     mkFuture false (value f) (chain f)
                              (continuations f ++
                                 [mkContinuation (this_machine_id self) offset])]>
                   (futures (data w)))
                (data w))
             (lock_depth w) (trace w ++ [LockEnter; LockExit]) (lambda_service w)).
Proof.
  intros Hf Hunresolved.
  rewrite (C9cAwsFacts.get_or_wait_run self fid offset w f Hf), Hunresolved.
  reflexivity.
Qed.

(** X4: [get_or_wait] does not look for an earlier continuation of the same
    machine. Two calls in a row on a future that stays unresolved both answer
    [(False, None)] and leave two continuations at the end of the future's
    list, in call order. Each call is a critical section of its own, and
    neither makes an access to the session outside its section. *)
Theorem get_or_wait_twice_records_twice (self : AwsController) (fid o1 o2 : Z)
    (w : World Session) (f : FutureMap) :
  get_future (data w) fid = Ok f ->
  resolved f = false ->
  let r1 := get_or_wait self (this_machine self) fid o1 w in
  let r2 := get_or_wait self (this_machine self) fid o2 r1.2 in
  r1.1 = Ok (false, PNone) /\
  r2.1 = Ok (false, PNone) /\
  (get_or_wait self (this_machine self) fid o1 ;;
   get_or_wait self (this_machine self) fid o2) w = r2 /\
  get_future (data r2.2) fid =
    Ok (mkFuture false (value f) (chain f)
                 (continuations f ++ [mkContinuation (this_machine_id self) o1;
                                      mkContinuation (this_machine_id self) o2])) /\
  trace r1.2 = (trace w ++ [LockEnter; LockExit])%list /\
  trace r2.2 = (trace w ++ [LockEnter; LockExit; LockEnter; LockExit])%list /\
  unlocked_accesses r2.2 = unlocked_accesses w /\
  lock_depth r2.2 = lock_depth w.
Proof.
  intros Hf Hunresolved r1 r2.
  set (f1 := mkFuture false (value f) (chain f)
                      (continuations f ++ [mkContinuation (this_machine_id self) o1])).
  pose proof (get_or_wait_unresolved self fid o1 w f Hf Hunresolved) as Hfirst.
  fold f1 in Hfirst.
  set (w1 := mkWorld (set_futures (<[Z.to_nat fid := f1]> (futures (data w))) (data w))
                     (lock_depth w) (trace w ++ [LockEnter; LockExit])
                     (lambda_service w)) in Hfirst.
  assert (Hf1 : get_future (data w1) fid = Ok f1)
    by (apply (get_future_insert_eq _ _ f); exact Hf).
  pose proof (get_or_wait_unresolved self fid o2 w1 f1 Hf1 eq_refl) as Hsecond.
  subst r2 r1. unfold bind at 1. rewrite Hfirst. cbn [fst snd]. rewrite Hsecond.
  cbn [fst snd data trace lock_depth].
  split; [reflexivity|]. split; [reflexivity|]. split; [reflexivity|].
  split; [|split; [reflexivity|split; [|split; [|reflexivity]]]].
  - rewrite (get_future_insert_eq _ _ f1 _ Hf1). subst f1. cbn.
    rewrite <- app_assoc. reflexivity.
  - subst w1. cbn. rewrite <- app_assoc. reflexivity.
  - unfold unlocked_accesses at 1. subst w1. cbn [trace]. rewrite <- app_assoc.
    apply (C9cAwsFacts.unlocked_accesses_app _ w [LockEnter; LockExit; LockEnter; LockExit]).
    reflexivity.
Qed.

Lemma get_or_wait_twice_records_twice_witness :
  get_future
    (data (get_or_wait Demo.C9c.demo_controller 0 0 2
             (get_or_wait Demo.C9c.demo_controller 0 0 1 Demo.C9c.demo_world).2).2) 0 =
    Ok (mkFuture false PNone (Some 1) [mkContinuation 0 1; mkContinuation 0 2]).
Proof.
  exact (proj1 (proj2 (proj2 (proj2
           (get_or_wait_twice_records_twice Demo.C9c.demo_controller 0 1 2
              Demo.C9c.demo_world (mkFuture false PNone (Some 1) []) eq_refl eq_refl))))).
Defined.

(** X5: a call made for a machine other than the one the controller runs is
    refused with [AssertionError] and the session is not touched.
    [get_or_wait] asserts inside [with_self_lock], so the lock is taken and
    released around the failure; [stop] and [set_machine_result] assert
    before anything else, so they leave no trace at all. *)
Theorem foreign_machine_is_refused (self : AwsController) (m : nat) (fid offset : Z)
    (st : State) (lines : list string) (v : pyval) (w : World Session) :
  m <> this_machine self ->
  get_or_wait self m fid offset w =
    (Raise AssertionError,
     mkWorld (data w) (lock_depth w) (trace w ++ [LockEnter; LockExit])
             (lambda_service w)) /\
  stop self m st lines w = (Raise AssertionError, w) /\
  set_machine_result self m v w = (Raise AssertionError, w).
Proof.
  intros Hm. apply Nat.eqb_neq in Hm.
  unfold get_or_wait, stop, set_machine_result, with_self_lock, with_lock, bind,
    py_assert.
  rewrite Hm. cbn. unfold lock_exit, lock_enter, emit. cbn.
  rewrite <- app_assoc. repeat split.
Qed.

Lemma foreign_machine_is_refused_witness :
  (get_or_wait Demo.C9c.demo_controller 4 0 1 Demo.C9c.demo_world).1 =
    Raise AssertionError /\
  data (get_or_wait Demo.C9c.demo_controller 4 0 1 Demo.C9c.demo_world).2 =
    Demo.C9c.demo_session.
Proof.
  destruct (foreign_machine_is_refused Demo.C9c.demo_controller 4 0 1
              (mkState 0 [] true) [] PNone Demo.C9c.demo_world ltac:(discriminate))
    as [Hrun _].
  rewrite Hrun. split; reflexivity.
Defined.

(** X6: [finish(result)] sets the session's finished flag and result inside
    one critical section, with no access to the session outside it, and
    changes nothing else of the session. It has no guard against a second
    call: finishing again replaces the result and leaves the flag set. *)
Theorem finish_sets_and_overwrites (r1 r2 : pyval) (w : World Session) :
  finish r1 w =
    (Ok r1,
     mkWorld (mkSession (session_id (data w)) (machines (data w)) (futures (data w))
                        true r1)
             (lock_depth w) (trace w ++ [LockEnter; LockExit]) (lambda_service w)) /\
  unlocked_accesses (finish r1 w).2 = unlocked_accesses w /\
  data ((finish r1 ;; finish r2) w).2 =
    mkSession (session_id (data w)) (machines (data w)) (futures (data w)) true r2 /\
  unlocked_accesses ((finish r1 ;; finish r2) w).2 = unlocked_accesses w.
Proof.
  assert (Hrun : forall (r : pyval) (w : World Session),
            finish r w =
              (Ok r,
               mkWorld (mkSession (session_id (data w)) (machines (data w))
                                  (futures (data w)) true r)
                       (lock_depth w) (trace w ++ [LockEnter; LockExit])
                       (lambda_service w))).
  { intros r w0.
    unfold finish, with_lock, bind, store, access, ret, lock_exit, lock_enter, emit,
      with_data, set_finished. cbn.
    rewrite <- app_assoc. reflexivity. }
  unfold bind. rewrite !Hrun. cbn [fst snd]. rewrite ?Hrun. cbn [fst snd data trace].
  split; [reflexivity|]. split; [|split; [reflexivity|]].
  - unfold unlocked_accesses at 1. cbn [trace].
    apply (C9cAwsFacts.unlocked_accesses_app _ w [LockEnter; LockExit]). reflexivity.
  - unfold unlocked_accesses at 1. cbn [trace]. rewrite <- app_assoc.
    apply (C9cAwsFacts.unlocked_accesses_app _ w [LockEnter; LockExit; LockEnter; LockExit]).
    reflexivity.
Qed.


(** X7: [stop] uploads the running machine's state and its probe's lines
    into that machine's entry of the session, inside one critical section
    and with no access to the session outside it; the entry keeps its id,
    future and top-level flag, and every other entry, the futures and the
    finished flag are untouched. *)
Theorem stop_uploads_own_machine (self : AwsController) (st : State)
    (lines : list string) (w : World Session) (k : nat) (old : MachineMap) :
  py_index (machines (data w)) (this_machine_id self) = Some k ->
  machines (data w) !! k = Some old ->
  stop self (this_machine self) st lines w =
    (Ok tt,
     mkWorld (set_machines
                (<[k := mkMachine (machine_id old) st lines (future_fk old)
                                  (is_top_level old)]> (machines (data w)))
                (data w))
             (lock_depth w) (trace w ++ [LockEnter; LockExit]) (lambda_service w)) /\
  unlocked_accesses (stop self (this_machine self) st lines w).2 = unlocked_accesses w.
Proof.
  intros Hk Hold.
  match goal with |- ?eqn /\ _ => assert (Hrun : eqn) end.
  { unfold stop, with_lock, bind, py_assert, gets, lift, store, access, py_alter.
    rewrite Nat.eqb_refl. cbn. rewrite Hk, Hold. cbn.
    rewrite (C9cAwsFacts.py_index_length _ (machines (data w)))
      by (rewrite length_insert; reflexivity).
    rewrite Hk, list_lookup_insert_eq by (eapply C9cAwsFacts.py_index_lt; eauto).
    rewrite list_insert_insert_eq.
    unfold lock_exit, emit, with_data, set_machines. cbn.
    rewrite <- app_assoc. reflexivity. }
  split; [exact Hrun|]. rewrite Hrun. unfold unlocked_accesses at 1. cbn [snd trace].
  apply (C9cAwsFacts.unlocked_accesses_app _ w [LockEnter; LockExit]). reflexivity.
Qed.

Lemma stop_uploads_own_machine_witness :
  machines (data (stop Demo.C9c.demo_controller 0 (mkState 9 [PInt 2] true)
                       (logs (log (AwsProbe_new Demo.C9c.demo_machine) "stopping"))
                       Demo.C9c.demo_world).2) =
    [mkMachine 0 (mkState 9 [PInt 2] true) ["*** <0> stopping"] 0 true].
Proof.
  exact (f_equal (fun r => machines (data r.2))
           (proj1 (stop_uploads_own_machine Demo.C9c.demo_controller
                     (mkState 9 [PInt 2] true)
                     (logs (log (AwsProbe_new Demo.C9c.demo_machine) "stopping"))
                     Demo.C9c.demo_world 0%nat Demo.C9c.demo_machine eq_refl eq_refl))).
Defined.

Lemma run_machine_async_run (self : AwsController) (m : Z) (w : World Session) :
  let payload :=
    Dumps (PDict [("executable_name", PStr (executable_name self));
                  ("session_id", PStr (session_id (data w)));
                  ("machine_id", PInt m)]) in
  _run_machine_async self m w =
    (match lambda_service w (invocations w) payload with
     | Ok res =>
         if invoke_failed res
         then Raise (Exception ("Invoke lambda failed " ++ Payload res))
         else Ok tt
     | Raise e => Raise e
     | Unfinished => Unfinished
     end,
     mkWorld (data w) (lock_depth w)
             (trace w ++ [ProbeLog ("Starting new machine asynchronously - " ++ pretty m);
                          Invoke "c9run" "Event" payload])
             (lambda_service w)).
Proof.
  intros payload.
  unfold _run_machine_async, bind, modify, gets, client_invoke. cbn.
  rewrite (C9cAwsFacts.invocations_app _ w [ProbeLog _]) by reflexivity.
  fold payload.
  destruct (lambda_service w (invocations w) payload) as [res|e|];
    [destruct (invoke_failed res)|..];
    unfold raise, ret, emit; cbn; rewrite <- ?app_assoc; reflexivity.
Qed.

(** X8: [run_forked_machine(m, new_ip)] sets the instruction pointer of the
    session entry of machine [m.machine_id] inside a critical section, with
    no access to the session outside it, leaving that entry's data stack and
    stopped flag as they were (a waiting machine, by contrast, has its flag
    cleared), and only then sends the asynchronous invocation for that
    machine. *)
Theorem run_forked_machine_sets_ip (self : AwsController) (m : MachineMap) (new_ip : Z)
    (w : World Session) (k : nat) (old : MachineMap) :
  py_index (machines (data w)) (machine_id m) = Some k ->
  machines (data w) !! k = Some old ->
  let payload :=
    Dumps (PDict [("executable_name", PStr (executable_name self));
                  ("session_id", PStr (session_id (data w)));
                  ("machine_id", PInt (machine_id m))]) in
  run_forked_machine self m new_ip w =
    (match lambda_service w (invocations w) payload with
     | Ok res =>
         if invoke_failed res
         then Raise (Exception ("Invoke lambda failed " ++ Payload res))
         else Ok tt
     | Raise e => Raise e
     | Unfinished => Unfinished
     end,
     mkWorld (set_machines
                (<[k := mkMachine (machine_id old)
                                  (mkState new_ip (_ds (state old)) (stopped (state old)))
                                  (probe_logs old) (future_fk old) (is_top_level old)]>
                   (machines (data w)))
                (data w))
             (lock_depth w)
             (trace w ++ [LockEnter; LockExit;
                          ProbeLog ("Starting new machine asynchronously - "
                                    ++ pretty (machine_id m));
                          Invoke "c9run" "Event" payload])
             (lambda_service w)) /\
  unlocked_accesses (run_forked_machine self m new_ip w).2 = unlocked_accesses w.
Proof.
  intros Hk Hold payload.
  match goal with |- ?eqn /\ _ => assert (Hrun : eqn) end.
  { set (w1 := mkWorld
                 (set_machines
                    (<[k := set_state (set_ip new_ip) old]> (machines (data w))) (data w))
                 (lock_depth w) (trace w ++ [LockEnter; LockExit]) (lambda_service w)).
    unfold run_forked_machine. unfold bind at 1.
    match goal with
    | |- context [with_lock ?body w] =>
        assert (Hlock : with_lock body w = (Ok tt, w1))
    end.
    { unfold with_lock, bind, gets, lift, store, access, py_alter. cbn.
      rewrite Hk, Hold. cbn. unfold lock_exit, emit, with_data. cbn.
      rewrite <- app_assoc. reflexivity. }
    rewrite Hlock, run_machine_async_run.
    assert (Hcount : invocations w1 = invocations w)
      by (apply (C9cAwsFacts.invocations_app _ w [LockEnter; LockExit]); reflexivity).
    rewrite Hcount. subst w1. cbn. fold payload.
    rewrite <- app_assoc. reflexivity. }
  split; [exact Hrun|]. rewrite Hrun. unfold unlocked_accesses at 1. cbn [snd trace].
  apply (C9cAwsFacts.unlocked_accesses_app _ w [LockEnter; LockExit; ProbeLog _; Invoke _ _ _]).
  reflexivity.
Qed.

Lemma run_forked_machine_sets_ip_witness :
  machines (data (run_forked_machine Demo.C9c.demo_controller Demo.C9c.demo_machine 12
                                     Demo.C9c.demo_world).2) =
    [mkMachine 0 (mkState 12 [PInt 1; PNone; PInt 3] true) [] 0 true].
Proof.
  exact (f_equal (fun r => machines (data r.2))
           (proj1 (run_forked_machine_sets_ip Demo.C9c.demo_controller
                     Demo.C9c.demo_machine 12 Demo.C9c.demo_world 0%nat
                     Demo.C9c.demo_machine eq_refl eq_refl))).
Defined.


(** X9: when the machine id indexes no entry of the session's machine list
    (it is outside [-len, len)), [run_waiting_machine], [run_forked_machine]
    and [stop] raise [IndexError] from inside their critical section: the
    lock is released, the session is exactly as before, and no Lambda
    invocation is made. *)
Theorem unknown_machine_is_IndexError (self : AwsController) (m : MachineMap)
    (mid offset new_ip : Z) (v : pyval) (st : State) (lines : list string)
    (w : World Session) :
  let refused : res unit * World Session :=
    (Raise IndexError,
     mkWorld (data w) (lock_depth w) (trace w ++ [LockEnter; LockExit])
             (lambda_service w)) in
  (py_index (machines (data w)) mid = None ->
     run_waiting_machine self mid offset v w = refused) /\
  (py_index (machines (data w)) (machine_id m) = None ->
     run_forked_machine self m new_ip w = refused) /\
  (py_index (machines (data w)) (this_machine_id self) = None ->
     stop self (this_machine self) st lines w = refused) /\
  invocations refused.2 = invocations w.
Proof.
  intros refused. subst refused.
  split; [|split; [|split]].
  - intros Hnone.
    unfold run_waiting_machine, with_lock, machine_ds_set, bind, gets, lift, py_getitem.
    cbn. rewrite Hnone. cbn. unfold lock_exit, emit. cbn.
    rewrite <- app_assoc. reflexivity.
  - intros Hnone.
    unfold run_forked_machine, with_lock, bind, gets, lift, py_alter.
    cbn. rewrite Hnone. cbn. unfold lock_exit, emit. cbn.
    rewrite <- app_assoc. reflexivity.
  - intros Hnone.
    unfold stop, with_lock, bind, py_assert, gets, lift, py_alter.
    rewrite Nat.eqb_refl. cbn. rewrite Hnone. cbn. unfold lock_exit, emit. cbn.
    rewrite <- app_assoc. reflexivity.
  - apply (C9cAwsFacts.invocations_app _ w [LockEnter; LockExit]). reflexivity.
Qed.

Lemma unknown_machine_is_IndexError_witness :
  run_waiting_machine Demo.C9c.demo_controller 1 0 (PInt 9) Demo.C9c.demo_world =
    (Raise IndexError,
     mkWorld Demo.C9c.demo_session 0 [LockEnter; LockExit] Demo.C9c.accepting_service).
Proof.
  exact (proj1 (unknown_machine_is_IndexError Demo.C9c.demo_controller
                  Demo.C9c.demo_machine 1 0 0 (PInt 9) (mkState 0 [] true) []
                  Demo.C9c.demo_world) eq_refl).
Defined.

Lemma invoke_failed_false (res : LambdaResponse) :
  invoke_failed res = false <-> StatusCode res = 202 /\ FunctionError res = None.
Proof.
  unfold invoke_failed. rewrite orb_false_iff, negb_false_iff, Z.eqb_eq.
  rewrite bool_decide_eq_false. destruct (FunctionError res) as [err|].
  - split; [intros [_ Hno]; exfalso; apply Hno; eauto | intros [_ ?]; discriminate].
  - split; [intros [? _]; auto | intros [? _]; split; [assumption|]].
    intros [x Hx]. discriminate.
Qed.

(** X10: [_run_machine_async] logs one probe line and makes exactly one
    Lambda invocation, of the function "c9run" with invocation type "Event"
    and a payload naming the executable, the session and the machine; it
    changes nothing of the session. It returns normally exactly when the
    service answers with status 202 and without a [FunctionError]: any other
    status, 200 included, makes it raise. *)
Theorem run_machine_async_accepts_202_only (self : AwsController) (m : Z)
    (w : World Session) :
  let payload :=
    Dumps (PDict [("executable_name", PStr (executable_name self));
                  ("session_id", PStr (session_id (data w)));
                  ("machine_id", PInt m)]) in
  let r := _run_machine_async self m w in
  r.2 = mkWorld (data w) (lock_depth w)
                (trace w ++ [ProbeLog ("Starting new machine asynchronously - "
                                       ++ pretty m);
                             Invoke "c9run" "Event" payload])
                (lambda_service w) /\
  invocations r.2 = Datatypes.S (invocations w) /\
  (r.1 = Ok tt <->
   exists res, lambda_service w (invocations w) payload = Ok res /\
               StatusCode res = 202 /\ FunctionError res = None).
Proof.
  intros payload r. subst r. rewrite run_machine_async_run. fold payload. cbn [fst snd].
  split; [reflexivity|]. split.
  - unfold invocations. cbn. rewrite List.filter_app, length_app. cbn. lia.
  - destruct (lambda_service w (invocations w) payload) as [res|e|].
    + destruct (invoke_failed res) eqn:Hfailed.
      * split; [discriminate|]. intros (res' & [= <-] & Hok).
        apply invoke_failed_false in Hok. congruence.
      * split; [|reflexivity]. intros _. exists res. split; [reflexivity|].
        apply invoke_failed_false. exact Hfailed.
    + split; [discriminate | intros (res' & Hres & _); discriminate].
    + split; [discriminate | intros (res' & Hres & _); discriminate].
Qed.

(** X11: the function [get_entrypoint] returns cannot run: its first
    statement evaluates the name [LocalState], which [aws.py] never binds, so
    every call raises [NameError] before a state is built or a machine is
    run, and the world is left as it was. (Making the entrypoint fails only
    if linking the handler does.) *)
Theorem entrypoint_raises_NameError (Handler Linked LocalState : Type)
    (link_handler : Handler -> res Linked)
    (LocalState_new : list pyval -> M (World Session) LocalState)
    (machine_run : Linked -> LocalState -> M (World Session) unit)
    (ds_pop : LocalState -> M (World Session) pyval)
    (handler : Handler) (linked : Linked) :
  link_handler handler = Ok linked ->
  exists f,
    get_entrypoint Handler Linked LocalState link_handler LocalState_new machine_run
                   ds_pop handler = Ok f /\
    forall (event context : pyval) (w : World Session),
      f event context w = (Raise (NameError "LocalState"), w).
Proof.
  intros Hlink. unfold get_entrypoint. rewrite Hlink.
  eexists. split; [reflexivity|]. intros event context w. reflexivity.
Qed.

Lemma entrypoint_raises_NameError_witness :
  exists f,
    get_entrypoint unit unit unit (fun _ => Ok tt) (fun _ => ret tt) (fun _ _ => ret tt)
                   (fun _ => ret PNone) tt = Ok f /\
    forall (event context : pyval) (w : World Session),
      f event context w = (Raise (NameError "LocalState"), w).
Proof.
  exact (entrypoint_raises_NameError unit unit unit (fun _ => Ok tt) (fun _ => ret tt)
           (fun _ _ => ret tt) (fun _ => ret PNone) tt tt eq_refl).
Defined.

End C9cAwsExtFacts.

(** ** The handler of [c9c/runtime/executors/awslambda.py] *)

Module C9cHandlerFacts.
Import Py Aws C9cHandler.

Lemma dict_getitem_present (d : list (string * pyval)) (key : string) :
  key ∈ dict_keys d -> dict_getitem d key = Ok (dict_get d key PNone).
Proof.
  induction d as [|[k v] d IH]; cbn.
  - intros Hin. apply elem_of_nil in Hin. contradiction.
  - intros Hin. destruct (String.eqb_spec k key) as [->|Hne]; [reflexivity|].
    apply elem_of_cons in Hin as [->|Hin]; [contradiction | auto].
Qed.

Lemma dict_getitem_absent (d : list (string * pyval)) (key : string) :
  key ∉ dict_keys d -> dict_getitem d key = Raise (KeyError key).
Proof.
  induction d as [|[k v] d IH]; cbn; [reflexivity|].
  intros Hnotin. apply not_elem_of_cons in Hnotin as [Hne Hrest].
  destruct (String.eqb_spec k key) as [->|_]; [contradiction | auto].
Qed.

(** X12: when the event has the six fields the handler reads, the handler
    calls [run_controller] once with them and answers with [session_id],
    [machine_id] and [finished]; the answer has a [result] field exactly
    when the controller has finished, and then it is the controller's
    result. *)
Theorem handler_result_iff_finished
    (run_controller :
       pyval -> pyval -> pyval -> pyval -> pyval -> pyval -> M (World unit) Controller)
    (event : list (string * pyval)) (w w' : World unit) (c : Controller) :
  Forall (fun key => key ∈ dict_keys event) handler_keys ->
  run_controller (dict_get event "lambda_name" PNone)
                 (dict_get event "executable_name" PNone)
                 (dict_get event "searchpath" PNone)
                 (dict_get event "session_id" PNone)
                 (dict_get event "machine_id" PNone)
                 (dict_get event "do_probe" PNone) w = (Ok c, w') ->
  let answer :=
    Dumps (PDict ([("session_id", dict_get event "session_id" PNone);
                   ("machine_id", dict_get event "machine_id" PNone);
                   ("finished", PBool (finished c))]
                  ++ (if finished c then [("result", result c)] else []))) in
  handler run_controller event w = (Ok answer, w') /\
  ("result" ∈ response_keys answer <-> finished c = true).
Proof.
  intros Hkeys Hrun answer. subst answer.
  repeat (apply Forall_cons in Hkeys as [?%dict_getitem_present Hkeys]).
  split.
  - unfold handler, bind, lift.
    repeat match goal with H : dict_getitem event _ = _ |- _ => rewrite H end.
    rewrite Hrun.
    destruct (finished c);
      repeat match goal with H : dict_getitem event _ = _ |- _ => rewrite H end;
      reflexivity.
  - destruct (finished c); cbn.
    + split; [reflexivity|]. intros _. do 3 apply list_elem_of_further.
      apply list_elem_of_here.
    + split; [|discriminate]. intros Hin.
      repeat (apply elem_of_cons in Hin as [Hin|Hin]; [discriminate|]).
      apply elem_of_nil in Hin. contradiction.
Qed.


Lemma handler_result_iff_finished_witness :
  C9cHandler.handler DemoExt.finished_run DemoExt.handler_event DemoExt.empty_world =
    (Ok (Dumps (PDict [("session_id", PStr "s-1"); ("machine_id", PInt 0);
                       ("finished", PBool true); ("result", PInt 42)])),
     DemoExt.empty_world).
Proof.
  refine (proj1 (handler_result_iff_finished DemoExt.finished_run DemoExt.handler_event
                   DemoExt.empty_world DemoExt.empty_world
                   (mkController true (PInt 42)) _ eq_refl)).
  unfold handler_keys.
  repeat (apply Forall_cons; split; [compute_done|]).
  apply Forall_nil_2.
Defined.

(** X13: the handler reads its six fields in a fixed order before it calls
    [run_controller]. If one is missing, the handler raises [KeyError] for
    the first missing one, [run_controller] is not called, and the world is
    left as it was. *)
Theorem handler_missing_field
    (run_controller :
       pyval -> pyval -> pyval -> pyval -> pyval -> pyval -> M (World unit) Controller)
    (event : list (string * pyval)) (w : World unit)
    (before after : list string) (key : string) :
  handler_keys = (before ++ key :: after)%list ->
  Forall (fun k => k ∈ dict_keys event) before ->
  key ∉ dict_keys event ->
  handler run_controller event w = (Raise (KeyError key), w).
Proof.
  intros Hsplit Hbefore Hmissing.
  apply dict_getitem_absent in Hmissing.
  unfold handler_keys in Hsplit.
  repeat (destruct before as [|? before]; simplify_eq/=;
          try solve [ unfold handler, bind, lift;
                      repeat match goal with
                             | H : dict_getitem event _ = Ok _ |- _ => rewrite H
                             end;
                      rewrite Hmissing; reflexivity ];
          try match goal with
              | Hb : Forall _ (_ :: _) |- _ =>
                  apply Forall_cons in Hb as [?%dict_getitem_present Hb]
              end).
Qed.

Lemma handler_missing_field_witness :
  C9cHandler.handler DemoExt.finished_run
    [("lambda_name", PStr "c9run"); ("executable_name", PStr "exe")]
    DemoExt.empty_world =
    (Raise (KeyError "searchpath"), DemoExt.empty_world).
Proof.
  refine (handler_missing_field DemoExt.finished_run
            [("lambda_name", PStr "c9run"); ("executable_name", PStr "exe")]
            DemoExt.empty_world ["lambda_name"; "executable_name"]
            ["session_id"; "machine_id"; "do_probe"] "searchpath" eq_refl _ _).
  - repeat (apply Forall_cons; split; [compute_done|]).
    apply Forall_nil_2.
  - compute_done.
Defined.

End C9cHandlerFacts.

(** ** [c9/packer.py] *)

Module PackerFacts.
Import Py Packer.

Section PackIac.
Context {Resource IacItem Handler : Type}.
Variable show_resource : Resource -> string.
Variable show_iac : IacItem -> string.
Variable get_resources_set : list Handler -> res (list Resource).
Variable gen_iac_error : string -> SynthState Resource IacItem -> option exn.
Variable warnings_warn : string -> M (Output Resource IacItem) unit.

Abbreviation pack :=
  (pack_iac Resource IacItem Handler show_resource show_iac get_resources_set
            gen_iac_error warnings_warn).

Lemma run_pipeline_app
    (p1 p2 : list (SynthState Resource IacItem -> res (SynthState Resource IacItem)))
    (state : SynthState Resource IacItem) :
  run_pipeline Resource IacItem (p1 ++ p2) state =
    match run_pipeline Resource IacItem p1 state with
    | Ok state' => run_pipeline Resource IacItem p2 state'
    | Raise e => Raise e
    | Unfinished => Unfinished
    end.
Proof.
  revert state. induction p1 as [|synth p1 IH]; intros state; cbn; [reflexivity|].
  destruct (synth state); [apply IH | reflexivity..].
Qed.

(** X14: [pack_iac] starts from the state
    [SynthState(service.name, resources, [], [])], runs the stages of the
    development pipeline if [dev_pipeline] is set and of the production
    pipeline otherwise, in order, each on the state the one before it left,
    and, if no resource is left over, calls [gen_iac] once, on the final
    state and the build directory. Without [verbose] it prints nothing. *)
Theorem pack_iac_generates_final_state (build_d : string)
    (service : Service Resource IacItem Handler) (dev : bool)
    (found : list Resource) (final : SynthState Resource IacItem)
    (o : Output Resource IacItem) :
  get_resources_set ((fun h => h.2) <$> handlers _ _ _ service) = Ok found ->
  run_pipeline Resource IacItem
    (if dev then dev_pipeline _ _ _ service else prod_pipeline _ _ _ service)
    (mkSynthState _ _ (name _ _ _ service) found [] []) = Ok final ->
  resources _ _ final = [] ->
  gen_iac_error build_d final = None ->
  pack build_d service dev false o =
    (Ok tt, mkOutput _ _ (printed _ _ o) (generated _ _ o ++ [(build_d, final)])) /\
  forall p1 p2 state,
    run_pipeline Resource IacItem (p1 ++ p2) state =
      match run_pipeline Resource IacItem p1 state with
      | Ok state' => run_pipeline Resource IacItem p2 state'
      | Raise e => Raise e
      | Unfinished => Unfinished
      end.
Proof.
  intros Hfound Hrun Hnone Hgen. split; [|apply run_pipeline_app].
  unfold pack_iac, bind, lift, ret, gen_iac.
  rewrite Hfound, Hrun, Hnone, Hgen. reflexivity.
Qed.

(** X15: if a resource is left over when the pipeline has run, [pack_iac]
    does not warn: the name [warnings] is not bound in [packer.py], so the
    call raises [NameError], [gen_iac] is never called and no infrastructure
    is generated. With [verbose] the resources have been printed by then;
    the infrastructure items have not. *)
Theorem pack_iac_leftover_raises_NameError (build_d : string)
    (service : Service Resource IacItem Handler) (dev verbose : bool)
    (found : list Resource) (final : SynthState Resource IacItem)
    (o : Output Resource IacItem) :
  get_resources_set ((fun h => h.2) <$> handlers _ _ _ service) = Ok found ->
  run_pipeline Resource IacItem
    (if dev then dev_pipeline _ _ _ service else prod_pipeline _ _ _ service)
    (mkSynthState _ _ (name _ _ _ service) found [] []) = Ok final ->
  resources _ _ final <> [] ->
  name_bound module_globals "warnings" = false /\
  pack build_d service dev verbose o =
    (Raise (NameError "warnings"),
     mkOutput _ _
       (printed _ _ o ++
          (if verbose
           then [("Resources:" ++ newline ++ " - "
                  ++ join (newline ++ " - ") (show_resource <$> found))%string]
           else []))
       (generated _ _ o)).
Proof.
  intros Hfound Hrun Hleft. split; [reflexivity|].
  unfold pack_iac, bind, lift, ret, print, modify.
  rewrite Hfound. destruct verbose; cbn; rewrite Hrun;
    destruct (resources _ _ final) as [|r rest]; try contradiction; cbn.
  - reflexivity.
  - rewrite app_nil_r. destruct o. reflexivity.
Qed.

End PackIac.

Lemma pack_iac_generates_final_state_witness :
  pack_iac string string unit id id DemoExt.one_bucket (fun _ _ => None)
           (fun _ => ret tt) "build" DemoExt.demo_service false false
           (mkOutput _ _ [] []) =
    (Ok tt,
     mkOutput _ _ [] [("build", mkSynthState _ _ "svc" [] ["bucket"] [])]).
Proof.
  exact (proj1 (pack_iac_generates_final_state id id DemoExt.one_bucket
                  (fun _ _ => None) (fun _ => ret tt) "build" DemoExt.demo_service
                  false ["bucket"] (mkSynthState _ _ "svc" [] ["bucket"] [])
                  (mkOutput _ _ [] []) eq_refl eq_refl eq_refl eq_refl)).
Defined.

Lemma pack_iac_leftover_raises_NameError_witness :
  pack_iac string string unit id id DemoExt.one_bucket (fun _ _ => None)
           (fun _ => ret tt) "build" DemoExt.demo_service true false
           (mkOutput _ _ [] []) =
    (Raise (NameError "warnings"), mkOutput _ _ [] []).
Proof.
  refine (proj2 (pack_iac_leftover_raises_NameError id id DemoExt.one_bucket
                   (fun _ _ => None) (fun _ => ret tt) "build" DemoExt.demo_service
                   true false ["bucket"] (mkSynthState _ _ "svc" ["bucket"] [] [])
                   (mkOutput _ _ [] []) eq_refl eq_refl _)).
  discriminate.
Defined.

End PackerFacts.

(** ** More of [teal_lang/executors/awslambda.py] *)

Module TealLambdaExtFacts.
Import Py Aws TealLambda TealLambdaExt.

(** X16: [Invoker.invoke] makes exactly one Lambda invocation, of the resume
    function with invocation type "Event" and a payload holding the session
    id and the [vmid], and changes nothing of the sessions table. It returns
    normally exactly when the service answers with status 202 and without a
    [FunctionError]. [LambdaRunner.run] is the same for its own payload, but
    first checks that it was handed itself as the runner: if not it raises
    [AssertionError] and invokes nothing. *)
Theorem dispatchers_accept_202_only (self : Invoker) (vmid : pyval) (w : W)
    (runner other : C9cLambdaRunner.LambdaRunner) (executable_name : string)
    (searchpath : pyval) (session_id : string) (machine_id : Z) (do_probe : bool)
    (u : World unit) :
  let payload :=
    Dumps (PDict [("session_id", PStr (data_controller self)); ("vmid", vmid)]) in
  let payload' :=
    Dumps (PDict [("lambda_name", PStr (C9cLambdaRunner.fn_name runner));
                  ("executable_name", PStr executable_name);
                  ("searchpath", searchpath);
                  ("session_id", PStr session_id);
                  ("machine_id", PInt machine_id);
                  ("do_probe", PBool do_probe)]) in
  let run := C9cLambdaRunner.run runner runner executable_name searchpath session_id
                                 machine_id do_probe u in
  ((invoke self vmid w).2 = emit (Invoke (resume_fn_name self) "Event" payload) w /\
   ((invoke self vmid w).1 = Ok tt <->
    exists res, lambda_service w (invocations w) payload = Ok res /\
                StatusCode res = 202 /\ FunctionError res = None)) /\
  (run.2 = emit (Invoke (C9cLambdaRunner.fn_name runner) "Event" payload') u /\
   (run.1 = Ok tt <->
    exists res, lambda_service u (invocations u) payload' = Ok res /\
                StatusCode res = 202 /\ FunctionError res = None)) /\
  (C9cLambdaRunner.runner_token other <> C9cLambdaRunner.runner_token runner ->
   C9cLambdaRunner.run runner other executable_name searchpath session_id machine_id
                       do_probe u = (Raise AssertionError, u)).
Proof.
  intros payload payload' run. subst run.
  assert (Hiff : forall (r : res LambdaResponse),
            (match r with
             | Ok res => if invoke_failed res then false else true
             | _ => false
             end = true) <->
            exists res, r = Ok res /\ StatusCode res = 202 /\ FunctionError res = None).
  { intros [res|e|].
    - destruct (invoke_failed res) eqn:Hfailed.
      + split; [discriminate|]. intros (res' & [= <-] & Hok).
        apply C9cAwsExtFacts.invoke_failed_false in Hok. congruence.
      + split; [|reflexivity]. intros _. exists res. split; [reflexivity|].
        apply C9cAwsExtFacts.invoke_failed_false. exact Hfailed.
    - split; [discriminate | intros (res' & Hres & _); discriminate].
    - split; [discriminate | intros (res' & Hres & _); discriminate]. }
  split; [|split].
  - unfold invoke, bind, client_invoke. fold payload.
    specialize (Hiff (lambda_service w (invocations w) payload)).
    destruct (lambda_service w (invocations w) payload) as [res|e|];
      [destruct (invoke_failed res)|..]; cbn;
      (split; [reflexivity|]); rewrite <- Hiff; split; congruence.
  - unfold C9cLambdaRunner.run, bind, py_assert, client_invoke.
    rewrite Nat.eqb_refl. cbn. fold payload'.
    specialize (Hiff (lambda_service u (invocations u) payload')).
    destruct (lambda_service u (invocations u) payload') as [res|e|];
      [destruct (invoke_failed res)|..]; cbn;
      (split; [reflexivity|]); rewrite <- Hiff; split; congruence.
  - intros Hother. apply Nat.eqb_neq in Hother.
    unfold C9cLambdaRunner.run, bind, py_assert. rewrite Hother. reflexivity.
Qed.

Lemma dispatchers_accept_202_only_witness :
  C9cLambdaRunner.run (C9cLambdaRunner.mkRunner 0 "c9run")
                      (C9cLambdaRunner.mkRunner 1 "c9run") "exe" (PStr ".") "s-1" 0
                      false DemoExt.empty_world =
    (Raise AssertionError, DemoExt.empty_world).
Proof.
  refine (proj2 (proj2 (dispatchers_accept_202_only
                          (mkInvoker "s-1" "resume") (PInt 0) Demo.Teal.demo_world
                          (C9cLambdaRunner.mkRunner 0 "c9run")
                          (C9cLambdaRunner.mkRunner 1 "c9run") "exe" (PStr ".") "s-1" 0
                          false DemoExt.empty_world)) _).
  discriminate.
Defined.

(** X17: [resume] has no failure response. Whatever the event and the
    collaborators do, a response it returns has status 200 and a body with
    exactly the keys [session_id], [vmid], [finished] and [result], the first
    two being the values of the event; everything that goes wrong leaves the
    handler as an exception. *)
Theorem resume_returns_only_success (C : Collaborators)
    (event : list (string * pyval)) (w w' : W) (r : Response) :
  resume C event w = (Ok r, w') ->
  statusCode r = 200 /\
  exists finished result,
    body r = Dumps (PDict [("session_id", dict_get event "session_id" PNone);
                           ("vmid", dict_get event "vmid" PNone);
                           ("finished", PBool finished);
                           ("result", result)]).
Proof.
  unfold resume, bind, lift, try_except, ret, controller_finished, controller_result,
    Session_get, with_lock, raise.
  intros H.
  destruct (dict_getitem event "session_id") as [sidv| |] eqn:Hsid; try discriminate.
  destruct (dict_getitem event "vmid") as [vmid| |] eqn:Hvmid; try discriminate.
  assert (Hsid' : sidv = dict_get event "session_id" PNone).
  { clear -Hsid. induction event as [|[k v] event IH]; cbn in *; [discriminate|].
    destruct (String.eqb k "session_id"); [congruence | auto]. }
  assert (Hvmid' : vmid = dict_get event "vmid" PNone).
  { clear -Hvmid. induction event as [|[k v] event IH]; cbn in *; [discriminate|].
    destruct (String.eqb k "vmid"); [congruence | auto]. }
  subst sidv vmid.
  repeat (case_match; simplify_eq/=); split; eauto.
Qed.


Lemma resume_returns_only_success_witness :
  statusCode (success 200 [("session_id", PStr "s-1"); ("vmid", PInt 0);
                           ("finished", PBool true); ("result", PInt 3)]) = 200 /\
  (resume (Demo.Teal.demo_collaborators Demo.Teal.run_finishing Demo.Teal.save_ok)
          [("session_id", PStr "s-1"); ("vmid", PInt 0)] Demo.Teal.demo_world).1 =
    Ok (success 200 [("session_id", PStr "s-1"); ("vmid", PInt 0);
                     ("finished", PBool true); ("result", PInt 3)]).
Proof.
  split; [|reflexivity].
  exact (proj1 (resume_returns_only_success
                  (Demo.Teal.demo_collaborators Demo.Teal.run_finishing Demo.Teal.save_ok)
                  [("session_id", PStr "s-1"); ("vmid", PInt 0)] Demo.Teal.demo_world
                  _ _ eq_refl)).
Defined.

(** X18: [resume] reads [session_id] and then [vmid] from the event before
    anything else: a missing field raises [KeyError] for it and leaves the
    world as it was. An exception raised by the session lookup leaves the
    handler unchanged (there is no [except] clause around it, unlike in
    [set_session_exe] and [getoutput]), and no machine is built or run. *)
Theorem resume_precondition_failures (C : Collaborators)
    (event : list (string * pyval)) (w : W) :
  ("session_id" ∉ dict_keys event ->
     resume C event w = (Raise (KeyError "session_id"), w)) /\
  ("session_id" ∈ dict_keys event -> "vmid" ∉ dict_keys event ->
     resume C event w = (Raise (KeyError "vmid"), w)) /\
  (forall (e : exn) (w1 : W),
     "session_id" ∈ dict_keys event -> "vmid" ∈ dict_keys event ->
     Session_get (dict_get event "session_id" PNone) w = (Raise e, w1) ->
     resume C event w = (Raise e, w1)).
Proof.
  split; [|split].
  - intros Hsid%C9cHandlerFacts.dict_getitem_absent.
    unfold resume, bind, lift. rewrite Hsid. reflexivity.
  - intros Hsid%C9cHandlerFacts.dict_getitem_present
           Hvmid%C9cHandlerFacts.dict_getitem_absent.
    unfold resume, bind, lift. rewrite Hsid, Hvmid. reflexivity.
  - intros e w1 Hsid%C9cHandlerFacts.dict_getitem_present
           Hvmid%C9cHandlerFacts.dict_getitem_present Hget.
    unfold resume, bind, lift. rewrite Hsid, Hvmid, Hget. reflexivity.
Qed.

Lemma resume_precondition_failures_witness :
  resume (Demo.Teal.demo_collaborators Demo.Teal.run_finishing Demo.Teal.save_ok)
         [("session_id", PStr "s-1")] Demo.Teal.demo_world =
    (Raise (KeyError "vmid"), Demo.Teal.demo_world).
Proof.
  refine (proj1 (proj2 (resume_precondition_failures
                          (Demo.Teal.demo_collaborators Demo.Teal.run_finishing
                                                        Demo.Teal.save_ok)
                          [("session_id", PStr "s-1")] Demo.Teal.demo_world)) _ _);
    compute_done.
Defined.

(** X19: when the machine raises in [resume] and [vmid] does not index a
    thread of the session, the handler's own write of the exception slot
    fails inside the critical section: the handler raises [IndexError], the
    machine's exception is neither recorded nor raised again, the lock is
    released and the sessions table is as the machine left it. *)
Theorem resume_bad_vmid_masks_exception (C : Collaborators)
    (event : list (string * pyval)) (sid : string) (i : Z) (s s2 : Session)
    (w w1 w2 : W) (exc : exn) :
  dict_getitem event "session_id" = Ok (PStr sid) ->
  dict_getitem event "vmid" = Ok (PInt i) ->
  sessions (data w) !! sid = Some s ->
  session_id s = sid ->
  TlMachine_new C sid (PInt i) w = (Ok tt, w1) ->
  TlMachine_run C (invoke (Invoker_new C sid)) sid (PInt i) w1 = (Raise exc, w2) ->
  sessions (data w2) !! sid = Some s2 ->
  py_index (machines s2) i = None ->
  resume C event w =
    (Raise IndexError,
     mkWorld (data w2) (lock_depth w2) (trace w2 ++ [LockEnter; LockExit])
             (lambda_service w2)).
Proof.
  intros Hsid Hvmid Hs Hid Hnew Hrun Hs2 Hnone.
  unfold resume, bind, lift. rewrite Hsid, Hvmid. cbn.
  rewrite Hs, Hid, Hnew. unfold try_except. rewrite Hrun. cbn.
  unfold with_lock, set_machine_exception, bind, Session_get, lift, py_alter. cbn.
  rewrite Hs2, Hnone. cbn. unfold lock_exit, emit. cbn.
  rewrite <- app_assoc. reflexivity.
Qed.

Lemma resume_bad_vmid_masks_exception_witness :
  (resume (Demo.Teal.demo_collaborators Demo.Teal.run_raising Demo.Teal.save_ok)
          [("session_id", PStr "s-1"); ("vmid", PInt 7)] Demo.Teal.demo_world).1 =
    Raise IndexError.
Proof.
  exact (f_equal fst
           (resume_bad_vmid_masks_exception
              (Demo.Teal.demo_collaborators Demo.Teal.run_raising Demo.Teal.save_ok)
              [("session_id", PStr "s-1"); ("vmid", PInt 7)] "s-1" 7
              Demo.Teal.stored_session Demo.Teal.stored_session
              Demo.Teal.demo_world Demo.Teal.demo_world Demo.Teal.demo_world
              (Exception "boom") eq_refl eq_refl eq_refl eq_refl eq_refl eq_refl
              eq_refl eq_refl)).
Defined.

Lemma dict_getitem_raises (d : list (string * pyval)) (key : string) (e : exn) :
  dict_getitem d key = Raise e -> e = KeyError key.
Proof.
  induction d as [|[k v] d IH]; cbn; [congruence|].
  destruct (String.eqb k key); [discriminate | exact IH].
Qed.

Lemma dict_getitem_finishes (d : list (string * pyval)) (key : string) :
  dict_getitem d key <> Unfinished.
Proof.
  induction d as [|[k v] d IH]; cbn; [discriminate|].
  destruct (String.eqb k key); [discriminate | exact IH].
Qed.

Lemma load_body_no_body (decode : string -> option pyval)
    (event : list (string * pyval)) (w : W) :
  (forall text, dict_getitem event "body" = Ok (PStr text) -> decode text = None) ->
  load_body decode event w = (Ok (inl (fail "No event body" 400 [])), w).
Proof.
  unfold load_body, try_except_tuple, bind, lift, ret, json_loads.
  destruct (dict_getitem event "body") as [v|e|] eqn:Hbody; intros Hnone.
  - destruct v; try reflexivity. rewrite (Hnone s eq_refl). reflexivity.
  - apply dict_getitem_raises in Hbody as ->. reflexivity.
  - exfalso. eapply dict_getitem_finishes; eauto.
Qed.

Lemma load_body_decoded (decode : string -> option pyval)
    (event : list (string * pyval)) (text : string) (v : pyval) (w : W) :
  dict_getitem event "body" = Ok (PStr text) ->
  decode text = Some v ->
  load_body decode event w = (Ok (inr v), w).
Proof.
  intros Hbody Hdecode.
  unfold load_body, try_except_tuple, bind, lift, ret, json_loads.
  rewrite Hbody, Hdecode. reflexivity.
Qed.

(** X20: the API Gateway wrappers [new_apigw] and [getoutput_apigw]. When
    the event has no [body], or the body is not a string, or it is a string
    that is not JSON, both answer "No event body" (status 400) and touch
    nothing: no session is created. When the body is the JSON text of an
    object, the wrapper is the wrapped handler applied to that object. When
    the body is JSON but not an object (a list, a number, [null]), the
    wrapped handler's first [event.get] raises [AttributeError] ("'list'
    object has no attribute 'get'", with the type of the value), which
    leaves the wrapper as an exception, with nothing touched. *)
Theorem apigw_wrappers_decode_body (C : Collaborators) (decode : string -> option pyval)
    (event : list (string * pyval)) (sched : list Tick) (w : W) :
  ((forall text, dict_getitem event "body" = Ok (PStr text) -> decode text = None) ->
     new_apigw C decode event sched w = (Ok (fail "No event body" 400 []), w) /\
     getoutput_apigw decode event w = (Ok (fail "No event body" 400 []), w)) /\
  (forall (text : string) (payload : list (string * pyval)),
     dict_getitem event "body" = Ok (PStr text) ->
     decode text = Some (PDict payload) ->
     new_apigw C decode event sched w = new C payload sched w /\
     getoutput_apigw decode event w = getoutput payload w) /\
  (forall (text : string) (v : pyval),
     dict_getitem event "body" = Ok (PStr text) ->
     decode text = Some v ->
     (forall d, v <> PDict d) ->
     new_apigw C decode event sched w =
       (Raise (Exn "AttributeError"
                   ("'" ++ type_name v ++ "' object has no attribute 'get'")), w) /\
     getoutput_apigw decode event w =
       (Raise (Exn "AttributeError"
                   ("'" ++ type_name v ++ "' object has no attribute 'get'")), w)).
Proof.
  split; [|split].
  - intros Hnone. unfold new_apigw, getoutput_apigw, bind.
    rewrite (load_body_no_body decode event w Hnone). split; reflexivity.
  - intros text payload Hbody Hdecode. unfold new_apigw, getoutput_apigw, bind.
    rewrite (load_body_decoded decode event text _ w Hbody Hdecode).
    split; reflexivity.
  - intros text v Hbody Hdecode Hnot. unfold new_apigw, getoutput_apigw, bind.
    rewrite (load_body_decoded decode event text _ w Hbody Hdecode).
    destruct v; try (split; reflexivity). exfalso. eapply Hnot. reflexivity.
Qed.

Lemma apigw_wrappers_decode_body_witness :
  getoutput_apigw DemoExt.demo_decode [("body", PStr "not json")] Demo.Teal.demo_world =
    (Ok (fail "No event body" 400 []), Demo.Teal.demo_world) /\
  new_apigw (Demo.Teal.demo_collaborators Demo.Teal.run_finishing Demo.Teal.save_ok)
            DemoExt.demo_decode [("body", PStr "{}")] [] Demo.Teal.demo_world =
    new (Demo.Teal.demo_collaborators Demo.Teal.run_finishing Demo.Teal.save_ok)
        [] [] Demo.Teal.demo_world /\
  getoutput_apigw DemoExt.demo_decode [("body", PStr "[]")] Demo.Teal.demo_world =
    (Raise (Exn "AttributeError" "'list' object has no attribute 'get'"),
     Demo.Teal.demo_world).
Proof.
  split; [|split].
  - refine (proj2 (proj1 (apigw_wrappers_decode_body
                            (Demo.Teal.demo_collaborators Demo.Teal.run_finishing
                                                          Demo.Teal.save_ok)
                            DemoExt.demo_decode [("body", PStr "not json")] []
                            Demo.Teal.demo_world) _)).
    intros text [= <-]. reflexivity.
  - exact (proj1 (proj1 (proj2 (apigw_wrappers_decode_body
                                  (Demo.Teal.demo_collaborators Demo.Teal.run_finishing
                                                                Demo.Teal.save_ok)
                                  DemoExt.demo_decode [("body", PStr "{}")] []
                                  Demo.Teal.demo_world))
                        "{}" [] eq_refl eq_refl)).
  - refine (proj2 (proj2 (proj2 (apigw_wrappers_decode_body
                                   (Demo.Teal.demo_collaborators Demo.Teal.run_finishing
                                                                 Demo.Teal.save_ok)
                                   DemoExt.demo_decode [("body", PStr "[]")] []
                                   Demo.Teal.demo_world))
                         "[]" (PList []) eq_refl eq_refl _)).
    intros d. discriminate.
Defined.

(** X21: [set_exe] catches nothing. The only response it returns is the
    success object (status 200) with the message "Base Executable set
    successfully". It initialises the base session before it reads the event:
    an event without [content] raises [KeyError] after that initialisation,
    and a compilation error of the content is raised to the caller as it is
    (where [set_session_exe] answers "Error compiling code"), in both cases
    without [set_base_exe] being called. *)
Theorem set_exe_outcomes (C : Collaborators) (init_base_session : M W unit)
    (set_base_exe : Executable C -> M W unit) (event : list (string * pyval)) (w : W) :
  (forall (r : Response) (w' : W),
     set_exe C init_base_session set_base_exe event w = (Ok r, w') ->
     r = success 200 [("message", PStr "Base Executable set successfully")]) /\
  (forall w1 : W,
     init_base_session w = (Ok tt, w1) ->
     "content" ∉ dict_keys event ->
     set_exe C init_base_session set_base_exe event w = (Raise (KeyError "content"), w1)) /\
  (forall (w1 : W) (content : pyval) (e : exn),
     init_base_session w = (Ok tt, w1) ->
     dict_getitem event "content" = Ok content ->
     compile C content = Raise e ->
     set_exe C init_base_session set_base_exe event w = (Raise e, w1)).
Proof.
  split; [|split].
  - intros r w'. unfold set_exe, bind, lift, ret.
    intros H. repeat (case_match; simplify_eq/=). reflexivity.
  - intros w1 Hinit Hcontent%C9cHandlerFacts.dict_getitem_absent.
    unfold set_exe, bind, lift. rewrite Hinit, Hcontent. reflexivity.
  - intros w1 content e Hinit Hcontent Hcompile.
    unfold set_exe, bind, lift. rewrite Hinit, Hcontent.
    unfold compile in Hcompile.
    destruct (evaluate_toplevel C content) as [toplevel|e'|]; [|congruence..].
    rewrite Hcompile. reflexivity.
Qed.

Lemma set_exe_outcomes_witness :
  set_exe (Demo.Teal.demo_collaborators Demo.Teal.run_finishing Demo.Teal.save_ok)
          (ret tt) (fun _ => ret tt) [("content", PInt 1)] Demo.Teal.demo_world =
    (Raise (TypeError "expected a string"), Demo.Teal.demo_world).
Proof.
  exact (proj2 (proj2 (set_exe_outcomes
                         (Demo.Teal.demo_collaborators Demo.Teal.run_finishing
                                                       Demo.Teal.save_ok)
                         (ret tt) (fun _ => ret tt) [("content", PInt 1)]
                         Demo.Teal.demo_world))
               Demo.Teal.demo_world (PInt 1) (TypeError "expected a string")
               eq_refl eq_refl eq_refl).
Defined.

(** The first statements of [new]: the timeout is the event's when that is
    truthy and the configured one otherwise, and then the session is
    created. *)
Lemma new_setup_prologue (C : Collaborators) (event : list (string * pyval)) (w w1 : W)
    (s : Session) :
  truthy (dict_get event "timeout" PNone) = true \/
    (exists t, FIXED_TEAL_TIMEOUT C = Ok t) ->
  new_session C w = (Ok s, w1) ->
  exists timeout : pyval,
    forall (A : Type) (k : pyval -> Session -> M W A),
      (let* timeout :=
         (if truthy (dict_get event "timeout" PNone)
          then ret (dict_get event "timeout" PNone)
          else let* t := lift (FIXED_TEAL_TIMEOUT C) in ret (PInt t)) in
       let* session := new_session C in
       k timeout session) w = k timeout s w1.
Proof.
  intros Htimeout Hsession.
  destruct (truthy (dict_get event "timeout" PNone)) eqn:Htruthy.
  - exists (dict_get event "timeout" PNone). intros A k.
    unfold bind, ret. rewrite Hsession. reflexivity.
  - destruct Htimeout as [?|[t Ht]]; [discriminate|].
    exists (PInt t). intros A k.
    unfold bind, ret, lift. rewrite Ht, Hsession. reflexivity.
Qed.

(** X22: when the event carries code that does not compile, [new] answers
    with status 400 and the message "Error compiling code:", a line break and
    the [str()] of the compiler's exception, whatever its class. The session
    was created before the code was looked at: the world is the one
    [db.new_session()] left, and the body of the answer has no key but
    [message], so the session's id is not reported. *)
Theorem new_compile_error_response (C : Collaborators) (event : list (string * pyval))
    (sched : list Tick) (w w1 : W) (s : Session) (e : exn) :
  truthy (dict_get event "code" PNone) = true ->
  truthy (dict_get event "timeout" PNone) = true \/
    (exists t, FIXED_TEAL_TIMEOUT C = Ok t) ->
  new_session C w = (Ok s, w1) ->
  compile C (dict_get event "code" PNone) = Raise e ->
  new C event sched w =
    (Ok (fail ("Error compiling code:" ++ newline ++ exn_str e) 400 []), w1) /\
  body_keys (fail ("Error compiling code:" ++ newline ++ exn_str e) 400 []) = ["message"].
Proof.
  intros Hcode Htimeout Hsession Hcompile. split; [|reflexivity].
  destruct (new_setup_prologue C event w w1 s Htimeout Hsession) as [timeout Hprologue].
  unfold new. unfold bind at 1. unfold new_setup. rewrite Hprologue, Hcode.
  unfold compile in Hcompile. unfold bind, try_except, lift, ret.
  destruct (evaluate_toplevel C (dict_get event "code" PNone)) as [toplevel|e'|];
    [|simplify_eq; reflexivity|discriminate].
  rewrite Hcompile. reflexivity.
Qed.

Lemma new_compile_error_response_witness :
  new (Demo.Teal.demo_collaborators Demo.Teal.run_finishing Demo.Teal.save_ok)
      [("code", PInt 1)] [] Demo.Teal.demo_world =
    (Ok (fail ("Error compiling code:" ++ newline ++ "expected a string") 400 []),
     with_data (set_sessions <["s-new" := Demo.Teal.fresh_session]>) Demo.Teal.demo_world).
Proof.
  exact (proj1 (new_compile_error_response
                  (Demo.Teal.demo_collaborators Demo.Teal.run_finishing Demo.Teal.save_ok)
                  [("code", PInt 1)] [] Demo.Teal.demo_world _ Demo.Teal.fresh_session
                  (TypeError "expected a string") eq_refl
                  (or_intror (ex_intro _ 5 eq_refl)) eq_refl eq_refl)).
Defined.

(** X23: when the event carries no code and its [args] cannot be read,
    because [args] is not iterable or because [tealparser.read_exp] raises on
    one of its items, [new] answers "Could not parse args" (status 400): the
    bare [except] catches every exception. The session was created before,
    and nothing happens after: no thread is created and no machine runs. *)
Theorem new_unparsable_args (C : Collaborators) (event : list (string * pyval))
    (sched : list Tick) (w w1 : W) (s : Session) (e : exn) :
  truthy (dict_get event "code" PNone) = false ->
  truthy (dict_get event "timeout" PNone) = true \/
    (exists t, FIXED_TEAL_TIMEOUT C = Ok t) ->
  new_session C w = (Ok s, w1) ->
  py_iter (dict_get event "args" (PList [])) = Raise e \/
    (exists items, py_iter (dict_get event "args" (PList [])) = Ok items /\
                   read_args C items = Raise e) ->
  new C event sched w = (Ok (fail "Could not parse args" 400 []), w1).
Proof.
  intros Hcode Htimeout Hsession Hargs.
  destruct (new_setup_prologue C event w w1 s Htimeout Hsession) as [timeout Hprologue].
  unfold new. unfold bind at 1. unfold new_setup. rewrite Hprologue, Hcode.
  unfold bind, try_except, lift, ret.
  destruct Hargs as [Hiter|(items & Hiter & Hread)].
  - rewrite Hiter. reflexivity.
  - rewrite Hiter, Hread. reflexivity.
Qed.

Lemma new_unparsable_args_witness :
  new DemoExt.strict_collaborators [("args", PList [PInt 1; PNone])] []
      Demo.Teal.demo_world =
    (Ok (fail "Could not parse args" 400 []),
     with_data (set_sessions <["s-new" := Demo.Teal.fresh_session]>) Demo.Teal.demo_world).
Proof.
  apply (new_unparsable_args DemoExt.strict_collaborators
           [("args", PList [PInt 1; PNone])] [] Demo.Teal.demo_world _
           Demo.Teal.fresh_session
           (TypeError "expected string or bytes-like object") eq_refl
           (or_intror (ex_intro _ 5 eq_refl)) eq_refl).
  right. exists [PInt 1; PNone]. split; reflexivity.
Defined.

(** X24: when building or running the first machine of the new session
    raises, [new] writes the [str()] of the exception to the exception slot of
    the new thread, inside one critical section of the session lock and with
    no access outside it, and returns a failure object: status 400 and a body
    with exactly the fields [message], which is "Runtime error", and
    [session_id]. The exception is not raised again (as it is in [resume]),
    and [new] neither sleeps nor polls, whatever [wait_for_finish] says. *)
Theorem new_runtime_error_recorded (C : Collaborators) (event : list (string * pyval))
    (sched : list Tick) (w w1 w2 w3 : W) (s s3 : Session) (items args : list pyval)
    (i : Z) (k : nat) (m : MachineMap) (exc : exn) :
  let sid := session_id s in
  truthy (dict_get event "code" PNone) = false ->
  truthy (dict_get event "timeout" PNone) = true \/
    (exists t, FIXED_TEAL_TIMEOUT C = Ok t) ->
  new_session C w = (Ok s, w1) ->
  py_iter (dict_get event "args" (PList [])) = Ok items ->
  read_args C items = Ok args ->
  new_machine C sid args (dict_get event "function" (PStr "main")) w1 = (Ok (PInt i), w2) ->
  (TlMachine_new C sid (PInt i) ;;
   TlMachine_run C (invoke (Invoker_new C sid)) sid (PInt i)) w2 = (Raise exc, w3) ->
  sessions (data w3) !! sid = Some s3 ->
  py_index (machines s3) i = Some k ->
  machines s3 !! k = Some m ->
  exists r : Response,
    new C event sched w =
      (Ok r,
       mkWorld
         (mkTables
            (<[sid := mkSession (session_id s3) (executable s3)
                                (<[k := mkMachine (stdout m) (Some (exn_str exc))]>
                                   (machines s3))
                                (finished s3) (result s3)]> (sessions (data w3)))
            (clock (data w3)))
         (lock_depth w3) (trace w3 ++ [LockEnter; LockExit]) (lambda_service w3)) /\
    statusCode r = 400 /\
    body r = Dumps (PDict [("message", PStr "Runtime error"); ("session_id", PStr sid)]) /\
    unlocked_accesses (new C event sched w).2 = unlocked_accesses w3.
Proof.
  intros sid Hcode Htimeout Hsession Hiter Hread Hmachine Hrun Hs3 Hk Hm.
  exists (fail "Runtime error" 400 [("session_id", PStr sid)]).
  match goal with |- ?eqn /\ _ => assert (Hnew : eqn) end.
  { destruct (new_setup_prologue C event w w1 s Htimeout Hsession)
      as [timeout Hprologue].
    unfold new. unfold bind at 1. unfold new_setup. rewrite Hprologue, Hcode.
    fold sid.
    unfold bind, try_except, lift, ret. rewrite Hiter, Hread. cbn.
    rewrite Hmachine.
    unfold bind in Hrun.
    destruct (TlMachine_new C sid (PInt i) w2) as [[[]|e'|] w'] eqn:Hbuild.
    - rewrite Hrun. cbn.
      unfold with_lock, set_machine_exception, bind, Session_get, lift, py_alter,
        store, access. cbn.
      rewrite Hs3, Hk, Hm. cbn.
      unfold lock_exit, emit, with_data, set_sessions, set_machines, set_exception. cbn.
      rewrite <- app_assoc. reflexivity.
    - simplify_eq. cbn.
      unfold with_lock, set_machine_exception, bind, Session_get, lift, py_alter,
        store, access. cbn.
      rewrite Hs3, Hk, Hm. cbn.
      unfold lock_exit, emit, with_data, set_sessions, set_machines, set_exception. cbn.
      rewrite <- app_assoc. reflexivity.
    - discriminate. }
  split; [exact Hnew|]. split; [reflexivity|]. split; [reflexivity|].
  rewrite Hnew. unfold unlocked_accesses at 1. cbn [snd trace].
  apply (C9cAwsFacts.unlocked_accesses_app _ w3 [LockEnter; LockExit]). reflexivity.
Qed.

Lemma new_runtime_error_recorded_witness :
  exists r : Response,
    new (Demo.Teal.demo_collaborators Demo.Teal.run_raising Demo.Teal.save_ok)
        [("wait_for_finish", PBool true)] [] Demo.Teal.demo_world =
      (Ok r,
       mkWorld
         (mkTables
            (<["s-new" := mkSession "s-new" None [mkMachine "" (Some "boom")] false PNone]>
               (<["s-new" := mkSession "s-new" None [mkMachine "" None] false PNone]>
                  (<["s-new" := Demo.Teal.fresh_session]>
                     {[ "s-1" := Demo.Teal.stored_session ]})))
            100)
         0 [LockEnter; LockExit] Demo.Teal.accepting_service) /\
    body r = Dumps (PDict [("message", PStr "Runtime error");
                           ("session_id", PStr "s-new")]).
Proof.
  destruct (new_runtime_error_recorded
              (Demo.Teal.demo_collaborators Demo.Teal.run_raising Demo.Teal.save_ok)
              [("wait_for_finish", PBool true)] [] Demo.Teal.demo_world _ _ _
              Demo.Teal.fresh_session
              (mkSession "s-new" None [mkMachine "" None] false PNone)
              [] [] 0 0%nat (mkMachine "" None) (Exception "boom")
              eq_refl (or_intror (ex_intro _ 5 eq_refl)) eq_refl eq_refl eq_refl
              eq_refl eq_refl eq_refl eq_refl eq_refl)
    as (r & Hnew & _ & Hbody & _).
  exists r. split; [exact Hnew | exact Hbody].
Defined.

Lemma dict_get_cons_other (d : list (string * pyval)) (k key : string) (v dflt : pyval) :
  k <> key -> dict_get ((k, v) :: d) key dflt = dict_get d key dflt.
Proof. intros Hne%String.eqb_neq. cbn. rewrite Hne. reflexivity. Qed.

(** X25: a [timeout] of the event that is falsy (absent, [None], [0], the
    empty string) is not a timeout of its own: [new] behaves exactly as if
    the event carried the configured [FIXED_TEAL_TIMEOUT]. When that setting
    cannot be read as an integer, such a call raises before a session is
    created. *)
Theorem new_falsy_timeout_is_default (C : Collaborators) (event : list (string * pyval))
    (sched : list Tick) (w : W) :
  truthy (dict_get event "timeout" PNone) = false ->
  (forall t : Z, FIXED_TEAL_TIMEOUT C = Ok t ->
     new C (("timeout", PInt t) :: event) sched w = new C event sched w) /\
  (forall e : exn, FIXED_TEAL_TIMEOUT C = Raise e -> new C event sched w = (Raise e, w)).
Proof.
  intros Hfalsy. split.
  - intros t Ht. unfold new, new_setup.
    change (dict_get (("timeout", PInt t) :: event) "timeout" PNone) with (PInt t).
    rewrite (dict_get_cons_other event "timeout" "function"),
      (dict_get_cons_other event "timeout" "args"),
      (dict_get_cons_other event "timeout" "check_period"),
      (dict_get_cons_other event "timeout" "wait_for_finish"),
      (dict_get_cons_other event "timeout" "code") by discriminate.
    rewrite Hfalsy.
    destruct (truthy (PInt t)) eqn:Htruthy; [|reflexivity].
    unfold bind at 3 4 7 8. unfold lift, ret. rewrite Ht. reflexivity.
  - intros e He. unfold new, new_setup. rewrite Hfalsy.
    unfold bind, lift. rewrite He. reflexivity.
Qed.

Lemma new_falsy_timeout_is_default_witness :
  new (Demo.Teal.demo_collaborators Demo.Teal.run_suspending Demo.Teal.save_ok)
      [("timeout", PInt 5); ("timeout", PInt 0)] [Demo.Teal.idle] Demo.Teal.demo_world =
  new (Demo.Teal.demo_collaborators Demo.Teal.run_suspending Demo.Teal.save_ok)
      [("timeout", PInt 0)] [Demo.Teal.idle] Demo.Teal.demo_world.
Proof.
  exact (proj1 (new_falsy_timeout_is_default
                  (Demo.Teal.demo_collaborators Demo.Teal.run_suspending Demo.Teal.save_ok)
                  [("timeout", PInt 0)] [Demo.Teal.idle] Demo.Teal.demo_world eq_refl)
               5 eq_refl).
Defined.

(** What [new] keeps of the event once the first machine cycle has run. *)
Lemma new_setup_started (C : Collaborators) (event : list (string * pyval)) (w w1 : W)
    (st : Started) :
  new_setup C event w = (Ok (inr st), w1) ->
  check_period st = dict_get event "check_period" (PInt 1) /\
  wait_for_finish st = dict_get event "wait_for_finish" (PBool true).
Proof.
  unfold new_setup, bind, try_except, ret, lift, session_save, with_lock. cbn.
  intros H.
  repeat (case_match; simplify_eq/=); auto.
Qed.

(** X26: with a falsy [wait_for_finish], [new] does not poll: once the first
    machine cycle has run it reads the session once and answers with status
    200, whether or not the session has finished, and the clock and the
    sessions table are as that cycle left them, whatever the other workers
    would have done next. *)
Theorem new_without_wait_does_not_poll (C : Collaborators)
    (event : list (string * pyval)) (sched : list Tick) (w w1 : W) (st : Started)
    (s : Session) :
  new_setup C event w = (Ok (inr st), w1) ->
  truthy (dict_get event "wait_for_finish" (PBool true)) = false ->
  sessions (data w1) !! started_session st = Some s ->
  new C event sched w =
    (Ok (new_success (started_session st) (started_vmid st) (finished s) (result s)), w1).
Proof.
  intros Hsetup Hwait Hs.
  destruct (new_setup_started C event w w1 st Hsetup) as [_ Hfield].
  rewrite <- Hfield in Hwait.
  unfold new. unfold bind at 1. rewrite Hsetup. unfold bind at 1. rewrite Hwait.
  unfold controller_finished, controller_result, bind, ret, Session_get.
  rewrite Hs. cbn. rewrite Hs. reflexivity.
Qed.

Lemma new_without_wait_does_not_poll_witness :
  (new (Demo.Teal.demo_collaborators Demo.Teal.run_suspending Demo.Teal.save_ok)
       [("wait_for_finish", PBool false)] [DemoExt.finishing_tick]
       Demo.Teal.demo_world).1 =
    Ok (new_success "s-new" (PInt 0) false PNone).
Proof.
  exact (f_equal fst
           (new_without_wait_does_not_poll
              (Demo.Teal.demo_collaborators Demo.Teal.run_suspending Demo.Teal.save_ok)
              [("wait_for_finish", PBool false)] [DemoExt.finishing_tick]
              Demo.Teal.demo_world _
              (mkStarted "s-new" (PInt 0) (PInt 1) (PBool false) (PInt 5))
              (mkSession "s-new" None [mkMachine "" None] false PNone)
              eq_refl eq_refl eq_refl)).
Defined.

(** The polling loop, when the session is found finished at the [k]-th look
    and no sleep before that ended late: the loop is left after [k] sleeps,
    and the table is then what the other workers alone made of it. *)
Lemma wait_loop_finishes (sched : list Tick) (sid : string) (p t start : Z) :
  0 <= p ->
  forall (k : nat) (w : W) (s : Session),
  (k <= length sched)%nat ->
  (forall n : nat, (n < k)%nat ->
     exists s', store_after n sched (sessions (data w)) !! sid = Some s' /\
                finished s' = false) ->
  store_after k sched (sessions (data w)) !! sid = Some s ->
  finished s = true ->
  (forall j : nat, (1 <= j <= k)%nat -> clock (data w) - start + slept j p sched <= t) ->
  wait_loop sched sid (PInt p) (PInt t) start w =
    (Ok None,
     mkWorld (mkTables (store_after k sched (sessions (data w)))
                       (clock (data w) + slept k p sched))
             (lock_depth w) (trace w) (lambda_service w)).
Proof.
  intros Hp. induction sched as [|tick sched IH]; intros k w s Hk Hunfinished Hs Hfin Hearly.
  - assert (k = 0%nat) by (cbn in Hk; lia). subst k. cbn in Hs.
    cbn. unfold controller_finished, bind, Session_get, ret. rewrite Hs, Hfin.
    destruct w as [[st c] d tr sv]. cbn. rewrite Z.add_0_r. reflexivity.
  - destruct k as [|k].
    + cbn in Hs. cbn [wait_loop].
      unfold controller_finished, bind, Session_get, ret. rewrite Hs, Hfin.
      destruct w as [[st c] d tr sv]. cbn. rewrite Z.add_0_r. reflexivity.
    + destruct (Hunfinished 0%nat ltac:(lia)) as (s0 & Hs0 & Hfin0). cbn in Hs0.
      set (w' := with_data (fun tb => mkTables (interference tick (sessions tb))
                                               (clock tb + p + Z.of_nat (overrun tick))) w).
      assert (Hstep : wait_loop (tick :: sched) sid (PInt p) (PInt t) start w =
                if clock (data w') - start >? t
                then (Ok (Some (fail "Timeout waiting for finish" 400
                                     [("session_id", PStr sid)])), w')
                else wait_loop sched sid (PInt p) (PInt t) start w').
      { cbn [wait_loop]. unfold controller_finished, bind, Session_get, ret.
        rewrite Hs0, Hfin0. unfold time_sleep, time_time, modify, gets, lift, py_gt.
        destruct (p <? 0) eqn:Hneg; [apply Z.ltb_lt in Hneg; lia|].
        fold w'. destruct (clock (data w') - start >? t); reflexivity. }
      rewrite Hstep. clear Hstep.
      assert (Hclock : clock (data w') = clock (data w) + p + Z.of_nat (overrun tick))
        by reflexivity.
      assert (Hsessions : sessions (data w') = interference tick (sessions (data w)))
        by reflexivity.
      destruct (Z.gtb_spec (clock (data w') - start) t) as [Hgt|Hle].
      * specialize (Hearly 1%nat ltac:(lia)). cbn [slept] in Hearly.
        rewrite Hclock in Hgt. lia.
      * rewrite (IH k w' s).
        -- cbn [slept store_after]. rewrite Hsessions, Hclock.
           subst w'. destruct w as [[st c] d tr sv]. unfold with_data. cbn.
           do 3 f_equal. lia.
        -- cbn [length] in Hk. lia.
        -- intros n Hn. rewrite Hsessions. apply (Hunfinished (Datatypes.S n)). lia.
        -- rewrite Hsessions. exact Hs.
        -- exact Hfin.
        -- intros j Hj. specialize (Hearly (Datatypes.S j) ltac:(lia)).
           cbn [slept] in Hearly. rewrite Hclock. lia.
Qed.

(** X27: when [new] waits and the session is found finished at the [k]-th
    look, no sleep before that having ended past the timeout, [new] answers
    with status 200, [finished] true and the session's result, after exactly
    [k] sleeps ([k] = 0: at once, without sleeping). On that path the handler
    writes nothing: the sessions table is what the other workers made of the
    table left by the first machine cycle, and lock and trace are as that
    cycle left them. *)
Theorem new_returns_when_session_finishes (C : Collaborators)
    (event : list (string * pyval)) (sched : list Tick) (w w1 : W) (st : Started)
    (p t : Z) (k : nat) (s : Session) :
  new_setup C event w = (Ok (inr st), w1) ->
  truthy (dict_get event "wait_for_finish" (PBool true)) = true ->
  dict_get event "check_period" (PInt 1) = PInt p ->
  0 <= p ->
  timeout st = PInt t ->
  (k <= length sched)%nat ->
  (forall n : nat, (n < k)%nat ->
     exists s', store_after n sched (sessions (data w1)) !! started_session st = Some s' /\
                finished s' = false) ->
  store_after k sched (sessions (data w1)) !! started_session st = Some s ->
  finished s = true ->
  (forall j : nat, (1 <= j <= k)%nat -> slept j p sched <= t) ->
  new C event sched w =
    (Ok (new_success (started_session st) (started_vmid st) true (result s)),
     mkWorld (mkTables (store_after k sched (sessions (data w1)))
                       (clock (data w1) + slept k p sched))
             (lock_depth w1) (trace w1) (lambda_service w1)).
Proof.
  intros Hsetup Hwait Hperiod Hp Ht Hk Hunfinished Hs Hfin Hearly.
  destruct (new_setup_started C event w w1 st Hsetup) as [Hfield1 Hfield2].
  rewrite <- Hfield2 in Hwait. rewrite <- Hfield1 in Hperiod.
  unfold new. unfold bind at 1. rewrite Hsetup. unfold bind at 1. rewrite Hwait.
  unfold bind at 1. unfold time_time at 1, gets at 1. rewrite Hperiod, Ht.
  rewrite (wait_loop_finishes sched (started_session st) p t (clock (data w1)) Hp
             k w1 s Hk Hunfinished Hs Hfin).
  - unfold controller_finished, controller_result, bind, ret, Session_get. cbn.
    rewrite Hs. cbn. rewrite Hs, Hfin. reflexivity.
  - intros j Hj. specialize (Hearly j Hj). lia.
Qed.

Lemma new_returns_when_session_finishes_witness :
  (new (Demo.Teal.demo_collaborators Demo.Teal.run_suspending Demo.Teal.save_ok)
       [] [DemoExt.finishing_tick; Demo.Teal.idle] Demo.Teal.demo_world).1 =
    Ok (new_success "s-new" (PInt 0) true (PInt 3)).
Proof.
  refine (f_equal fst
            (new_returns_when_session_finishes
               (Demo.Teal.demo_collaborators Demo.Teal.run_suspending Demo.Teal.save_ok)
               [] [DemoExt.finishing_tick; Demo.Teal.idle] Demo.Teal.demo_world _
               (mkStarted "s-new" (PInt 0) (PInt 1) (PBool true) (PInt 5)) 1 5 1%nat
               (mkSession "s-new" None [mkMachine "" None] true (PInt 3))
               eq_refl eq_refl eq_refl _ eq_refl _ _ eq_refl eq_refl _)).
  - lia.
  - cbn. lia.
  - intros n Hn. assert (n = 0%nat) as -> by lia.
    exists (mkSession "s-new" None [mkMachine "" None] false PNone).
    split; reflexivity.
  - intros j Hj. assert (j = 1%nat) as -> by lia. cbn. lia.
Defined.

(** X28: [getoutput] only reads. Whatever the event, it leaves the world as
    it was; its outcome depends on the world through the sessions table
    alone; and a missing or falsy [session_id] is answered with "No session
    ID" (status 400) without the table being looked at. *)
Theorem getoutput_only_reads (event : list (string * pyval)) (w : W) :
  (getoutput event w).2 = w /\
  (forall w' : W, sessions (data w') = sessions (data w) ->
     (getoutput event w').1 = (getoutput event w).1) /\
  (truthy (dict_get event "session_id" PNone) = false ->
     getoutput event w = (Ok (fail "No session ID" 400 []), w)).
Proof.
  split; [|split].
  - unfold getoutput, bind, try_except, ret, Session_get.
    repeat (case_match; simplify_eq/=); reflexivity.
  - intros w' Heq. unfold getoutput, bind, try_except, ret, Session_get.
    destruct (negb (truthy (dict_get event "session_id" PNone))); [reflexivity|].
    destruct (dict_get event "session_id" PNone) as [| | |sid| |]; try reflexivity.
    rewrite Heq. destruct (sessions (data w) !! sid); reflexivity.
  - intros Hfalsy. unfold getoutput. rewrite Hfalsy. reflexivity.
Qed.

Lemma getoutput_only_reads_witness :
  getoutput [("session_id", PStr "")] Demo.Teal.demo_world =
    (Ok (fail "No session ID" 400 []), Demo.Teal.demo_world).
Proof.
  exact (proj2 (proj2 (getoutput_only_reads [("session_id", PStr "")]
                                            Demo.Teal.demo_world)) eq_refl).
Defined.

Lemma dict_get_setitem (d : list (string * pyval)) (k k' : string) (v dflt : pyval) :
  dict_get (dict_setitem d k v) k' dflt =
    if String.eqb k k' then v else dict_get d k' dflt.
Proof.
  induction d as [|[k0 v0] d IH]; cbn; [reflexivity|].
  destruct (String.eqb_spec k0 k) as [->|Hne]; cbn.
  - destruct (String.eqb k k'); reflexivity.
  - rewrite IH. destruct (String.eqb_spec k0 k') as [->|Hne'].
    + apply not_eq_sym, String.eqb_neq in Hne. rewrite Hne. reflexivity.
    + reflexivity.
Qed.

Lemma dict_get_merge (d2 : list (string * pyval)) :
  NoDup (dict_keys d2) ->
  forall (d1 : list (string * pyval)) (k : string) (dflt : pyval),
    dict_get (dict_merge d1 d2) k dflt = dict_get d2 k (dict_get d1 k dflt).
Proof.
  induction d2 as [|[k0 v0] d2 IH]; intros Hnodup d1 k dflt; [reflexivity|].
  cbn in Hnodup. apply NoDup_cons in Hnodup as [Hfresh Hnodup].
  change (dict_merge d1 ((k0, v0) :: d2)) with (dict_merge (dict_setitem d1 k0 v0) d2).
  rewrite (IH Hnodup), dict_get_setitem. cbn.
  destruct (String.eqb_spec k0 k) as [->|Hne]; [|reflexivity].
  apply TealLambdaFacts.dict_get_absent. exact Hfresh.
Qed.

Lemma dict_setitem_fresh (d : list (string * pyval)) (k : string) (v : pyval) :
  k ∉ dict_keys d -> dict_setitem d k v = (d ++ [(k, v)])%list.
Proof.
  induction d as [|[k0 v0] d IH]; cbn; [reflexivity|].
  intros [Hne Hfresh]%not_elem_of_cons.
  apply not_eq_sym, String.eqb_neq in Hne. rewrite Hne, (IH Hfresh). reflexivity.
Qed.

Lemma dict_merge_fresh (d2 : list (string * pyval)) :
  NoDup (dict_keys d2) ->
  forall d1 : list (string * pyval),
    (forall k, k ∈ dict_keys d2 -> k ∉ dict_keys d1) ->
    dict_merge d1 d2 = (d1 ++ d2)%list.
Proof.
  induction d2 as [|[k0 v0] d2 IH]; intros Hnodup d1 Hfresh.
  - cbn. rewrite app_nil_r. reflexivity.
  - cbn in Hnodup. apply NoDup_cons in Hnodup as [Hk0 Hnodup].
    change (dict_merge d1 ((k0, v0) :: d2)) with (dict_merge (dict_setitem d1 k0 v0) d2).
    rewrite dict_setitem_fresh by (apply Hfresh; cbn; apply list_elem_of_here).
    rewrite (IH Hnodup).
    + rewrite <- app_assoc. reflexivity.
    + intros k Hk. unfold dict_keys. rewrite fmap_app. cbn.
      intros [Hin|Hin]%elem_of_app.
      * apply (Hfresh k); [cbn; apply list_elem_of_further; exact Hk | exact Hin].
      * apply list_elem_of_singleton in Hin as ->. contradiction.
Qed.

(** X29: the body of a failure response. For keyword arguments [body_data]
    (their names are distinct), [fail(msg, code, **body_data)] has status
    [code]; every field other than [message] is read from the keywords; the
    [message] field is [msg] unless a keyword is itself named [message], which
    then replaces it; and when no keyword is named [message], the body is the
    message followed by the keywords in the order given. *)
Theorem fail_body_layout (msg : string) (code : Z) (body_data : list (string * pyval)) :
  NoDup (dict_keys body_data) ->
  statusCode (fail msg code body_data) = code /\
  body_get (fail msg code body_data) "message" =
    dict_get body_data "message" (PStr msg) /\
  (forall k : string, k <> "message" ->
     body_get (fail msg code body_data) k = dict_get body_data k PNone) /\
  ("message" ∉ dict_keys body_data ->
     body (fail msg code body_data) = Dumps (PDict (("message", PStr msg) :: body_data))).
Proof.
  intros Hnodup. split; [reflexivity|]. split; [|split].
  - unfold body_get, fail. cbn [body]. rewrite (dict_get_merge _ Hnodup). reflexivity.
  - intros k Hne. unfold body_get, fail. cbn [body].
    rewrite (dict_get_merge _ Hnodup), dict_get_cons_other by congruence. reflexivity.
  - intros Hfresh. unfold fail. cbn [body]. rewrite (dict_merge_fresh _ Hnodup).
    + reflexivity.
    + intros k Hk. cbn. intros Hin%list_elem_of_singleton. congruence.
Qed.

Lemma fail_body_layout_witness :
  body_get (fail "Runtime error" 400 [("message", PStr "other"); ("session_id", PStr "s-1")])
           "message" = PStr "other" /\
  body (fail "Runtime error" 400 [("session_id", PStr "s-1")]) =
    Dumps (PDict [("message", PStr "Runtime error"); ("session_id", PStr "s-1")]).
Proof.
  split.
  - refine (proj1 (proj2 (fail_body_layout "Runtime error" 400
                            [("message", PStr "other"); ("session_id", PStr "s-1")] _))).
    compute_done.
  - refine (proj2 (proj2 (proj2 (fail_body_layout "Runtime error" 400
                                    [("session_id", PStr "s-1")] _))) _);
      compute_done.
Defined.

End TealLambdaExtFacts.
